(** * generar_figuras.py: the data part of the thirteen figures

    A shallow embedding of [src/código/generar_figuras.py]: the loader, the
    filter / aggregate / sort / pivot computations of every [figN_...]
    function, and the pipeline [generar_todas_las_figuras].

    Numbers.  The table holds decimal rates; they are taken as exact
    rationals ([Q]).  The results of divisions and of means are values of
    [num]: a rational, an infinity or NaN, with the IEEE rules for the
    special cases (x/0, mean of nothing).  Rounding of binary floating
    point is not modelled.

    Rendering.  What matplotlib draws is kept as the numbers handed to it.
    The drawing itself is outside the model, but for the two ways a
    plotting call fails on the numbers computed: an axis limit that is not
    finite, and a heat map without cells. *)

From Stdlib Require Import QArith ZArith List String Bool Lia Lqa Permutation.
From Stdlib Require Import Sorted OrdersEx Morphisms Setoid.
Import ListNotations.

Open Scope Q_scope.

(** ** Numbers with the IEEE special values *)

Module Num.

Inductive num : Type :=
| Fin (q : Q)
| PInf
| NInf
| NaN.

(** The same value: rationals up to [==], and each special value with
    itself (the identity of values, not the [==] of floats). *)
Definition same (x y : num) : Prop :=
  match x, y with
  | Fin a, Fin b => a == b
  | PInf, PInf => True
  | NInf, NInf => True
  | NaN, NaN => True
  | _, _ => False
  end.

Definition sameb (x y : num) : bool :=
  match x, y with
  | Fin a, Fin b => Qeq_bool a b
  | PInf, PInf => true
  | NInf, NInf => true
  | NaN, NaN => true
  | _, _ => false
  end.

Definition is_nan (x : num) : bool :=
  match x with NaN => true | _ => false end.

Definition is_finite (x : num) : bool :=
  match x with Fin _ => true | _ => false end.

Definition sign (q : Q) : comparison := Qcompare q 0.

Definition neg (x : num) : num :=
  match x with
  | Fin a => Fin (- a)
  | PInf => NInf
  | NInf => PInf
  | NaN => NaN
  end.

Definition add (x y : num) : num :=
  match x, y with
  | NaN, _ | _, NaN => NaN
  | Fin a, Fin b => Fin (a + b)
  | PInf, NInf | NInf, PInf => NaN
  | PInf, _ | _, PInf => PInf
  | NInf, _ | _, NInf => NInf
  end.

Definition sub (x y : num) : num := add x (neg y).

(** An infinity times a rational: the sign decides, zero gives NaN. *)
Definition inf_times (positive : bool) (q : Q) : num :=
  match sign q with
  | Eq => NaN
  | Gt => if positive then PInf else NInf
  | Lt => if positive then NInf else PInf
  end.

Definition mul (x y : num) : num :=
  match x, y with
  | NaN, _ | _, NaN => NaN
  | Fin a, Fin b => Fin (a * b)
  | PInf, Fin b => inf_times true b
  | NInf, Fin b => inf_times false b
  | Fin a, PInf => inf_times true a
  | Fin a, NInf => inf_times false a
  | PInf, PInf | NInf, NInf => PInf
  | PInf, NInf | NInf, PInf => NInf
  end.

(** Division of numpy floats: a zero divisor gives an infinity, or NaN for
    0/0, and raises nothing. *)
Definition div (x y : num) : num :=
  match x, y with
  | NaN, _ | _, NaN => NaN
  | Fin a, Fin b =>
      match sign b with
      | Eq => inf_times true a
      | _ => Fin (a / b)
      end
  | Fin _, (PInf | NInf) => Fin 0
  | PInf, Fin b =>
      match sign b with Lt => NInf | _ => PInf end
  | NInf, Fin b =>
      match sign b with Lt => PInf | _ => NInf end
  | (PInf | NInf), (PInf | NInf) => NaN
  end.

(** [x < y] and [x > y] as the comparison operators give them: false as
    soon as one side is NaN. *)
Definition ltb (x y : num) : bool :=
  match x, y with
  | NaN, _ | _, NaN => false
  | Fin a, Fin b => match Qcompare a b with Lt => true | _ => false end
  | NInf, NInf => false
  | NInf, _ => true
  | _, NInf => false
  | PInf, _ => false
  | _, PInf => true
  end.

Definition gtb (x y : num) : bool := ltb y x.

Definition lt (x y : num) : Prop := ltb x y = true.

Definition of_Z (z : Z) : num := Fin (inject_Z z).

End Num.

Import Num.

Declare Scope num_scope.
Delimit Scope num_scope with num.
Infix "+" := Num.add : num_scope.
Infix "-" := Num.sub : num_scope.
Infix "*" := Num.mul : num_scope.
Infix "/" := Num.div : num_scope.
Infix "=n=" := Num.same (at level 70, no associativity).

(** ** Percent change

    [((fin - inicio) / inicio) * 100], as written in
    [fig3_evolucion_causas_especificas], [fig9_tendencia_suicidio],
    [fig12_impacto_covid] and [fig13_dashboard_resumen]. *)
Definition pc (start end_ : num) : num :=
  (((end_ - start) / start) * Fin 100)%num.

(** ** The table *)

(** One row of the CSV, with the eight columns the script reads. *)
Record Obs : Type := mkObs {
  periodo : Z;
  causa_mortalidad : string;
  sexo : string;
  ubicacion : string;
  provincia : string;
  nivel_geografico : string;
  tasa_mortalidad : Q;
  esperanza_vida : Q
}.

(** A DataFrame: the header names and the rows.  A frame read from a file
    with other headers has other [columns]; selecting a column that is not
    there raises [KeyError]. *)
Record DataFrame : Type := mkDF {
  columns : list string;
  rows : list Obs
}.

Definition expected_columns : list string :=
  ["periodo"; "causa_mortalidad"; "sexo"; "ubicacion"; "provincia";
   "nivel_geografico"; "tasa_mortalidad"; "esperanza_vida"]%string.

(** The frame of a table that has all eight columns. *)
Definition frame_of (t : list Obs) : DataFrame :=
  {| columns := expected_columns; rows := t |}.

(** ** Exceptions *)

(** [IndexError] carries the name of the variable whose assignment indexes
    element 0 of an empty selection, which is the point where it is raised. *)
Inductive error : Type :=
| FileNotFoundError (path : string)
| KeyError (key : string)
| IndexError (site : string)
| ValueError (site : string)
| TypeError
| LibraryError (msg : string).

Inductive result (A : Type) : Type :=
| Ok (a : A)
| Err (e : error).
Arguments Ok {A} a.
Arguments Err {A} e.

Definition rbind {A B} (r : result A) (k : A -> result B) : result B :=
  match r with
  | Ok a => k a
  | Err e => Err e
  end.

Declare Scope result_scope.
Delimit Scope result_scope with result.
Notation "x <- e ;; k" := (rbind e (fun x => k))
  (at level 61, e at next level, right associativity) : result_scope.
Notation "e ;;; k" := (rbind e (fun _ => k))
  (at level 61, right associativity) : result_scope.

Open Scope result_scope.

Fixpoint mapM {A B} (f : A -> result B) (l : list A) : result (list B) :=
  match l with
  | [] => Ok []
  | x :: r => y <- f x ;; ys <- mapM f r ;; Ok (y :: ys)
  end.

(** ** Column selection, filters, element 0 *)

(** [df[name]]. *)
Definition column (df : DataFrame) (name : string) : result unit :=
  if existsb (String.eqb name) (columns df) then Ok tt else Err (KeyError name).

(** [df[mask]]: a new frame with the rows where the mask holds. *)
Definition where_ (df : DataFrame) (mask : Obs -> bool) : DataFrame :=
  {| columns := columns df; rows := filter mask (rows df) |}.

Definition is_ (f : Obs -> string) (v : string) (o : Obs) : bool :=
  String.eqb (f o) v.

Definition in_year (y : Z) (o : Obs) : bool := Z.eqb (periodo o) y.

(** [periodo.isin(years)]. *)
Definition isin (years : list Z) (o : Obs) : bool :=
  existsb (Z.eqb (periodo o)) years.

(** [.values[0]]. *)
Definition values0 {A} (site : string) (l : list A) : result A :=
  match l with
  | x :: _ => Ok x
  | [] => Err (IndexError site)
  end.

(** ** Means *)

Definition Qsum (l : list Q) : Q := fold_right Qplus 0 l.

(** [Series.mean()] of a column of the table: NaN for no rows. *)
Definition mean (l : list Q) : num :=
  match l with
  | [] => NaN
  | _ => Fin (Qsum l / inject_Z (Z.of_nat (List.length l)))
  end.

Definition nsum (l : list num) : num := fold_right Num.add (Fin 0) l.

(** [mean] with [skipna]: the NaN entries are left out. *)
Definition nanmean (l : list num) : num :=
  let kept := filter (fun x => negb (is_nan x)) l in
  match kept with
  | [] => NaN
  | _ => (nsum kept / of_Z (Z.of_nat (List.length kept)))%num
  end.

(** Python's [max] of a non-empty list: the first element that no later
    one exceeds under [>]. *)
Definition py_max (site : string) (l : list num) : result num :=
  match l with
  | [] => Err (ValueError site)
  | x :: r => Ok (fold_left (fun acc y => if gtb y acc then y else acc) r x)
  end.

(** [ax.set_xlim(0, v)] and [ax.set_ylim(0, v)]: matplotlib refuses a
    limit that is NaN or infinite. *)
Definition set_lim (site : string) (v : num) : result unit :=
  if is_finite v then Ok tt else Err (ValueError site).

(** ** Sorting *)

Section StableSort.
Context {A : Type} (before : A -> A -> bool).

Fixpoint insert_sorted (x : A) (l : list A) : list A :=
  match l with
  | [] => [x]
  | y :: r => if before y x then y :: insert_sorted x r else x :: l
  end.

(** Modelled from the spec: the sort kernel of numpy and pandas (the
    library code behind [np.argsort] and [sort_values]) is not part of
    the sources; it is a stable sort, ties staying in the order of the
    input, as the specification states for every sort of the program. *)
Definition stable_sort (l : list A) : list A :=
  fold_right insert_sorted [] l.
End StableSort.

Definition enumerate {A} (l : list A) : list (nat * A) :=
  combine (seq 0 (List.length l)) l.

Definition by_value (a b : nat * num) : bool := Num.ltb (snd a) (snd b).

(** [np.argsort(v)]: the indices that sort [v] in ascending order, the
    NaN entries last. *)
Definition argsort (v : list num) : list nat :=
  let items := enumerate v in
  map fst (stable_sort by_value (filter (fun p => negb (is_nan (snd p))) items))
  ++ map fst (filter (fun p => is_nan (snd p)) items).

(** The indexer of [sort_values(by, ascending=...)], as pandas builds it:
    the rows without NaN sorted (for a descending order: reversed, sorted
    ascending, reversed again), and the NaN rows placed last. *)
Definition nargsort (ascending : bool) (v : list num) : list nat :=
  let items := enumerate v in
  let non_nans := filter (fun p => negb (is_nan (snd p))) items in
  let nan_idx := map fst (filter (fun p => is_nan (snd p)) items) in
  let indexer :=
    if ascending then map fst (stable_sort by_value non_nans)
    else rev (map fst (stable_sort by_value (rev non_nans))) in
  indexer ++ nan_idx.

(** Rows [l] taken in the order [perm]. *)
Definition take {A} (l : list A) (perm : list nat) : list A :=
  flat_map (fun i => match nth_error l i with Some x => [x] | None => [] end) perm.

(** [sort_values('periodo')]. *)
Definition sort_by_periodo (df : DataFrame) : DataFrame :=
  {| columns := columns df;
     rows := stable_sort (fun a b => Z.ltb (periodo a) (periodo b)) (rows df) |}.

(** ** Group by *)

Section GroupBy.
Context {K : Type} (cmp : K -> K -> comparison).

Fixpoint insert_key (k : K) (l : list K) : list K :=
  match l with
  | [] => [k]
  | x :: r =>
      match cmp k x with
      | Eq => l
      | Lt => k :: l
      | Gt => x :: insert_key k r
      end
  end.

(** The group keys: the distinct values, in sorted order. *)
Definition group_keys (l : list K) : list K := fold_right insert_key [] l.

Definition key_is (key : Obs -> K) (k : K) (o : Obs) : bool :=
  match cmp (key o) k with Eq => true | _ => false end.

(** [groupby(key)[val].mean()]. *)
Definition groupby_mean (key : Obs -> K) (val : Obs -> Q) (t : list Obs)
  : list (K * num) :=
  map (fun k => (k, mean (map val (filter (key_is key k) t))))
      (group_keys (map key t)).
End GroupBy.

Definition str_cmp : string -> string -> comparison := String_as_OT.compare.

Definition pair_cmp (a b : string * string) : comparison :=
  match str_cmp (fst a) (fst b) with
  | Eq => str_cmp (snd a) (snd b)
  | c => c
  end.

Open Scope string_scope.
Open Scope list_scope.
Open Scope Q_scope.
Open Scope result_scope.

(** ** Helpers shared by the figures *)

Fixpoint need (df : DataFrame) (names : list string) : result unit :=
  match names with
  | [] => Ok tt
  | n :: r => column df n ;;; need df r
  end.

Definition CV : string := "Comunitat Valenciana".
Definition OUTPUT_DIR : string := "figuras".

(** The pairs (periodo, value) handed to [ax.plot]. *)
Definition serie (f : Obs -> Q) (df : DataFrame) : list (Z * Q) :=
  map (fun o => (periodo o, f o)) (rows df).

Definition cv_rows (causa sexo_ : string) (o : Obs) : bool :=
  is_ ubicacion CV o && is_ causa_mortalidad causa o && is_ sexo sexo_ o.

(** [h/m] of the loops over causes: the mean rate of the men's rows over
    the mean rate of the women's rows. *)
Definition ratio_hm (df : DataFrame) (causa : string) : num :=
  let h := mean (map tasa_mortalidad (rows (where_ df (cv_rows causa "Hombres")))) in
  let m := mean (map tasa_mortalidad (rows (where_ df (cv_rows causa "Mujeres")))) in
  (h / m)%num.

(** ** Figure 1 *)

Record plot1 : Type := mkPlot1 {
  p1_lines : list (string * list (Z * Q));
  p1_mort_2023 : Q;
  p1_mort_2021 : Q
}.

Definition fig1_plot (df : DataFrame) : result plot1 :=
  need df ["ubicacion"; "causa_mortalidad"] ;;;
  let cv_general :=
    where_ df (fun o => is_ ubicacion CV o && is_ causa_mortalidad "General" o) in
  lines <- mapM (fun s =>
             need cv_general ["sexo"; "periodo"; "tasa_mortalidad"] ;;;
             let data := sort_by_periodo (where_ cv_general (is_ sexo s)) in
             Ok (s, serie tasa_mortalidad data))
           ["Ambos sexos"; "Hombres"; "Mujeres"] ;;
  let cv_ambos := sort_by_periodo (where_ cv_general (is_ sexo "Ambos sexos")) in
  mort_2023 <- values0 "mort_2023"
                 (map tasa_mortalidad (rows (where_ cv_ambos (in_year 2023)))) ;;
  mort_2021 <- values0 "mort_2021"
                 (map tasa_mortalidad (rows (where_ cv_ambos (in_year 2021)))) ;;
  Ok {| p1_lines := lines; p1_mort_2023 := mort_2023; p1_mort_2021 := mort_2021 |}.

(** ** Figure 2 *)

Record plot2 : Type := mkPlot2 {
  p2_causas_data : list (string * num);
  p2_bars : list (string * num);
  p2_xlim : num
}.

(** [Series.drop(label)]: [KeyError] when the label is not in the index. *)
Definition drop_label {A} (label : string) (s : list (string * A))
  : result (list (string * A)) :=
  if existsb (fun p => String.eqb (fst p) label) s
  then Ok (filter (fun p => negb (String.eqb (fst p) label)) s)
  else Err (KeyError label).

(** The group means of figure 2, before they are sorted. *)
Definition causas_mean (df : DataFrame) : list (string * num) :=
  groupby_mean str_cmp causa_mortalidad tasa_mortalidad
    (rows (where_ df (fun o => is_ ubicacion CV o && is_ sexo "Ambos sexos" o))).

Definition fig2_plot (df : DataFrame) : result plot2 :=
  need df ["ubicacion"; "sexo"; "causa_mortalidad"; "tasa_mortalidad"] ;;;
  let causas_data := causas_mean df in
  let causas_data := take causas_data (nargsort true (map snd causas_data)) in
  causas_especificas <- drop_label "General" causas_data ;;
  m <- py_max "xlim" (map snd causas_especificas) ;;
  let xlim := (m * Fin (115 # 100))%num in
  set_lim "xlim" xlim ;;;
  Ok {| p2_causas_data := causas_data;
        p2_bars := causas_especificas;
        p2_xlim := xlim |}.

(** ** Figure 3 *)

Record panel3 : Type := mkPanel3 {
  p3_causa : string;
  p3_line : list (Z * Q);
  p3_cambio : num;
  p3_baja : bool
}.

Definition fig3_panel (df : DataFrame) (causa : string) : result panel3 :=
  need df ["ubicacion"; "causa_mortalidad"; "sexo"; "periodo"; "tasa_mortalidad"] ;;;
  let data := sort_by_periodo (where_ df (cv_rows causa "Ambos sexos")) in
  inicio <- values0 "inicio"
              (map tasa_mortalidad (rows (where_ data (in_year 2010)))) ;;
  fin <- values0 "fin"
           (map tasa_mortalidad (rows (where_ data (in_year 2023)))) ;;
  let cambio := pc (Fin inicio) (Fin fin) in
  Ok {| p3_causa := causa;
        p3_line := serie tasa_mortalidad data;
        p3_cambio := cambio;
        p3_baja := Num.ltb cambio (Fin 0) |}.

Definition fig3_plot (df : DataFrame) : result (list panel3) :=
  mapM (fig3_panel df) ["Cancer"; "Cardio"; "Cerebro"; "Suicidio"].

(** ** Figure 4 *)

Record plot4 : Type := mkPlot4 {
  p4_ratios : list num;
  p4_orden : list nat;
  p4_causas_ord : list string;
  p4_ratios_ord : list num;
  p4_xlim : num
}.

Definition fig4_causas : list string :=
  ["General"; "Cancer"; "Cardio"; "Cerebro"; "Suicidio"].

(** The list [ratios] after the loop over [causas]. *)
Definition fig4_ratios (df : DataFrame) : list num :=
  map (ratio_hm df) fig4_causas.

Definition fig4_plot (df : DataFrame) : result plot4 :=
  need df ["ubicacion"; "causa_mortalidad"; "sexo"; "tasa_mortalidad"] ;;;
  let causas := fig4_causas in
  let ratios := fig4_ratios df in
  let orden := rev (argsort ratios) in
  let causas_ord := map (fun i => nth i causas "") orden in
  let ratios_ord := map (fun i => nth i ratios NaN) orden in
  m <- py_max "xlim" ratios_ord ;;
  let xlim := (m * Fin (12 # 10))%num in
  set_lim "xlim" xlim ;;;
  Ok {| p4_ratios := ratios;
        p4_orden := orden;
        p4_causas_ord := causas_ord;
        p4_ratios_ord := ratios_ord;
        p4_xlim := xlim |}.

(** ** Figure 5 *)

Record plot5 : Type := mkPlot5 {
  p5_tasas_h : list num;
  p5_tasas_m : list num
}.

Definition fig5_plot (df : DataFrame) : result plot5 :=
  need df ["ubicacion"; "causa_mortalidad"; "sexo"; "tasa_mortalidad"] ;;;
  let causas := ["Cancer"; "Cardio"; "Cerebro"; "Suicidio"] in
  let tasa s c := mean (map tasa_mortalidad (rows (where_ df (cv_rows c s)))) in
  Ok {| p5_tasas_h := map (tasa "Hombres") causas;
        p5_tasas_m := map (tasa "Mujeres") causas |}.

(** ** Figure 6 *)

Record plot6 : Type := mkPlot6 {
  p6_lines : list (string * list (Z * Q));
  p6_ev_h_2023 : Q;
  p6_ev_m_2023 : Q;
  p6_brecha : Q
}.

Definition fig6_plot (df : DataFrame) : result plot6 :=
  lines <- mapM (fun s =>
             need df ["ubicacion"; "causa_mortalidad"; "sexo"; "periodo";
                      "esperanza_vida"] ;;;
             let data := sort_by_periodo (where_ df (cv_rows "General" s)) in
             Ok (s, serie esperanza_vida data))
           ["Hombres"; "Mujeres"; "Ambos sexos"] ;;
  ev_h_2023 <- values0 "ev_h_2023"
                 (map esperanza_vida
                    (rows (where_ df (fun o => cv_rows "General" "Hombres" o
                                               && in_year 2023 o)))) ;;
  ev_m_2023 <- values0 "ev_m_2023"
                 (map esperanza_vida
                    (rows (where_ df (fun o => cv_rows "General" "Mujeres" o
                                               && in_year 2023 o)))) ;;
  Ok {| p6_lines := lines;
        p6_ev_h_2023 := ev_h_2023;
        p6_ev_m_2023 := ev_m_2023;
        p6_brecha := ev_m_2023 - ev_h_2023 |}.

(** ** Figure 7 *)

Record plot7 : Type := mkPlot7 {
  p7_ranking : list ((string * string) * num);
  p7_media : num
}.

Definition departamentos (o : Obs) : bool :=
  is_ causa_mortalidad "General" o && is_ sexo "Ambos sexos" o
  && is_ nivel_geografico "HOSPITAL/ZONA SALUD" o.

(** The frame of figure 7 after [groupby(...).agg(...).reset_index()],
    before [sort_values]: one row per (ubicacion, provincia), in key order. *)
Definition fig7_grouped (df : DataFrame) : list ((string * string) * num) :=
  groupby_mean pair_cmp (fun o => (ubicacion o, provincia o)) tasa_mortalidad
    (rows (where_ df departamentos)).

Definition fig7_plot (df : DataFrame) : result plot7 :=
  need df ["causa_mortalidad"; "sexo"; "nivel_geografico"; "ubicacion";
           "provincia"; "tasa_mortalidad"] ;;;
  let grouped := fig7_grouped df in
  let ranking := take grouped (nargsort true (map snd grouped)) in
  Ok {| p7_ranking := ranking; p7_media := nanmean (map snd ranking) |}.

(** ** Series reductions with [skipna] *)

Definition nmax (l : list num) : num :=
  match filter (fun x => negb (is_nan x)) l with
  | [] => NaN
  | x :: r => fold_left (fun acc y => if Num.ltb acc y then y else acc) r x
  end.

Definition nmin (l : list num) : num :=
  match filter (fun x => negb (is_nan x)) l with
  | [] => NaN
  | x :: r => fold_left (fun acc y => if Num.ltb y acc then y else acc) r x
  end.

(** [Series.nlargest(n)] and [Series.nsmallest(n)], with [keep='first']. *)
Definition nlargest {A} (n : nat) (s : list (A * num)) : list (A * num) :=
  let s := filter (fun p => negb (is_nan (snd p))) s in
  firstn n (take s (nargsort false (map snd s))).

Definition nsmallest {A} (n : nat) (s : list (A * num)) : list (A * num) :=
  let s := filter (fun p => negb (is_nan (snd p))) s in
  firstn n (take s (nargsort true (map snd s))).

(** ** The pivot of figure 8 *)

Inductive label : Type :=
| LInt (z : Z)
| LStr (s : string).

Definition label_eqb (a b : label) : bool :=
  match a, b with
  | LInt x, LInt y => Z.eqb x y
  | LStr x, LStr y => String.eqb x y
  | _, _ => false
  end.

(** A frame of numbers: the row labels, the column labels and the cells,
    one list per row. *)
Record Pivot : Type := mkPivot {
  pindex : list string;
  pcolumns : list label;
  pdata : list (list num)
}.

(** [pivot_table(index='ubicacion', columns='periodo',
    values='tasa_mortalidad')]: the mean of the rows of each
    (ubicacion, periodo), NaN where there is none. *)
Definition pivot_table (t : list Obs) : Pivot :=
  let locs := group_keys str_cmp (map ubicacion t) in
  let years := group_keys Z.compare (map periodo t) in
  {| pindex := locs;
     pcolumns := map LInt years;
     pdata :=
       map (fun u =>
              map (fun y =>
                     mean (map tasa_mortalidad
                             (filter (fun o => is_ ubicacion u o && in_year y o) t)))
                  years)
           locs |}.

Fixpoint position (l : label) (cols : list label) : option nat :=
  match cols with
  | [] => None
  | c :: r => if label_eqb c l then Some O
              else match position l r with
                   | Some n => Some (S n)
                   | None => None
                   end
  end.

Fixpoint replace_nth {A} (n : nat) (x : A) (l : list A) : list A :=
  match l, n with
  | [], _ => []
  | _ :: r, O => x :: r
  | y :: r, S n' => y :: replace_nth n' x r
  end.

(** [p[l] = vals]: a new last column, or the column [l] overwritten. *)
Definition set_column (p : Pivot) (l : label) (vals : list num) : Pivot :=
  match position l (pcolumns p) with
  | Some n =>
      {| pindex := pindex p;
         pcolumns := pcolumns p;
         pdata := map (fun rv => replace_nth n (snd rv) (fst rv))
                      (combine (pdata p) vals) |}
  | None =>
      {| pindex := pindex p;
         pcolumns := pcolumns p ++ [l];
         pdata := map (fun rv => fst rv ++ [snd rv]) (combine (pdata p) vals) |}
  end.

Definition get_column (p : Pivot) (l : label) (name : string)
  : result (list num) :=
  match position l (pcolumns p) with
  | Some n => Ok (map (fun r => nth n r NaN) (pdata p))
  | None => Err (KeyError name)
  end.

Fixpoint remove_nth {A} (n : nat) (l : list A) : list A :=
  match l, n with
  | [], _ => []
  | _ :: r, O => r
  | y :: r, S n' => y :: remove_nth n' r
  end.

(** [p.mean(axis=1)]. *)
Definition row_means (p : Pivot) : list num := map nanmean (pdata p).

(** [p.sort_values(name, ascending=...)]: a new frame. *)
Definition pivot_sort_values (p : Pivot) (l : label) (name : string)
  (ascending : bool) : result Pivot :=
  v <- get_column p l name ;;
  let perm := nargsort ascending v in
  Ok {| pindex := take (pindex p) perm;
        pcolumns := pcolumns p;
        pdata := take (pdata p) perm |}.

(** [p.drop(name, axis=1)]: a new frame. *)
Definition pivot_drop (p : Pivot) (l : label) (name : string) : result Pivot :=
  match position l (pcolumns p) with
  | Some n =>
      Ok {| pindex := pindex p;
            pcolumns := remove_nth n (pcolumns p);
            pdata := map (remove_nth n) (pdata p) |}
  | None => Err (KeyError name)
  end.

(** [sns.heatmap(p, ...)]: the colour scale is taken from the cells, which
    fails with [ValueError] when there is none. *)
Definition heatmap (p : Pivot) : result unit :=
  match List.concat (pdata p) with
  | [] => Err (ValueError "heatmap")
  | _ => Ok tt
  end.

Record plot8 : Type := mkPlot8 {
  p8_heatmap : Pivot;
  p8_covid_columns : list nat
}.

(** The columns framed in red: the positions of 2020 and 2021. *)
Definition covid_columns (cols : list label) : list nat :=
  map fst (filter (fun ic => label_eqb (snd ic) (LInt 2020)
                             || label_eqb (snd ic) (LInt 2021))
                  (enumerate cols)).

(** ** Figures 9 to 13 *)

Record plot9 : Type := mkPlot9 {
  p9_lines : list (string * list (Z * Q));
  p9_trend : list (Z * num);
  p9_cambio : num;
  p9_ratio_hm : num
}.

Record plot10 : Type := mkPlot10 {
  p10_points : list (string * list (Q * Q));
  p10_line : list (num * num);
  p10_corr : num
}.

Record plot11 : Type := mkPlot11 {
  p11_lines : list (string * list (Z * Q));
  p11_cv : list (Z * Q)
}.

Record plot12 : Type := mkPlot12 {
  p12_pre_covid : num;
  p12_valores : list num;
  p12_variaciones : list num;
  p12_ylim1 : num;
  p12_ylim2 : num
}.

Record plot13 : Type := mkPlot13 {
  p13_mort_2023 : Q;
  p13_cambio_mort : num;
  p13_ev_dashboard : Q;
  p13_brecha_genero : Q;
  p13_promedio_historico : num;
  p13_exceso_covid : num;
  p13_valores_covid : list num;
  p13_causas_ord : list string;
  p13_ratios_ord : list num;
  p13_depts : list string;
  p13_vals : list num;
  p13_disparidad : num;
  p13_suicidio : list (Z * Q);
  p13_cambio_suic : num
}.

(** [poly1d(z)(x)]: the polynomial with coefficients [z], highest degree
    first. *)
Definition poly1d (z : list num) (x : num) : num :=
  fold_left (fun acc c => (acc * x + c)%num) z (Fin 0).

(** [np.linspace(a, b, n)]. *)
Definition linspace (a b : num) (n : nat) : list num :=
  let step := ((b - a) / of_Z (Z.of_nat (n - 1)))%num in
  map (fun i => (a + of_Z (Z.of_nat i) * step)%num) (seq 0 n).

Definition general_ambos (df : DataFrame) : DataFrame :=
  sort_by_periodo (where_ df (cv_rows "General" "Ambos sexos")).

Definition tasa_of (df : DataFrame) (mask : Obs -> bool) : list Q :=
  map tasa_mortalidad (rows (where_ df mask)).

(** The baseline of figure 12: the mean rate of the rows of 2018 and 2019. *)
Definition fig12_pre_covid (df : DataFrame) : num :=
  mean (tasa_of (general_ambos df) (isin [2018; 2019]%Z)).

Definition fig12_plot (df : DataFrame) : result plot12 :=
  need df ["ubicacion"; "causa_mortalidad"; "sexo"; "periodo"; "tasa_mortalidad"] ;;;
  let cv_general := general_ambos df in
  let pre_covid := fig12_pre_covid df in
  covid_2020 <- values0 "covid_2020" (tasa_of cv_general (in_year 2020)) ;;
  covid_2021 <- values0 "covid_2021" (tasa_of cv_general (in_year 2021)) ;;
  let post_covid := mean (tasa_of cv_general (isin [2022; 2023]%Z)) in
  let valores := [pre_covid; Fin covid_2020; Fin covid_2021; post_covid] in
  m1 <- py_max "ylim" valores ;;
  let ylim1 := (m1 * Fin (118 # 100))%num in
  set_lim "ylim" ylim1 ;;;
  let variaciones :=
    [Fin 0; pc pre_covid (Fin covid_2020); pc pre_covid (Fin covid_2021);
     pc pre_covid post_covid] in
  m2 <- py_max "ylim" variaciones ;;
  let ylim2 := (m2 * Fin (13 # 10))%num in
  set_lim "ylim" ylim2 ;;;
  Ok {| p12_pre_covid := pre_covid;
        p12_valores := valores;
        p12_variaciones := variaciones;
        p12_ylim1 := ylim1;
        p12_ylim2 := ylim2 |}.

(** The baseline of the COVID excess of figure 13: the mean rate of the
    rows up to 2019. *)
Definition fig13_promedio_historico (df : DataFrame) : num :=
  mean (tasa_of (general_ambos df) (fun o => Z.leb (periodo o) 2019)).

Definition fig13_causas_ratio : list string :=
  ["Suicidio"; "Cardio"; "Cancer"; "General"; "Cerebro"].

Definition fig13_plot (df : DataFrame) : result plot13 :=
  need df ["ubicacion"; "causa_mortalidad"; "sexo"; "periodo"; "tasa_mortalidad"] ;;;
  let cv_general_ambos := general_ambos df in
  mort_2023 <- values0 "mort_2023" (tasa_of cv_general_ambos (in_year 2023)) ;;
  mort_2010 <- values0 "mort_2010" (tasa_of cv_general_ambos (in_year 2010)) ;;
  let cambio_mort := pc (Fin mort_2010) (Fin mort_2023) in
  let ev_dashboard := 206 # 10 in
  let cv_gen_2022 :=
    where_ df (fun o => is_ ubicacion CV o && is_ causa_mortalidad "General" o
                        && in_year 2022 o) in
  need cv_gen_2022 ["esperanza_vida"] ;;;
  ev_h_2022 <- values0 "ev_h_2022"
                 (map esperanza_vida (rows (where_ cv_gen_2022 (is_ sexo "Hombres")))) ;;
  ev_m_2022 <- values0 "ev_m_2022"
                 (map esperanza_vida (rows (where_ cv_gen_2022 (is_ sexo "Mujeres")))) ;;
  let brecha_genero := ev_m_2022 - ev_h_2022 in
  let promedio_historico := fig13_promedio_historico df in
  covid_2021 <- values0 "covid_2021" (tasa_of cv_general_ambos (in_year 2021)) ;;
  let exceso_covid := pc promedio_historico (Fin covid_2021) in
  let pre_covid := mean (tasa_of cv_general_ambos (isin [2018; 2019]%Z)) in
  covid_2020 <- values0 "covid_2020" (tasa_of cv_general_ambos (in_year 2020)) ;;
  let post_covid := mean (tasa_of cv_general_ambos (isin [2022; 2023]%Z)) in
  let causas_ratio := fig13_causas_ratio in
  let ratios_calculados := map (ratio_hm df) causas_ratio in
  need df ["nivel_geografico"] ;;;
  let ranking :=
    groupby_mean str_cmp ubicacion tasa_mortalidad (rows (where_ df departamentos)) in
  let top3 := nlargest 3 ranking in
  let bottom3 := nsmallest 3 ranking in
  let disparidad := pc (nmin (map snd ranking)) (nmax (map snd ranking)) in
  let suicidio := sort_by_periodo (where_ df (cv_rows "Suicidio" "Ambos sexos")) in
  suic_2010 <- values0 "suic_2010" (tasa_of suicidio (in_year 2010)) ;;
  suic_2023 <- values0 "suic_2023" (tasa_of suicidio (in_year 2023)) ;;
  let cambio_suic := pc (Fin suic_2010) (Fin suic_2023) in
  let orden := rev (argsort ratios_calculados) in
  let causas_ord := map (fun i => nth i causas_ratio "") orden in
  let ratios_ord := map (fun i => nth i ratios_calculados NaN) orden in
  m5 <- py_max "xlim" ratios_ord ;;
  set_lim "xlim" (m5 * Fin (115 # 100))%num ;;;
  let valores_covid := [pre_covid; Fin covid_2020; Fin covid_2021; post_covid] in
  m7 <- py_max "ylim" valores_covid ;;
  set_lim "ylim" (m7 * Fin (115 # 100))%num ;;;
  Ok {| p13_mort_2023 := mort_2023;
        p13_cambio_mort := cambio_mort;
        p13_ev_dashboard := ev_dashboard;
        p13_brecha_genero := brecha_genero;
        p13_promedio_historico := promedio_historico;
        p13_exceso_covid := exceso_covid;
        p13_valores_covid := valores_covid;
        p13_causas_ord := causas_ord;
        p13_ratios_ord := ratios_ord;
        p13_depts := map fst bottom3 ++ ["..."] ++ rev (map fst top3);
        p13_vals := map snd bottom3 ++ [Fin 0] ++ rev (map snd top3);
        p13_disparidad := disparidad;
        p13_suicidio := serie tasa_mortalidad suicidio;
        p13_cambio_suic := cambio_suic |}.

Definition fig11_provincias : list string := ["Alicante"; "Valencia"; "Castellón"].

Definition fig11_plot (df : DataFrame) : result plot11 :=
  lines <- mapM (fun p =>
             need df ["provincia"; "nivel_geografico"; "causa_mortalidad"; "sexo";
                      "periodo"] ;;;
             let data :=
               sort_by_periodo
                 (where_ df (fun o => is_ provincia p o
                                      && is_ nivel_geografico "PROVINCIA" o
                                      && is_ causa_mortalidad "General" o
                                      && is_ sexo "Ambos sexos" o)) in
             match rows data with
             | [] => Ok []
             | _ => need data ["tasa_mortalidad"] ;;;
                    Ok [(p, serie tasa_mortalidad data)]
             end)
           fig11_provincias ;;
  need df ["ubicacion"; "tasa_mortalidad"] ;;;
  let cv_data := general_ambos df in
  Ok {| p11_lines := List.concat lines; p11_cv := serie tasa_mortalidad cv_data |}.

(** ** The store: the objects the functions share

    The table [df] is one object, passed by reference to every figure.
    Selections, sorts and drops build new frames; the only assignment into
    a frame is [heatmap_data['promedio'] = ...] of figure 8.  The store
    holds the objects that are passed around or assigned into; [savefig]
    records what each figure drew under the path it is saved to. *)

Inductive object : Type :=
| ODataFrame (df : DataFrame)
| OPivot (p : Pivot).

Inductive figure : Type :=
| Fig1 (p : plot1) | Fig2 (p : plot2) | Fig3 (p : list panel3) | Fig4 (p : plot4)
| Fig5 (p : plot5) | Fig6 (p : plot6) | Fig7 (p : plot7) | Fig8 (p : plot8)
| Fig9 (p : plot9) | Fig10 (p : plot10) | Fig11 (p : plot11) | Fig12 (p : plot12)
| Fig13 (p : plot13).

Record state : Type := mkState {
  heap : list object;
  saved : list (string * figure)
}.

(** A computation: the outcome (a value or the exception raised) and the
    store it leaves. *)
Definition M (A : Type) : Type := state -> result A * state.

Definition ret {A} (a : A) : M A := fun st => (Ok a, st).

Definition raise {A} (e : error) : M A := fun st => (Err e, st).

Definition bind {A B} (m : M A) (k : A -> M B) : M B :=
  fun st =>
    match m st with
    | (Ok a, st') => k a st'
    | (Err e, st') => (Err e, st')
    end.

Definition lift {A} (r : result A) : M A := fun st => (r, st).

Declare Scope monad_scope.
Delimit Scope monad_scope with monad.
Notation "x <~ e ;; k" := (bind e (fun x => k))
  (at level 61, e at next level, right associativity) : monad_scope.
Notation "e ~;; k" := (bind e (fun _ => k))
  (at level 61, right associativity) : monad_scope.
Open Scope monad_scope.

(** A new object; its reference is its place in the heap. *)
Definition alloc (o : object) : M nat :=
  fun st => (Ok (List.length (heap st)),
             {| heap := heap st ++ [o]; saved := saved st |}).

Definition read_frame (a : nat) : M DataFrame :=
  fun st =>
    match nth_error (heap st) a with
    | Some (ODataFrame df) => (Ok df, st)
    | _ => (Err TypeError, st)
    end.

Definition read_pivot (a : nat) : M Pivot :=
  fun st =>
    match nth_error (heap st) a with
    | Some (OPivot p) => (Ok p, st)
    | _ => (Err TypeError, st)
    end.

(** Assignment into the object at [a]. *)
Definition write_pivot (a : nat) (p : Pivot) : M unit :=
  fun st =>
    match nth_error (heap st) a with
    | Some (OPivot _) =>
        (Ok tt, {| heap := replace_nth a (OPivot p) (heap st); saved := saved st |})
    | _ => (Err TypeError, st)
    end.

(** [os.path.join(output_dir, name)]. *)
Definition path_join (dir name : string) : string :=
  match dir with
  | EmptyString => name
  | _ => if String.eqb (substring (String.length dir - 1) 1 dir) "/"
         then dir ++ name else dir ++ "/" ++ name
  end.

(** [plt.savefig(filepath, ...)]: the file is written, or overwritten. *)
Definition savefig (path : string) (f : figure) : M unit :=
  fun st =>
    (Ok tt,
     {| heap := heap st;
        saved := (path, f)
                 :: filter (fun pf => negb (String.eqb (fst pf) path)) (saved st) |}).

(** A figure whose data part only reads the table. *)
Definition draw {P} (plot : DataFrame -> result P) (wrap : P -> figure)
  (name : string) (df : nat) (output_dir : string) : M string :=
  t <~ read_frame df ;;
  p <~ lift (plot t) ;;
  let filepath := path_join output_dir name in
  savefig filepath (wrap p) ~;;
  ret filepath.

Definition fig1_evolucion_mortalidad_general :=
  draw fig1_plot Fig1 "fig1_evolucion_mortalidad_general.png".
Definition fig2_jerarquia_causas :=
  draw fig2_plot Fig2 "fig2_jerarquia_causas_mortalidad.png".
Definition fig3_evolucion_causas_especificas :=
  draw fig3_plot Fig3 "fig3_evolucion_causas_especificas.png".
Definition fig4_disparidad_genero_ratio :=
  draw fig4_plot Fig4 "fig4_disparidad_genero_ratio.png".
Definition fig5_comparativa_sexo_causa :=
  draw fig5_plot Fig5 "fig5_comparativa_sexo_causa.png".
Definition fig6_esperanza_vida_genero :=
  draw fig6_plot Fig6 "fig6_esperanza_vida_genero.png".
Definition fig7_ranking_departamentos :=
  draw fig7_plot Fig7 "fig7_ranking_departamentos.png".
Definition fig11_comparativa_provincias :=
  draw fig11_plot Fig11 "fig11_comparativa_provincias.png".
Definition fig12_impacto_covid :=
  draw fig12_plot Fig12 "fig12_impacto_covid.png".
Definition fig13_dashboard_resumen :=
  draw fig13_plot Fig13 "fig13_dashboard_resumen.png".

(** ** Figure 8: the pivot is built, assigned into, sorted and cut *)

Definition promedio : label := LStr "promedio".

(** The columns figure 8 selects, in the order it selects them. *)
Definition fig8_columns : list string :=
  ["causa_mortalidad"; "sexo"; "nivel_geografico"; "ubicacion"; "periodo";
   "tasa_mortalidad"].

Definition fig8_heatmap_departamentos (df : nat) (output_dir : string) : M string :=
  t <~ read_frame df ;;
  lift (need t fig8_columns) ~;;
  heatmap_data <~ alloc (OPivot (pivot_table (rows (where_ t departamentos)))) ;;
  p <~ read_pivot heatmap_data ;;
  write_pivot heatmap_data (set_column p promedio (row_means p)) ~;;
  p <~ read_pivot heatmap_data ;;
  sorted <~ lift (pivot_sort_values p promedio "promedio" false) ;;
  heatmap_data <~ alloc (OPivot sorted) ;;
  p <~ read_pivot heatmap_data ;;
  dropped <~ lift (pivot_drop p promedio "promedio") ;;
  heatmap_data <~ alloc (OPivot dropped) ;;
  p <~ read_pivot heatmap_data ;;
  lift (heatmap p) ~;;
  let filepath := path_join output_dir "fig8_heatmap_departamentos.png" in
  savefig filepath
    (Fig8 {| p8_heatmap := p; p8_covid_columns := covid_columns (pcolumns p) |}) ~;;
  ret filepath.

(** ** The library routines and what reads them *)

Section Pipeline.

(** [pd.read_csv(filepath, sep=...)]: the frame of the file, or the
    exception pandas raises ([FileNotFoundError] for a missing path). *)
Variable read_csv : string -> string -> result DataFrame.

(** [np.polyfit(x, y, deg)]: the coefficients, highest degree first. *)
Variable polyfit : list Z -> list Q -> nat -> result (list num).

(** [stats.linregress(x, y)]: slope and intercept (the other three
    results are not used). *)
Variable linregress : list Q -> list Q -> result (num * num).

(** [stats.pearsonr(x, y)]: the coefficient (the p-value is not used). *)
Variable pearsonr : list Q -> list Q -> result num.

Definition fig9_plot (df : DataFrame) : result plot9 :=
  lines <- mapM (fun s =>
             need df ["ubicacion"; "causa_mortalidad"; "sexo"; "periodo";
                      "tasa_mortalidad"] ;;;
             let data := sort_by_periodo (where_ df (cv_rows "Suicidio" s)) in
             Ok (s, serie tasa_mortalidad data))
           ["Ambos sexos"; "Hombres"; "Mujeres"] ;;
  let data_ambos := sort_by_periodo (where_ df (cv_rows "Suicidio" "Ambos sexos")) in
  z <- polyfit (map periodo (rows data_ambos))
               (map tasa_mortalidad (rows data_ambos)) 1 ;;
  let trend := map (fun o => (periodo o, poly1d z (of_Z (periodo o))))
                   (rows data_ambos) in
  inicio <- values0 "inicio" (tasa_of data_ambos (in_year 2010)) ;;
  fin <- values0 "fin" (tasa_of data_ambos (in_year 2023)) ;;
  Ok {| p9_lines := lines;
        p9_trend := trend;
        p9_cambio := pc (Fin inicio) (Fin fin);
        p9_ratio_hm := ratio_hm df "Suicidio" |}.

Definition fig10_plot (df : DataFrame) : result plot10 :=
  need df ["causa_mortalidad"; "nivel_geografico"] ;;;
  let scatter_data :=
    where_ df (fun o => is_ causa_mortalidad "General" o
                        && is_ nivel_geografico "HOSPITAL/ZONA SALUD" o) in
  points <- mapM (fun s =>
              need scatter_data ["sexo"; "tasa_mortalidad"; "esperanza_vida"] ;;;
              Ok (s, map (fun o => (tasa_mortalidad o, esperanza_vida o))
                         (rows (where_ scatter_data (is_ sexo s)))))
            ["Hombres"; "Mujeres"] ;;
  let x := map tasa_mortalidad (rows scatter_data) in
  let y := map esperanza_vida (rows scatter_data) in
  si <- linregress x y ;;
  let x_line := linspace (nmin (map Fin x)) (nmax (map Fin x)) 100 in
  let y_line := map (fun v => (fst si * v + snd si)%num) x_line in
  corr <- pearsonr x y ;;
  Ok {| p10_points := points;
        p10_line := combine x_line y_line;
        p10_corr := corr |}.

Definition fig9_tendencia_suicidio :=
  draw fig9_plot Fig9 "fig9_tendencia_suicidio.png".
Definition fig10_scatter_correlacion :=
  draw fig10_plot Fig10 "fig10_scatter_correlacion.png".

(** ** The loader *)

Definition cargar_datos (filepath : string) : M nat :=
  t <~ lift (read_csv filepath ";") ;;
  df <~ alloc (ODataFrame t) ;;
  t <~ read_frame df ;;
  lift (column t "periodo") ~;;
  lift (column t "causa_mortalidad") ~;;
  ret df.

(** ** The pipeline *)

Definition figuras_del_proyecto : list (nat -> string -> M string) :=
  [fig1_evolucion_mortalidad_general; fig2_jerarquia_causas;
   fig3_evolucion_causas_especificas; fig4_disparidad_genero_ratio;
   fig5_comparativa_sexo_causa; fig6_esperanza_vida_genero;
   fig7_ranking_departamentos; fig8_heatmap_departamentos;
   fig9_tendencia_suicidio; fig10_scatter_correlacion;
   fig11_comparativa_provincias; fig12_impacto_covid;
   fig13_dashboard_resumen].

(** The calls [figuras.append(figN(df))], one after the other. *)
Fixpoint generar (figs : list (nat -> string -> M string)) (df : nat)
  : M (list string) :=
  match figs with
  | [] => ret []
  | f :: r =>
      p <~ f df OUTPUT_DIR ;;
      ps <~ generar r df ;;
      ret (p :: ps)
  end.

Definition generar_todas_las_figuras (filepath_datos : string) : M (list string) :=
  df <~ cargar_datos filepath_datos ;;
  generar figuras_del_proyecto df.

End Pipeline.

Definition empty_state : state := {| heap := []; saved := [] |}.

(** The store holding a table as its only object. *)
Definition store_of (t : list Obs) : state :=
  {| heap := [ODataFrame (frame_of t)]; saved := [] |}.

(** ** Predicates of the properties *)

(** [a] stands before [b] in a sorted output: [b] does not sort strictly
    before [a], and where neither sorts before the other they are in the
    order [R] of the input. *)
Definition placed {A} (before : A -> A -> bool) (R : A -> A -> Prop) (a b : A)
  : Prop :=
  before b a = false /\ (before a b = false -> R a b).


(** The order [perm] puts equal values in the reverse of the input order. *)
Definition ties_in_reverse_order (v : list num) (perm : list nat) : Prop :=
  forall p q i j x y,
    (p < q)%nat ->
    nth_error perm p = Some i -> nth_error perm q = Some j ->
    nth_error v i = Some x -> nth_error v j = Some y ->
    x =n= y -> (j < i)%nat.

(** No value is followed by a smaller one (NaN compares with nothing). *)
Definition ascending (v : list num) (perm : list nat) : Prop :=
  forall p q i j x y,
    (p < q)%nat ->
    nth_error perm p = Some i -> nth_error perm q = Some j ->
    nth_error v i = Some x -> nth_error v j = Some y ->
    Num.ltb y x = false.

(** No value is followed by a larger one. *)
Definition descending (v : list num) (perm : list nat) : Prop :=
  forall p q i j x y,
    (p < q)%nat ->
    nth_error perm p = Some i -> nth_error perm q = Some j ->
    nth_error v i = Some x -> nth_error v j = Some y ->
    Num.ltb x y = false.

(** The (index, value) pairs behind [nargsort], in the order it returns. *)
Definition nargsort_items (asc : bool) (v : list num) : list (nat * num) :=
  let items := enumerate v in
  let non_nans := filter (fun p => negb (is_nan (snd p))) items in
  let nans := filter (fun p => is_nan (snd p)) items in
  (if asc then stable_sort by_value non_nans
   else rev (stable_sort by_value (rev non_nans))) ++ nans.

(** How two (index, value) pairs stand in an ascending and in a
    descending order that keeps ties. *)
Definition asc_rel (a b : nat * num) : Prop :=
  Num.ltb (snd b) (snd a) = false /\ (snd a =n= snd b -> (fst a < fst b)%nat).

Definition desc_rel (a b : nat * num) : Prop :=
  Num.ltb (snd a) (snd b) = false /\ (snd a =n= snd b -> (fst a < fst b)%nat).

(** The frame after [p['promedio'] = p.mean(axis=1)]. *)
Definition with_promedio (p : Pivot) : Pivot :=
  set_column p promedio (row_means p).

(** The frame that is drawn: the rows of the pivot in the order [perm]. *)
Definition reordered (p : Pivot) (perm : list nat) : Pivot :=
  {| pindex := take (pindex p) perm;
     pcolumns := pcolumns p;
     pdata := take (pdata p) perm |}.


(** The store [st'] holds every object of [st], unchanged and at the same
    place, and possibly new ones after them. *)
Definition extends (st st' : state) : Prop :=
  exists ext, heap st' = heap st ++ ext.

(** ** Small tables and files for the examples *)

Definition obs_cv (y : Z) (causa sexo_ : string) (tasa ev : Q) : Obs :=
  mkObs y causa sexo_ CV "" "CCAA" tasa ev.

Definition obs_dep (y : Z) (ubic prov : string) (tasa : Q) : Obs :=
  mkObs y "General" "Ambos sexos" ubic prov "HOSPITAL/ZONA SALUD" tasa 20.


(** Three departments over two years; A and B have the same mean. *)
Definition tabla_departamentos : list Obs :=
  [obs_dep 2011 "B" "Valencia" 800; obs_dep 2010 "B" "Valencia" 900;
   obs_dep 2010 "A" "Alicante" 850; obs_dep 2011 "A" "Alicante" 850;
   obs_dep 2010 "C" "Castellón" 1000; obs_dep 2011 "C" "Castellón" 1200].

(** A table on which the dashboard is drawn: the general rate of the
    years it reads, men's and women's rows of 2022 for every cause, the
    suicide rate of 2010 and 2023 and two departments; [ev_m] is the
    women's life expectancy of 2022. *)
Definition tabla_dashboard (ev_m : Q) : list Obs :=
  [obs_cv 2010 "General" "Ambos sexos" 100 20;
   obs_cv 2018 "General" "Ambos sexos" 97 20;
   obs_cv 2019 "General" "Ambos sexos" 96 20;
   obs_cv 2020 "General" "Ambos sexos" 105 20;
   obs_cv 2021 "General" "Ambos sexos" 110 20;
   obs_cv 2022 "General" "Ambos sexos" 95 20;
   obs_cv 2023 "General" "Ambos sexos" 90 20;
   obs_cv 2022 "General" "Hombres" 120 18;
   obs_cv 2022 "General" "Mujeres" 80 ev_m;
   obs_cv 2022 "Cancer" "Hombres" 30 18;
   obs_cv 2022 "Cancer" "Mujeres" 20 ev_m;
   obs_cv 2022 "Cardio" "Hombres" 12 18;
   obs_cv 2022 "Cardio" "Mujeres" 6 ev_m;
   obs_cv 2022 "Cerebro" "Hombres" 5 18;
   obs_cv 2022 "Cerebro" "Mujeres" 4 ev_m;
   obs_cv 2022 "Suicidio" "Hombres" 12 18;
   obs_cv 2022 "Suicidio" "Mujeres" 4 ev_m;
   obs_cv 2010 "Suicidio" "Ambos sexos" 8 20;
   obs_cv 2023 "Suicidio" "Ambos sexos" 9 20;
   obs_dep 2010 "A" "Alicante" 850;
   obs_dep 2010 "B" "Valencia" 900].


(** Files held in memory, read as [read_csv] reads a path. *)
Definition leer (files : list (string * DataFrame)) (path sep : string)
  : result DataFrame :=
  match find (fun f => String.eqb (fst f) path) files with
  | Some f => Ok (snd f)
  | None => Err (FileNotFoundError path)
  end.

(** A file whose header has two of the eight columns. *)
Definition archivo_dos_columnas : DataFrame :=
  {| columns := ["periodo"; "causa_mortalidad"]; rows := [] |}.

(** A comma-separated file read with [sep=';']: the header is one name. *)
Definition archivo_con_comas : DataFrame :=
  {| columns := ["periodo,causa_mortalidad,sexo,ubicacion,provincia,nivel_geografico,tasa_mortalidad,esperanza_vida"];
     rows := [] |}.

Definition archivos : list (string * DataFrame) :=
  [("dos_columnas.csv", archivo_dos_columnas);
   ("comas.csv", archivo_con_comas);
   ("datos.csv", frame_of (tabla_dashboard 22))].

(** Stand-ins for the numeric routines in the examples. *)
Definition sin_polyfit (x : list Z) (y : list Q) (deg : nat) : result (list num) :=
  Err (LibraryError "polyfit").
Definition sin_linregress (x y : list Q) : result (num * num) :=
  Err (LibraryError "linregress").
Definition sin_pearsonr (x y : list Q) : result num :=
  Err (LibraryError "pearsonr").

(** ** Tables and predicates of the further properties *)

(** Both-sexes rows of 2010 and 2023 for the four specific causes; the
    rate of Cancer is the same in both years. *)
Definition tabla_causas : list Obs :=
  [obs_cv 2023 "Cancer" "Ambos sexos" 200 20;
   obs_cv 2010 "Cancer" "Ambos sexos" 200 20;
   obs_cv 2010 "Cardio" "Ambos sexos" 80 20;
   obs_cv 2023 "Cardio" "Ambos sexos" 60 20;
   obs_cv 2010 "Cerebro" "Ambos sexos" 50 20;
   obs_cv 2023 "Cerebro" "Ambos sexos" 40 20;
   obs_cv 2010 "Suicidio" "Ambos sexos" 8 20;
   obs_cv 2023 "Suicidio" "Ambos sexos" 9 20].

(** The frame [causas_data] of figure 2 after [sort_values]. *)
Definition fig2_sorted (t : list Obs) : list (string * num) :=
  take (causas_mean (frame_of t))
       (nargsort true (map snd (causas_mean (frame_of t)))).

(** The rows figure 11 selects for a province. *)
Definition fig11_sel (t : list Obs) (p : string) : list Obs :=
  filter (fun o => is_ provincia p o && is_ nivel_geografico "PROVINCIA" o
                   && is_ causa_mortalidad "General" o && is_ sexo "Ambos sexos" o) t.

(** [len(data) > 0] for the rows of a province. *)
Definition has_rows (t : list Obs) (p : string) : bool :=
  match fig11_sel t p with [] => false | _ => true end.


(** The file names of the thirteen figures, in the order of the run. *)
Definition nombres_de_figuras : list string :=
  ["fig1_evolucion_mortalidad_general.png"; "fig2_jerarquia_causas_mortalidad.png";
   "fig3_evolucion_causas_especificas.png"; "fig4_disparidad_genero_ratio.png";
   "fig5_comparativa_sexo_causa.png"; "fig6_esperanza_vida_genero.png";
   "fig7_ranking_departamentos.png"; "fig8_heatmap_departamentos.png";
   "fig9_tendencia_suicidio.png"; "fig10_scatter_correlacion.png";
   "fig11_comparativa_provincias.png"; "fig12_impacto_covid.png";
   "fig13_dashboard_resumen.png"].

Definition rutas (dir : string) : list string :=
  map (path_join dir) nombres_de_figuras.

(** A figure function either returns the path of the file [name] in the
    directory, having saved it there, or raises with no file saved. *)
Definition saves_as (name : string) (f : nat -> string -> M string) : Prop :=
  forall df dir st,
    match f df dir st with
    | (Ok p, st') =>
        p = path_join dir name
        /\ exists fg,
             saved st' = (p, fg) :: filter (fun pf => negb (String.eqb (fst pf) p))
                                           (saved st)
    | (Err _, st') => saved st' = saved st
    end.

(** [covid_columns] on the columns numbered from [s]. *)
Definition covid_from (s : nat) (cols : list label) : list nat :=
  map fst (filter (fun ic => label_eqb (snd ic) (LInt 2020)
                             || label_eqb (snd ic) (LInt 2021))
                  (combine (seq s (List.length cols)) cols)).

(** The series [ranking] of the dashboard: the mean rate of each
    department. *)
Definition fig13_ranking (t : list Obs) : list (string * num) :=
  groupby_mean str_cmp ubicacion tasa_mortalidad (filter departamentos t).

(** * Properties *)

(** ** Arithmetic of [num] *)

Lemma sign_nonzero (b : Q) : ~ b == 0 -> sign b <> Eq.
Proof.
  unfold sign. intros Hb Hc. apply Hb. now apply Qeq_alt.
Qed.

Lemma div_fin (a b : Q) : ~ b == 0 -> (Fin a / Fin b)%num = Fin (a / b).
Proof.
  intros Hb. simpl. pose proof (sign_nonzero b Hb) as Hs.
  destruct (sign b); congruence.
Qed.


Lemma pc_fin (a b : Q) :
  ~ a == 0 -> pc (Fin a) (Fin b) = Fin ((b + - a) / a * 100).
Proof.
  intros Ha. unfold pc, Num.sub. simpl Num.neg. simpl Num.add.
  rewrite div_fin by assumption. reflexivity.
Qed.

Lemma ltb_fin (a b : Q) : Num.ltb (Fin a) (Fin b) = true <-> a < b.
Proof.
  simpl. rewrite Qlt_alt. destruct (a ?= b); split; congruence.
Qed.

Lemma same_refl (x : num) : x =n= x.
Proof. destruct x; simpl; auto with qarith. Qed.

Lemma same_sym (x y : num) : x =n= y -> y =n= x.
Proof. destruct x, y; simpl; auto with qarith. Qed.

Lemma same_trans (x y z : num) : x =n= y -> y =n= z -> x =n= z.
Proof.
  destruct x, y, z; simpl; try tauto. intros H1 H2. now rewrite H1.
Qed.

#[global] Instance same_equiv : Equivalence Num.same.
Proof.
  split; [exact same_refl | exact same_sym | exact same_trans].
Qed.

Lemma sameb_spec (x y : num) : sameb x y = true <-> x =n= y.
Proof.
  destruct x, y; simpl; try tauto; try (split; [discriminate | tauto]).
  apply Qeq_bool_iff.
Qed.

(** ** Percent change *)



(** ** The sort kernel *)

Section StableSortFacts.
Context {A : Type} (before : A -> A -> bool).

Lemma insert_sorted_perm (x : A) (l : list A) :
  Permutation (insert_sorted before x l) (x :: l).
Proof.
  induction l as [| y r IH]; simpl; [reflexivity |].
  destruct (before y x); [| reflexivity].
  rewrite IH. apply perm_swap.
Qed.

Lemma stable_sort_perm (l : list A) : Permutation (stable_sort before l) l.
Proof.
  induction l as [| x r IH]; simpl; [reflexivity |].
  rewrite insert_sorted_perm. now constructor.
Qed.

(** The values that are sorted (the non-NaN ones) and the order of the
    input. *)
Variable P : A -> Prop.
Variable R : A -> A -> Prop.
Hypothesis before_asym :
  forall a b, P a -> P b -> before a b = true -> before b a = false.
Hypothesis before_negtrans :
  forall a b c, P a -> P b -> P c ->
    before a b = false -> before b c = false -> before a c = false.

Lemma insert_sorted_placed (x : A) (l : list A) :
  P x -> Forall P l -> Forall (R x) l ->
  StronglySorted (placed before R) l -> StronglySorted (placed before R) (insert_sorted before x l).
Proof.
  intros Px Pl Rx Hs. induction Hs as [| y r Hr IH Hy]; simpl.
  - repeat constructor.
  - inversion Pl as [| ? ? Py Pr]; subst.
    inversion Rx as [| ? ? Rxy Rxr]; subst.
    destruct (before y x) eqn:Hyx.
    + constructor; [now apply IH |].
      apply (Permutation_Forall (Permutation_sym (insert_sorted_perm x r))).
      constructor; [| assumption].
      split; [now apply before_asym | congruence].
    + constructor; [now constructor |].
      constructor; [split; [assumption | auto] |].
      rewrite Forall_forall in *. intros w Hw. split.
      * destruct (Hy w Hw) as [Hwy _]. now apply (before_negtrans w y x); auto.
      * auto.
Qed.

Lemma stable_sort_placed (l : list A) :
  Forall P l -> StronglySorted R l -> StronglySorted (placed before R) (stable_sort before l).
Proof.
  intros Pl Hs. induction Hs as [| x r Hr IH Hx]; simpl; [constructor |].
  inversion Pl; subst. apply insert_sorted_placed; auto.
  - now apply (Permutation_Forall (Permutation_sym (stable_sort_perm r))).
  - now apply (Permutation_Forall (Permutation_sym (stable_sort_perm r))).
Qed.
End StableSortFacts.

(** ** Lists *)

Lemma StronglySorted_app {A} (R : A -> A -> Prop) (l1 l2 : list A) :
  StronglySorted R l1 -> StronglySorted R l2 ->
  (forall a b, In a l1 -> In b l2 -> R a b) ->
  StronglySorted R (l1 ++ l2).
Proof.
  intros H1 H2 H. induction H1 as [| a l Hl IH Ha]; simpl; [assumption |].
  constructor.
  - apply IH. intros; apply H; simpl; auto.
  - apply Forall_app. split; [assumption |].
    apply Forall_forall. intros b Hb. apply H; simpl; auto.
Qed.

Lemma StronglySorted_rev {A} (R : A -> A -> Prop) (l : list A) :
  StronglySorted R l -> StronglySorted (fun a b => R b a) (rev l).
Proof.
  induction 1 as [| a l Hl IH Ha]; simpl; [constructor |].
  apply StronglySorted_app; [assumption | repeat constructor |].
  intros x y Hx [<- | []]. rewrite Forall_forall in Ha.
  apply Ha. now apply in_rev.
Qed.

Lemma StronglySorted_filter {A} (R : A -> A -> Prop) (f : A -> bool) (l : list A) :
  StronglySorted R l -> StronglySorted R (filter f l).
Proof.
  induction 1 as [| a l Hl IH Ha]; simpl; [constructor |].
  destruct (f a); [| assumption]. constructor; [assumption |].
  rewrite Forall_forall in *. intros x Hx. apply Ha.
  now apply filter_In in Hx.
Qed.

Lemma StronglySorted_weaken {A} (R S : A -> A -> Prop) (l : list A) :
  (forall a b, In a l -> In b l -> R a b -> S a b) ->
  StronglySorted R l -> StronglySorted S l.
Proof.
  intros H Hs. induction Hs as [| a l Hl IH Ha]; [constructor |].
  constructor.
  - apply IH. intros; apply H; simpl; auto.
  - rewrite Forall_forall in *. intros x Hx. apply H; simpl; auto.
Qed.

Lemma StronglySorted_nth_error {A} (R : A -> A -> Prop) (l : list A) :
  StronglySorted R l ->
  forall p q a b, (p < q)%nat ->
    nth_error l p = Some a -> nth_error l q = Some b -> R a b.
Proof.
  induction 1 as [| x l Hl IH Hx]; intros p q a b Hpq Ha Hb.
  - destruct p; discriminate.
  - destruct q as [| q]; [lia |]. simpl in Hb. destruct p as [| p].
    + simpl in Ha. injection Ha as <-. rewrite Forall_forall in Hx.
      apply Hx. eapply nth_error_In; eassumption.
    + simpl in Ha. apply (IH p q); auto. lia.
Qed.

Lemma filter_partition_perm {A} (f : A -> bool) (l : list A) :
  Permutation (filter (fun x => negb (f x)) l ++ filter f l) l.
Proof.
  induction l as [| a l IH]; simpl; [reflexivity |].
  destruct (f a); simpl.
  - rewrite <- Permutation_middle. now constructor.
  - now constructor.
Qed.

(** ** [enumerate] *)

Lemma enumerate_from {A} (l : list A) (s : nat) :
  map fst (combine (seq s (List.length l)) l) = seq s (List.length l)
  /\ StronglySorted (fun a b : nat * A => (fst a < fst b)%nat)
       (combine (seq s (List.length l)) l)
  /\ Forall (fun a : nat * A => (s <= fst a)%nat
                               /\ nth_error l (fst a - s) = Some (snd a))
       (combine (seq s (List.length l)) l).
Proof.
  revert s. induction l as [| x l IH]; intros s; simpl.
  - repeat split; constructor.
  - destruct (IH (S s)) as (Hm & Hs & Hf). repeat split.
    + now rewrite Hm.
    + constructor; [assumption |].
      rewrite Forall_forall in *. intros a Ha. simpl.
      destruct (Hf a Ha) as [Hle _]. lia.
    + constructor.
      * simpl. split; [lia |]. now rewrite Nat.sub_diag.
      * rewrite Forall_forall in *. intros a Ha.
        destruct (Hf a Ha) as [Hle Hn]. split; [lia |].
        replace (fst a - s)%nat with (S (fst a - S s)) by lia. exact Hn.
Qed.

Lemma enumerate_fst {A} (l : list A) :
  map fst (enumerate l) = seq 0 (List.length l).
Proof. apply (enumerate_from l 0). Qed.

Lemma enumerate_sorted {A} (l : list A) :
  StronglySorted (fun a b : nat * A => (fst a < fst b)%nat) (enumerate l).
Proof. apply (enumerate_from l 0). Qed.

Lemma enumerate_nth {A} (l : list A) (a : nat * A) :
  In a (enumerate l) -> nth_error l (fst a) = Some (snd a).
Proof.
  intros Ha. destruct (enumerate_from l 0) as (_ & _ & Hf).
  rewrite Forall_forall in Hf. destruct (Hf a Ha) as [_ Hn].
  now rewrite Nat.sub_0_r in Hn.
Qed.

(** ** Order of the values *)

Lemma ltb_asym (x y : num) : Num.ltb x y = true -> Num.ltb y x = false.
Proof.
  destruct x as [a | | |], y as [b | | |]; simpl; try congruence.
  rewrite <- (Qcompare_antisym a b). destruct (a ?= b); simpl; congruence.
Qed.

Lemma ltb_negtrans (x y z : num) :
  is_nan x = false -> is_nan y = false -> is_nan z = false ->
  Num.ltb x y = false -> Num.ltb y z = false -> Num.ltb x z = false.
Proof.
  destruct x as [a | | |], y as [b | | |], z as [c | | |]; simpl;
    try congruence; intros _ _ _ H1 H2.
  destruct (a ?= c) eqn:Hac; try reflexivity.
  apply Qlt_alt in Hac.
  destruct (a ?= b) eqn:Hab; try discriminate;
  destruct (b ?= c) eqn:Hbc; try discriminate.
  - apply Qeq_alt in Hab, Hbc. lra.
  - apply Qeq_alt in Hab. apply Qgt_alt in Hbc. lra.
  - apply Qgt_alt in Hab. apply Qeq_alt in Hbc. lra.
  - apply Qgt_alt in Hab, Hbc. lra.
Qed.

Lemma same_not_ltb (x y : num) : x =n= y -> Num.ltb x y = false.
Proof.
  destruct x as [a | | |], y as [b | | |]; simpl; try tauto.
  intros H. apply Qeq_alt in H. now rewrite H.
Qed.

(** ** [nargsort] *)

Lemma nargsort_map (asc : bool) (v : list num) :
  nargsort asc v = map fst (nargsort_items asc v).
Proof.
  unfold nargsort, nargsort_items. rewrite map_app.
  destruct asc; [reflexivity |]. now rewrite map_rev.
Qed.

Lemma nargsort_items_perm (asc : bool) (v : list num) :
  Permutation (nargsort_items asc v) (enumerate v).
Proof.
  unfold nargsort_items.
  rewrite <- (filter_partition_perm (fun p => is_nan (snd p)) (enumerate v)) at 4.
  apply Permutation_app_tail. destruct asc.
  - apply stable_sort_perm.
  - rewrite <- Permutation_rev, stable_sort_perm. symmetry. apply Permutation_rev.
Qed.

Lemma nargsort_perm (asc : bool) (v : list num) :
  Permutation (nargsort asc v) (seq 0 (List.length v)).
Proof.
  rewrite nargsort_map, <- enumerate_fst.
  apply Permutation_map, nargsort_items_perm.
Qed.

Lemma nargsort_items_sorted (asc : bool) (v : list num) :
  StronglySorted (if asc then asc_rel else desc_rel) (nargsort_items asc v).
Proof.
  unfold nargsort_items.
  set (items := enumerate v).
  set (nn := filter (fun p => negb (is_nan (snd p))) items).
  set (nans := filter (fun p => is_nan (snd p)) items).
  assert (Hnn : Forall (fun a : nat * num => is_nan (snd a) = false) nn).
  { apply Forall_forall. intros a Ha. apply filter_In in Ha.
    now apply negb_true_iff. }
  assert (Hnan : forall a, In a nans -> snd a = NaN).
  { intros a Ha. apply filter_In in Ha. destruct Ha as [_ Ha].
    destruct (snd a); try discriminate. reflexivity. }
  assert (Hsn : StronglySorted (fun a b : nat * num => (fst a < fst b)%nat) nn)
    by apply StronglySorted_filter, enumerate_sorted.
  assert (Hsnan : StronglySorted (fun a b : nat * num => (fst a < fst b)%nat) nans)
    by apply StronglySorted_filter, enumerate_sorted.
  assert (Hasym : forall a b : nat * num,
             is_nan (snd a) = false -> is_nan (snd b) = false ->
             by_value a b = true -> by_value b a = false).
  { intros a b _ _. apply ltb_asym. }
  assert (Hneg : forall a b c : nat * num,
             is_nan (snd a) = false -> is_nan (snd b) = false ->
             is_nan (snd c) = false ->
             by_value a b = false -> by_value b c = false -> by_value a c = false).
  { intros a b c. apply ltb_negtrans. }
  assert (Htail : forall R : nat * num -> nat * num -> Prop,
             (forall a b, In a nans -> In b nans -> (fst a < fst b)%nat -> R a b) ->
             StronglySorted R nans).
  { intros R HR. eapply StronglySorted_weaken; [| exact Hsnan]. auto. }
  destruct asc.
  - apply StronglySorted_app.
    + eapply StronglySorted_weaken;
        [| apply (stable_sort_placed by_value _ _ Hasym Hneg nn Hnn Hsn)].
      intros a b _ _ [H1 H2]. split; [exact H1 |].
      intros Hs. apply H2. now apply same_not_ltb.
    + apply Htail. intros a b Ha Hb Hlt. split; [| auto].
      rewrite (Hnan a Ha). now destruct (snd b).
    + intros a b Ha Hb. split.
      * rewrite (Hnan b Hb). reflexivity.
      * rewrite (Hnan b Hb). intros Hs.
        apply (Permutation_in _ (stable_sort_perm by_value nn)) in Ha.
        rewrite Forall_forall in Hnn. apply Hnn in Ha.
        destruct (snd a); simpl in *; try tauto; discriminate.
  - apply StronglySorted_app.
    + assert (Hrev : StronglySorted (fun a b : nat * num => (fst b < fst a)%nat)
                       (rev nn)) by now apply StronglySorted_rev.
      assert (Hnr : Forall (fun a : nat * num => is_nan (snd a) = false) (rev nn)).
      { apply Forall_forall. intros a Ha. apply in_rev in Ha.
        rewrite Forall_forall in Hnn. auto. }
      pose proof (stable_sort_placed by_value _ _ Hasym Hneg (rev nn) Hnr Hrev) as Hp.
      apply StronglySorted_rev in Hp.
      eapply StronglySorted_weaken; [| exact Hp].
      intros a b _ _ [H1 H2]. split; [exact H1 |].
      intros Hs. apply H2. apply same_not_ltb. now symmetry.
    + apply Htail. intros a b Ha Hb Hlt. split; [| auto].
      rewrite (Hnan a Ha). reflexivity.
    + intros a b Ha Hb. split.
      * rewrite (Hnan b Hb). now destruct (snd a).
      * rewrite (Hnan b Hb). intros Hs.
        apply in_rev in Ha.
        apply (Permutation_in _ (stable_sort_perm by_value (rev nn))) in Ha.
        apply in_rev in Ha.
        rewrite Forall_forall in Hnn. apply Hnn in Ha.
        destruct (snd a); simpl in *; try tauto; discriminate.
Qed.

Lemma items_positions (v : list num) (l : list (nat * num))
  (Rel : nat * num -> nat * num -> Prop) :
  (forall a, In a l -> In a (enumerate v)) ->
  StronglySorted Rel l ->
  forall p q i j x y,
    (p < q)%nat ->
    nth_error (map fst l) p = Some i -> nth_error (map fst l) q = Some j ->
    nth_error v i = Some x -> nth_error v j = Some y ->
    Rel (i, x) (j, y).
Proof.
  intros Hin Hs p q i j x y Hpq Hi Hj Hx Hy.
  rewrite nth_error_map in Hi, Hj.
  destruct (nth_error l p) as [a |] eqn:Ha; [| discriminate].
  destruct (nth_error l q) as [b |] eqn:Hb; [| discriminate].
  simpl in Hi, Hj. injection Hi as <-. injection Hj as <-.
  pose proof (enumerate_nth v a (Hin a (nth_error_In _ _ Ha))) as Ea.
  pose proof (enumerate_nth v b (Hin b (nth_error_In _ _ Hb))) as Eb.
  rewrite Hx in Ea. rewrite Hy in Eb.
  injection Ea as ->. injection Eb as ->.
  rewrite <- !surjective_pairing.
  exact (StronglySorted_nth_error Rel l Hs p q a b Hpq Ha Hb).
Qed.

Lemma nargsort_items_in (asc : bool) (v : list num) (a : nat * num) :
  In a (nargsort_items asc v) -> In a (enumerate v).
Proof. apply Permutation_in, nargsort_items_perm. Qed.



Lemma argsort_nargsort (v : list num) : argsort v = nargsort true v.
Proof. reflexivity. Qed.

(** [np.argsort(v)[::-1]]: descending, and equal values in the reverse of
    the order they had in [v]. *)
Lemma rev_argsort (v : list num) :
  Permutation (rev (argsort v)) (seq 0 (List.length v))
  /\ descending v (rev (argsort v))
  /\ ties_in_reverse_order v (rev (argsort v)).
Proof.
  rewrite argsort_nargsort. split; [| split].
  - rewrite <- Permutation_rev. apply nargsort_perm.
  - rewrite nargsort_map, <- map_rev.
    intros p q i j x y Hpq Hi Hj Hx Hy.
    assert (Hin : forall a, In a (rev (nargsort_items true v)) -> In a (enumerate v)).
    { intros a Ha. apply in_rev in Ha. now apply nargsort_items_in in Ha. }
    pose proof (items_positions v _ _ Hin
                  (StronglySorted_rev _ _ (nargsort_items_sorted true v))
                  p q i j x y Hpq Hi Hj Hx Hy) as [H1 _].
    exact H1.
  - rewrite nargsort_map, <- map_rev.
    intros p q i j x y Hpq Hi Hj Hx Hy Hs.
    assert (Hin : forall a, In a (rev (nargsort_items true v)) -> In a (enumerate v)).
    { intros a Ha. apply in_rev in Ha. now apply nargsort_items_in in Ha. }
    pose proof (items_positions v _ _ Hin
                  (StronglySorted_rev _ _ (nargsort_items_sorted true v))
                  p q i j x y Hpq Hi Hj Hx Hy) as [_ H2].
    apply H2. simpl. now symmetry.
Qed.

(** ** [take] *)

Lemma take_seq {A} (l : list A) : take l (seq 0 (List.length l)) = l.
Proof.
  unfold take.
  assert (H : forall pre, flat_map
            (fun i => match nth_error (pre ++ l) i with Some x => [x] | None => [] end)
            (seq (List.length pre) (List.length l)) = l).
  { induction l as [| x l IH]; intros pre; simpl; [reflexivity |].
    rewrite nth_error_app2 by lia. rewrite Nat.sub_diag. simpl. f_equal.
    specialize (IH (pre ++ [x])). rewrite <- app_assoc in IH. simpl in IH.
    rewrite length_app in IH. simpl in IH.
    now rewrite Nat.add_1_r in IH. }
  exact (H []).
Qed.

Lemma take_perm {A} (l : list A) (perm : list nat) :
  Permutation perm (seq 0 (List.length l)) -> Permutation (take l perm) l.
Proof.
  intros H. rewrite <- (take_seq l) at 2. unfold take.
  now apply Permutation_flat_map.
Qed.

Lemma take_map {A} (l : list A) (perm : list nat) (d : A) :
  Forall (fun i => (i < List.length l)%nat) perm ->
  take l perm = map (fun i => nth i l d) perm.
Proof.
  induction 1 as [| i perm Hi Hp IH]; simpl; [reflexivity |].
  unfold take in *. simpl. rewrite IH.
  rewrite (nth_error_nth' l d Hi). reflexivity.
Qed.

Lemma perm_seq_bound (perm : list nat) (n : nat) :
  Permutation perm (seq 0 n) -> Forall (fun i => (i < n)%nat) perm.
Proof.
  intros H. apply Forall_forall. intros i Hi.
  apply (Permutation_in _ H) in Hi. apply in_seq in Hi. lia.
Qed.


Lemma take_map_comm {A B} (f : A -> B) (l : list A) (perm : list nat) :
  take (map f l) perm = map f (take l perm).
Proof.
  unfold take. induction perm as [| i perm IH]; simpl; [reflexivity |].
  rewrite map_app, IH, nth_error_map.
  destruct (nth_error l i); reflexivity.
Qed.

(** ** Group keys *)

Section GroupKeys.
Context {K : Type} (cmp : K -> K -> comparison) (lt : K -> K -> Prop).
Hypothesis lt_strict : StrictOrder lt.
Hypothesis cmp_spec : forall x y, CompSpec eq lt x y (cmp x y).

Lemma cmp_eq (x y : K) : cmp x y = Eq <-> x = y.
Proof.
  destruct (cmp_spec x y) as [H | H | H]; split; try congruence;
    intros ->; exfalso; eapply StrictOrder_Irreflexive; eassumption.
Qed.

Lemma insert_key_In (k y : K) (l : list K) :
  In y (insert_key cmp k l) <-> y = k \/ In y l.
Proof.
  induction l as [| x r IH]; simpl; [intuition |].
  destruct (cmp_spec k x) as [H | H | H]; simpl.
  - subst. intuition.
  - intuition.
  - rewrite IH. intuition.
Qed.

Lemma insert_key_sorted (k : K) (l : list K) :
  StronglySorted lt l -> StronglySorted lt (insert_key cmp k l).
Proof.
  induction 1 as [| x r Hr IH Hx]; simpl; [repeat constructor |].
  destruct (cmp_spec k x) as [H | H | H].
  - now constructor.
  - constructor; [now constructor |]. constructor; [assumption |].
    rewrite Forall_forall in *. intros w Hw.
    transitivity x; auto.
  - constructor; [assumption |].
    rewrite Forall_forall in *. intros w Hw.
    apply insert_key_In in Hw. destruct Hw as [-> | Hw]; auto.
Qed.

Lemma group_keys_In (y : K) (l : list K) : In y (group_keys cmp l) <-> In y l.
Proof.
  induction l as [| x r IH]; simpl; [tauto |].
  rewrite insert_key_In, IH. intuition.
Qed.

Lemma group_keys_sorted (l : list K) : StronglySorted lt (group_keys cmp l).
Proof.
  induction l as [| x r IH]; simpl; [constructor |].
  now apply insert_key_sorted.
Qed.

Lemma sorted_NoDup (l : list K) : StronglySorted lt l -> NoDup l.
Proof.
  induction 1 as [| x r Hr IH Hx]; constructor; [| assumption].
  intros Hin. rewrite Forall_forall in Hx.
  apply (StrictOrder_Irreflexive x). auto.
Qed.



End GroupKeys.

Lemma str_cmp_spec (x y : string) : CompSpec eq String_as_OT.lt x y (str_cmp x y).
Proof. apply String_as_OT.compare_spec. Qed.

Lemma Z_cmp_spec (x y : Z) : CompSpec eq Z.lt x y (Z.compare x y).
Proof. apply Z.compare_spec. Qed.

(** ** Means and the order of the rows *)

Lemma Qsum_perm (l l' : list Q) : Permutation l l' -> Qsum l == Qsum l'.
Proof.
  induction 1 as [| x l l' H IH | x y l | l l' l'' H1 IH1 H2 IH2]; simpl.
  - reflexivity.
  - now rewrite IH.
  - ring.
  - now rewrite IH1.
Qed.

Lemma mean_perm (l l' : list Q) : Permutation l l' -> mean l =n= mean l'.
Proof.
  intros H. pose proof (Permutation_length H) as Hlen.
  pose proof (Qsum_perm l l' H) as Hsum.
  destruct l as [| x l], l' as [| x' l']; try discriminate; simpl in *.
  - exact I.
  - injection Hlen as Hlen. rewrite Hlen. now rewrite Hsum.
Qed.

Lemma filter_perm {A} (f : A -> bool) (l l' : list A) :
  Permutation l l' -> Permutation (filter f l) (filter f l').
Proof.
  induction 1 as [| x l l' H IH | x y l | l l' l'' H1 IH1 H2 IH2]; simpl.
  - reflexivity.
  - destruct (f x); [now constructor | assumption].
  - destruct (f x), (f y); try reflexivity. apply perm_swap.
  - now transitivity (filter f l').
Qed.


(** ** The pivot *)

Lemma position_years (l : string) (years : list Z) :
  position (LStr l) (map LInt years) = None.
Proof.
  induction years as [| y r IH]; simpl; [reflexivity |]. now rewrite IH.
Qed.

Lemma position_last (l : label) (cols : list label) :
  position l cols = None -> label_eqb l l = true ->
  position l (cols ++ [l]) = Some (List.length cols).
Proof.
  intros Hn Hl. induction cols as [| c r IH]; simpl in *.
  - now rewrite Hl.
  - destruct (label_eqb c l); [discriminate |].
    destruct (position l r); [discriminate |]. now rewrite IH.
Qed.

Lemma remove_nth_last {A} (l : list A) (x : A) :
  remove_nth (List.length l) (l ++ [x]) = l.
Proof. induction l as [| y r IH]; simpl; [reflexivity | now rewrite IH]. Qed.

Lemma nth_last {A} (l : list A) (x d : A) : nth (List.length l) (l ++ [x]) d = x.
Proof. induction l as [| y r IH]; simpl; [reflexivity | exact IH]. Qed.

Lemma combine_map_self {A B C} (f : A -> B) (g : A * B -> C) (l : list A) :
  map g (combine l (map f l)) = map (fun x => g (x, f x)) l.
Proof. induction l as [| x r IH]; simpl; [reflexivity | now rewrite IH]. Qed.

Lemma pivot_table_shape (t : list Obs) :
  Forall (fun r => List.length r = List.length (pcolumns (pivot_table t)))
         (pdata (pivot_table t)).
Proof.
  unfold pivot_table. simpl. apply Forall_forall. intros r Hr.
  apply in_map_iff in Hr. destruct Hr as (u & <- & _). now rewrite !length_map.
Qed.

Lemma pivot_table_no_promedio (t : list Obs) :
  position promedio (pcolumns (pivot_table t)) = None.
Proof. apply position_years. Qed.

Section Promedio.
Variable p : Pivot.
Hypothesis no_promedio : position promedio (pcolumns p) = None.
Hypothesis shape :
  Forall (fun r => List.length r = List.length (pcolumns p)) (pdata p).

Lemma with_promedio_eq :
  with_promedio p
  = {| pindex := pindex p;
       pcolumns := pcolumns p ++ [promedio];
       pdata := map (fun r => r ++ [nanmean r]) (pdata p) |}.
Proof.
  unfold with_promedio, set_column. rewrite no_promedio. unfold row_means.
  now rewrite combine_map_self.
Qed.

Lemma sort_with_promedio :
  pivot_sort_values (with_promedio p) promedio "promedio" false
  = Ok (reordered (with_promedio p) (nargsort false (row_means p))).
Proof.
  unfold pivot_sort_values, get_column. rewrite with_promedio_eq.
  simpl pcolumns. rewrite position_last by (assumption || reflexivity).
  simpl pdata. simpl rbind. unfold reordered. simpl pindex. simpl pdata.
  simpl pcolumns.
  assert (E : map (fun r => nth (List.length (pcolumns p)) r NaN)
                (map (fun r => r ++ [nanmean r]) (pdata p)) = row_means p).
  { unfold row_means. rewrite map_map. apply map_ext_in. intros r Hr.
    rewrite Forall_forall in shape. rewrite <- (shape r Hr). apply nth_last. }
  rewrite E. reflexivity.
Qed.

Lemma drop_promedio (perm : list nat) :
  pivot_drop (reordered (with_promedio p) perm) promedio "promedio"
  = Ok (reordered p perm).
Proof.
  unfold pivot_drop, reordered. rewrite with_promedio_eq.
  simpl pcolumns. simpl pindex. simpl pdata.
  rewrite position_last by (assumption || reflexivity).
  rewrite remove_nth_last. f_equal. f_equal.
  rewrite <- take_map_comm, map_map. f_equal.
  rewrite <- (map_id (pdata p)) at 2. apply map_ext_in. intros r Hr.
  rewrite Forall_forall in shape. rewrite <- (shape r Hr).
  apply remove_nth_last.
Qed.
End Promedio.

(** ** The store *)

Lemma read_pivot_new (h : list object) (s : list (string * figure)) (p : Pivot) :
  read_pivot (List.length h) {| heap := h ++ [OPivot p]; saved := s |}
  = (Ok p, {| heap := h ++ [OPivot p]; saved := s |}).
Proof.
  unfold read_pivot. simpl.
  rewrite nth_error_app2 by lia. now rewrite Nat.sub_diag.
Qed.

Lemma replace_nth_new {A} (h : list A) (x y : A) :
  replace_nth (List.length h) y (h ++ [x]) = h ++ [y].
Proof. induction h as [| z r IH]; simpl; [reflexivity | now rewrite IH]. Qed.

Lemma write_pivot_new (h : list object) (s : list (string * figure)) (p p' : Pivot) :
  write_pivot (List.length h) p' {| heap := h ++ [OPivot p]; saved := s |}
  = (Ok tt, {| heap := h ++ [OPivot p']; saved := s |}).
Proof.
  unfold write_pivot. simpl.
  rewrite nth_error_app2 by lia. rewrite Nat.sub_diag. simpl.
  now rewrite replace_nth_new.
Qed.

(** What a call of figure 8 does to the store. *)
Lemma fig8_run (st : state) (a : nat) (dir : string) (t : DataFrame) :
  nth_error (heap st) a = Some (ODataFrame t) ->
  need t fig8_columns = Ok tt ->
  let p := pivot_table (rows (where_ t departamentos)) in
  let perm := nargsort false (row_means p) in
  let path := path_join dir "fig8_heatmap_departamentos.png" in
  let objects := [OPivot (with_promedio p);
                  OPivot (reordered (with_promedio p) perm);
                  OPivot (reordered p perm)] in
  fig8_heatmap_departamentos a dir st
  = match heatmap (reordered p perm) with
    | Err e => (Err e, {| heap := heap st ++ objects; saved := saved st |})
    | Ok _ =>
        (Ok path,
         {| heap := heap st ++ objects;
            saved := (path, Fig8 {| p8_heatmap := reordered p perm;
                                    p8_covid_columns := covid_columns (pcolumns p) |})
                     :: filter (fun pf => negb (String.eqb (fst pf) path))
                               (saved st) |})
    end.
Proof.
  intros Ha Hn p perm path objects. destruct st as [h s]. simpl in Ha.
  unfold fig8_heatmap_departamentos.
  unfold bind at 1. unfold read_frame at 1. simpl heap. rewrite Ha.
  unfold bind at 1. unfold lift at 1. rewrite Hn.
  unfold bind at 1. unfold alloc at 1. simpl heap. simpl saved. fold p.
  unfold bind at 1. rewrite read_pivot_new.
  unfold bind at 1. rewrite write_pivot_new. fold (with_promedio p).
  unfold bind at 1. rewrite read_pivot_new.
  unfold bind at 1. unfold lift at 1.
  rewrite (sort_with_promedio p (pivot_table_no_promedio _) (pivot_table_shape _)).
  fold perm.
  unfold bind at 1. unfold alloc at 1. simpl heap. simpl saved.
  unfold bind at 1.
  rewrite read_pivot_new.
  unfold bind at 1. unfold lift at 1.
  rewrite (drop_promedio p (pivot_table_no_promedio _) (pivot_table_shape _)).
  unfold bind at 1. unfold alloc at 1. simpl heap. simpl saved.
  unfold bind at 1. rewrite read_pivot_new.
  unfold bind at 1. unfold lift at 1. unfold objects.
  rewrite <- !app_assoc. cbn [app].
  destruct (heatmap (reordered p perm)) as [[] | e]; [| reflexivity].
  unfold bind at 1. unfold savefig at 1. simpl heap. simpl saved.
  unfold ret. reflexivity.
Qed.

Lemma group_keys_nonempty {K} (cmp : K -> K -> comparison) (l : list K) :
  l <> [] -> group_keys cmp l <> [].
Proof.
  destruct l as [| x r]; [congruence |]. intros _. cbn [group_keys fold_right].
  destruct (fold_right (insert_key cmp) [] r) as [| y ys]; cbn [insert_key];
    [discriminate |].
  destruct (cmp x y); discriminate.
Qed.

(** With at least one row selected the heat map has cells. *)
Lemma heatmap_ok (sel : list Obs) :
  sel <> [] ->
  let p := pivot_table sel in
  heatmap (reordered p (nargsort false (row_means p))) = Ok tt.
Proof.
  intros Hsel p. unfold heatmap, reordered. cbn [pdata].
  assert (Hp : Permutation (take (pdata p) (nargsort false (row_means p)))
                           (pdata p)).
  { apply take_perm. unfold row_means.
    rewrite <- (length_map nanmean (pdata p)). apply nargsort_perm. }
  assert (Hl : group_keys str_cmp (map ubicacion sel) <> [])
    by (apply group_keys_nonempty; destruct sel; [congruence | discriminate]).
  assert (Hy : group_keys Z.compare (map periodo sel) <> [])
    by (apply group_keys_nonempty; destruct sel; [congruence | discriminate]).
  destruct (take (pdata p) (nargsort false (row_means p))) as [| r rs] eqn:E.
  - apply Permutation_nil in Hp. unfold p, pivot_table in Hp. cbn [pdata] in Hp.
    apply map_eq_nil in Hp. contradiction.
  - assert (Hr : In r (pdata p))
      by (apply (Permutation_in _ Hp); now left).
    unfold p, pivot_table in Hr. cbn [pdata] in Hr.
    apply in_map_iff in Hr. destruct Hr as (u & <- & _).
    destruct (group_keys Z.compare (map periodo sel)); [congruence | reflexivity].
Qed.

(** ** C3: the sorts and their ties *)


Lemma need_ok_inv {A} (df : DataFrame) (names : list string) (k : result A) (a : A) :
  (need df names ;;; k) = Ok a -> need df names = Ok tt /\ k = Ok a.
Proof.
  destruct (need df names) as [[] | e]; simpl; [auto | discriminate].
Qed.

Lemma fig4_plot_inv (df : DataFrame) (p : plot4) :
  fig4_plot df = Ok p ->
  p4_ratios p = fig4_ratios df
  /\ p4_orden p = rev (argsort (p4_ratios p))
  /\ p4_causas_ord p = map (fun i => nth i fig4_causas "") (p4_orden p)
  /\ p4_ratios_ord p = map (fun i => nth i (p4_ratios p) NaN) (p4_orden p).
Proof.
  intros H. unfold fig4_plot in H. apply need_ok_inv in H. destruct H as [_ H].
  destruct (py_max _ _) as [mx | e]; [| discriminate].
  cbn [rbind] in H. destruct (set_lim _ _) as [[] | e]; [| discriminate].
  injection H as <-. repeat split; reflexivity.
Qed.



(** ** C5: the ratio of figure 4 *)

Lemma mean_fin_inv (l : list Q) (q : Q) :
  mean l =n= Fin q -> exists q', mean l = Fin q' /\ q' == q.
Proof.
  destruct l as [| x r]; simpl; [tauto |].
  intros H. eexists. split; [reflexivity | exact H].
Qed.



(** ** C8: the group means and the order of the rows *)



(** ** C7: a selection with no row *)

Lemma filter_nil {A} (f : A -> bool) (l : list A) :
  filter f l = [] <-> forall x, In x l -> f x = false.
Proof.
  induction l as [| a r IH]; simpl; [tauto |].
  destruct (f a) eqn:E.
  - split; [discriminate |]. intros H. specialize (H a (or_introl eq_refl)).
    congruence.
  - rewrite IH. split; intros H x; [intros [<- | Hx] |]; auto.
Qed.

Lemma filter_filter {A} (f g : A -> bool) (l : list A) :
  filter f (filter g l) = filter (fun x => g x && f x) l.
Proof.
  induction l as [| a r IH]; simpl; [reflexivity |].
  destruct (g a); simpl; [destruct (f a) |]; now rewrite IH.
Qed.

Lemma sort_by_periodo_In (df : DataFrame) (o : Obs) :
  In o (rows (sort_by_periodo df)) <-> In o (rows df).
Proof.
  unfold sort_by_periodo. simpl.
  split; apply Permutation_in;
    [apply stable_sort_perm | symmetry; apply stable_sort_perm].
Qed.

Lemma need_frame_of (t : list Obs) (names : list string) :
  forallb (fun n => existsb (String.eqb n) expected_columns) names = true ->
  need (frame_of t) names = Ok tt.
Proof.
  induction names as [| n r IH]; [reflexivity |].
  cbn [forallb need]. intros H. apply andb_true_iff in H. destruct H as [Hn Hr].
  unfold column. cbn [columns frame_of]. rewrite Hn. cbn [rbind]. auto.
Qed.




Lemma cargar_datos_run (read_csv : string -> string -> result DataFrame)
  (path : string) (st : state) :
  cargar_datos read_csv path st
  = match read_csv path ";" with
    | Err e => (Err e, st)
    | Ok t =>
        let st1 := {| heap := heap st ++ [ODataFrame t]; saved := saved st |} in
        match column t "periodo" with
        | Err e => (Err e, st1)
        | Ok _ =>
            match column t "causa_mortalidad" with
            | Err e => (Err e, st1)
            | Ok _ => (Ok (List.length (heap st)), st1)
            end
        end
    end.
Proof.
  unfold cargar_datos. unfold bind at 1. unfold lift at 1.
  destruct (read_csv path ";") as [t | e]; [| reflexivity].
  unfold bind at 1. unfold alloc at 1.
  unfold bind at 1. unfold read_frame at 1. cbn [heap].
  rewrite nth_error_app2 by lia. rewrite Nat.sub_diag. cbn [nth_error].
  unfold bind at 1. unfold lift at 1.
  destruct (column t "periodo") as [[] | e]; [| reflexivity].
  unfold bind at 1. unfold lift at 1.
  destruct (column t "causa_mortalidad") as [[] | e]; reflexivity.
Qed.

Lemma nth_error_new {A} (h : list A) (x : A) :
  nth_error (h ++ [x]) (List.length h) = Some x.
Proof. rewrite nth_error_app2 by lia. now rewrite Nat.sub_diag. Qed.



(** ** C1: the two KPI panels of the dashboard *)

Ltac ok_inv H :=
  repeat match type of H with
         | rbind ?e _ = Ok _ =>
             let E := fresh "E" in
             destruct e eqn:E; [cbn [rbind] in H | discriminate H]
         end.

Lemma values0_hd {A} (site : string) (l : list A) (x : A) :
  values0 site l = Ok x -> hd_error l = Some x.
Proof. destruct l; simpl; congruence. Qed.

(** C1, the claim as written: the gender gap shown by the dashboard is not
    one constant; two tables that differ in the women's life expectancy of
    2022 show 4 and 7. *)
Lemma dashboard_gap_is_not_constant :
  ~ (exists ev gap : Q, forall t p,
       fig13_plot (frame_of t) = Ok p ->
       p13_ev_dashboard p == ev /\ p13_brecha_genero p == gap).
Proof.
  intros (ev & gap & H).
  assert (H1 : exists p, fig13_plot (frame_of (tabla_dashboard 22)) = Ok p
                         /\ p13_brecha_genero p == 4)
    by (eexists; split; vm_compute; reflexivity).
  assert (H2 : exists p, fig13_plot (frame_of (tabla_dashboard 25)) = Ok p
                         /\ p13_brecha_genero p == 7)
    by (eexists; split; vm_compute; reflexivity).
  destruct H1 as (p1 & E1 & G1). destruct H2 as (p2 & E2 & G2).
  destruct (H _ _ E1) as [_ A1]. destruct (H _ _ E2) as [_ A2].
  rewrite G1 in A1. rewrite G2 in A2. rewrite <- A2 in A1. discriminate A1.
Qed.

(** C1, amended: the life-expectancy panel shows the literal 20.6 for every
    table; the gender-gap panel shows a value computed from the table, the
    life expectancy of the first row of women minus that of the first row
    of men among the rows of the Comunitat Valenciana, cause General, year
    2022. *)
Theorem dashboard_kpi_values (df : DataFrame) (p : plot13) :
  fig13_plot df = Ok p ->
  p13_ev_dashboard p == 206 # 10
  /\ exists ev_h ev_m,
       hd_error (map esperanza_vida
                   (filter (fun o => is_ ubicacion CV o
                                     && is_ causa_mortalidad "General" o
                                     && in_year 2022 o && is_ sexo "Hombres" o)
                           (rows df))) = Some ev_h
       /\ hd_error (map esperanza_vida
                      (filter (fun o => is_ ubicacion CV o
                                        && is_ causa_mortalidad "General" o
                                        && in_year 2022 o && is_ sexo "Mujeres" o)
                              (rows df))) = Some ev_m
       /\ p13_brecha_genero p = ev_m - ev_h.
Proof.
  intros H. unfold fig13_plot in H. ok_inv H. injection H as <-.
  cbn [p13_ev_dashboard p13_brecha_genero]. split; [reflexivity |].
  match goal with
  | Eh : values0 "ev_h_2022" _ = Ok ?h, Em : values0 "ev_m_2022" _ = Ok ?m |- _ =>
      exists h, m; apply values0_hd in Eh, Em;
      unfold where_ in Eh, Em; cbn [rows] in Eh, Em;
      rewrite filter_filter in Eh, Em
  end.
  auto.
Qed.

Lemma dashboard_kpi_values_witness :
  exists p,
    fig13_plot (frame_of (tabla_dashboard 22)) = Ok p
    /\ p13_ev_dashboard p == 206 # 10
    /\ p13_brecha_genero p = 22 - 18.
Proof.
  destruct (fig13_plot (frame_of (tabla_dashboard 22))) as [p |] eqn:E;
    [| vm_compute in E; discriminate].
  destruct (dashboard_kpi_values _ p E) as (Hev & h & m & Hh & Hm & Hg).
  exists p. split; [reflexivity |]. split; [exact Hev |].
  vm_compute in Hh, Hm. injection Hh as <-. injection Hm as <-. exact Hg.
Defined.

(** ** C10: the two pre-COVID baselines *)

Lemma general_ambos_tasa (df : DataFrame) (f : Obs -> bool) :
  mean (tasa_of (general_ambos df) f)
  =n= mean (map tasa_mortalidad
              (filter f (filter (cv_rows "General" "Ambos sexos") (rows df)))).
Proof.
  unfold tasa_of, general_ambos, where_, sort_by_periodo. cbn [rows].
  apply mean_perm, Permutation_map, filter_perm, stable_sort_perm.
Qed.



Lemma mean_cons_fin (l : list Q) :
  l <> [] -> mean l = Fin (Qsum l / inject_Z (Z.of_nat (List.length l))).
Proof. destruct l; [congruence | reflexivity]. Qed.




(** ** C6: the pivot of figure 8 *)


Lemma nth_error_combine {A B} (a : list A) (b : list B) (k : nat) :
  nth_error (combine a b) k
  = match nth_error a k, nth_error b k with
    | Some x, Some y => Some (x, y)
    | _, _ => None
    end.
Proof.
  revert b k. induction a as [| x a IH]; intros b k.
  - destruct k; reflexivity.
  - destruct b as [| y b].
    + destruct k; simpl; [reflexivity |]. now destruct (nth_error a k).
    + destruct k; simpl; [reflexivity | apply IH].
Qed.



Lemma StronglySorted_map {A B} (R : A -> A -> Prop) (S : B -> B -> Prop)
  (f : A -> B) (l : list A) :
  (forall a b, In a l -> In b l -> R a b -> S (f a) (f b)) ->
  StronglySorted R l -> StronglySorted S (map f l).
Proof.
  intros H Hs. induction Hs as [| a l Hl IH Ha]; simpl; [constructor |].
  constructor.
  - apply IH. intros; apply H; simpl; auto.
  - rewrite Forall_forall in *. intros y Hy. apply in_map_iff in Hy.
    destruct Hy as (b & <- & Hb). apply H; simpl; auto.
Qed.




(** ** C9: the table is only read *)

Lemma extends_refl (st : state) : extends st st.
Proof. exists []. now rewrite app_nil_r. Qed.

Lemma extends_trans (st1 st2 st3 : state) :
  extends st1 st2 -> extends st2 st3 -> extends st1 st3.
Proof.
  intros [e1 H1] [e2 H2]. exists (e1 ++ e2). now rewrite H2, H1, app_assoc.
Qed.

Lemma extends_nth_error (st st' : state) (a : nat) (o : object) :
  extends st st' -> nth_error (heap st) a = Some o ->
  nth_error (heap st') a = Some o.
Proof.
  intros [ext H] Ha. rewrite H, nth_error_app1; [assumption |].
  apply nth_error_Some. congruence.
Qed.

Lemma draw_extends {P} (plot : DataFrame -> result P) (wrap : P -> figure)
  (name : string) (a : nat) (dir : string) (st : state) :
  extends st (snd (draw plot wrap name a dir st)).
Proof.
  unfold draw, bind, read_frame, lift, savefig, ret.
  destruct (nth_error (heap st) a) as [[t | p] |]; try apply extends_refl.
  destruct (plot t); [| apply extends_refl].
  exists []. cbn [snd heap]. now rewrite app_nil_r.
Qed.

Lemma fig8_extends (a : nat) (dir : string) (st : state) :
  extends st (snd (fig8_heatmap_departamentos a dir st)).
Proof.
  destruct (nth_error (heap st) a) as [[t | p] |] eqn:E.
  - destruct (need t fig8_columns) as [[] | e] eqn:En.
    + rewrite (fig8_run st a dir t E En).
      destruct (heatmap _) as [[] | e]; eexists; reflexivity.
    + unfold fig8_heatmap_departamentos.
      unfold bind at 1. unfold read_frame at 1. rewrite E.
      unfold bind at 1. unfold lift at 1. rewrite En.
      apply extends_refl.
  - unfold fig8_heatmap_departamentos.
    unfold bind at 1. unfold read_frame at 1. rewrite E. apply extends_refl.
  - unfold fig8_heatmap_departamentos.
    unfold bind at 1. unfold read_frame at 1. rewrite E. apply extends_refl.
Qed.

Section TableUnchanged.
Variable read_csv : string -> string -> result DataFrame.
Variable polyfit : list Z -> list Q -> nat -> result (list num).
Variable linregress : list Q -> list Q -> result (num * num).
Variable pearsonr : list Q -> list Q -> result num.

Lemma figuras_extend (f : nat -> string -> M string) :
  In f (figuras_del_proyecto polyfit linregress pearsonr) ->
  forall a dir st, extends st (snd (f a dir st)).
Proof.
  intros Hf a dir st. unfold figuras_del_proyecto in Hf.
  repeat (destruct Hf as [<- | Hf];
          [first [apply draw_extends | apply fig8_extends] |]).
  destruct Hf.
Qed.

Lemma generar_extends (figs : list (nat -> string -> M string)) :
  (forall f, In f figs -> forall a dir st, extends st (snd (f a dir st))) ->
  forall a st, extends st (snd (generar figs a st)).
Proof.
  induction figs as [| f r IH]; intros H a st; [apply extends_refl |].
  cbn [generar]. unfold bind at 1.
  pose proof (H f (or_introl eq_refl) a OUTPUT_DIR st) as Hf.
  destruct (f a OUTPUT_DIR st) as [[p | e] st1]; [| exact Hf].
  unfold bind at 1.
  pose proof (IH (fun g Hg => H g (or_intror Hg)) a st1) as Hr.
  destruct (generar r a st1) as [[ps | e] st2]; cbn [snd] in *;
    eapply extends_trans; eassumption.
Qed.

Lemma cargar_datos_extends (path : string) (st : state) :
  extends st (snd (cargar_datos read_csv path st))
  /\ (forall t, read_csv path ";" = Ok t ->
        extends {| heap := heap st ++ [ODataFrame t]; saved := saved st |}
                (snd (cargar_datos read_csv path st))).
Proof.
  rewrite cargar_datos_run.
  destruct (read_csv path ";") as [t | e].
  - assert (E : forall r : result nat,
               heap (snd (r, {| heap := heap st ++ [ODataFrame t];
                                saved := saved st |}))
               = heap st ++ [ODataFrame t]) by reflexivity.
    split.
    + exists [ODataFrame t]. cbn zeta.
      destruct (column t "periodo") as [[] | e]; [| reflexivity].
      destruct (column t "causa_mortalidad") as [[] | e]; reflexivity.
    + intros t' Ht. injection Ht as <-. cbn zeta.
      destruct (column t "periodo") as [[] | e]; [| apply extends_refl].
      destruct (column t "causa_mortalidad") as [[] | e]; apply extends_refl.
  - split; [apply extends_refl | discriminate].
Qed.

Lemma generar_todas_extends (path : string) (st : state) :
  extends st (snd (generar_todas_las_figuras read_csv polyfit linregress
                     pearsonr path st))
  /\ (forall t, read_csv path ";" = Ok t ->
        extends {| heap := heap st ++ [ODataFrame t]; saved := saved st |}
                (snd (generar_todas_las_figuras read_csv polyfit linregress
                        pearsonr path st))).
Proof.
  unfold generar_todas_las_figuras. unfold bind at 1 2.
  destruct (cargar_datos_extends path st) as [H1 H2].
  destruct (cargar_datos read_csv path st) as [[a | e] st1]; cbn [snd] in *.
  - pose proof (generar_extends _ figuras_extend a st1) as Hg.
    split.
    + eapply extends_trans; eassumption.
    + intros t Ht. eapply extends_trans; [apply (H2 t Ht) | exact Hg].
  - split; assumption.
Qed.
End TableUnchanged.

(** C9: every figure function, and the run of all of them, leaves every
    object that was in the store before the call as it was; in particular
    the table read by the loader is, after the run, the table that was
    read. *)
Theorem figures_leave_table_unchanged
  (read_csv : string -> string -> result DataFrame)
  (polyfit : list Z -> list Q -> nat -> result (list num))
  (linregress : list Q -> list Q -> result (num * num))
  (pearsonr : list Q -> list Q -> result num) :
  (forall f, In f (figuras_del_proyecto polyfit linregress pearsonr) ->
     forall st df dir o,
       nth_error (heap st) df = Some o ->
       nth_error (heap (snd (f df dir st))) df = Some o)
  /\ (forall path st a o,
        nth_error (heap st) a = Some o ->
        nth_error (heap (snd (generar_todas_las_figuras read_csv polyfit
                                linregress pearsonr path st))) a = Some o)
  /\ (forall path st t,
        read_csv path ";" = Ok t ->
        nth_error (heap (snd (generar_todas_las_figuras read_csv polyfit
                                linregress pearsonr path st)))
                  (List.length (heap st))
        = Some (ODataFrame t)).
Proof.
  split; [| split].
  - intros f Hf st df dir o Ho.
    eapply extends_nth_error; [| exact Ho].
    now apply (figuras_extend polyfit linregress pearsonr).
  - intros path st a o Ho.
    eapply extends_nth_error; [| exact Ho].
    apply generar_todas_extends.
  - intros path st t Ht.
    eapply extends_nth_error;
      [apply (proj2 (generar_todas_extends read_csv polyfit linregress pearsonr
                       path st) t Ht) |].
    apply nth_error_new.
Qed.

Lemma figures_leave_table_unchanged_witness :
  In fig8_heatmap_departamentos
     (figuras_del_proyecto sin_polyfit sin_linregress sin_pearsonr)
  /\ nth_error (heap (store_of tabla_departamentos)) 0
     = Some (ODataFrame (frame_of tabla_departamentos))
  /\ nth_error
       (heap (snd (fig8_heatmap_departamentos 0 OUTPUT_DIR
                     (store_of tabla_departamentos)))) 0
     = Some (ODataFrame (frame_of tabla_departamentos))
  /\ leer archivos "datos.csv" ";" = Ok (frame_of (tabla_dashboard 22))
  /\ nth_error
       (heap (snd (generar_todas_las_figuras (leer archivos) sin_polyfit
                     sin_linregress sin_pearsonr "datos.csv" empty_state)))
       (List.length (heap empty_state))
     = Some (ODataFrame (frame_of (tabla_dashboard 22))).
Proof.
  assert (Hin : In fig8_heatmap_departamentos
                   (figuras_del_proyecto sin_polyfit sin_linregress sin_pearsonr)).
  { unfold figuras_del_proyecto. do 7 right. left. reflexivity. }
  assert (Ho : nth_error (heap (store_of tabla_departamentos)) 0
               = Some (ODataFrame (frame_of tabla_departamentos)))
    by reflexivity.
  assert (Hr : leer archivos "datos.csv" ";" = Ok (frame_of (tabla_dashboard 22)))
    by reflexivity.
  destruct (figures_leave_table_unchanged (leer archivos) sin_polyfit
              sin_linregress sin_pearsonr) as (Hf & _ & Hrun).
  split; [exact Hin |]. split; [exact Ho |]. split.
  - exact (Hf _ Hin _ _ OUTPUT_DIR _ Ho).
  - split; [exact Hr |]. exact (Hrun _ empty_state _ Hr).
Defined.

(** ** C4: the failures of the loader *)

Lemma column_ok (t : DataFrame) (n : string) :
  In n (columns t) -> column t n = Ok tt.
Proof.
  intros H. unfold column.
  replace (existsb (String.eqb n) (columns t)) with true; [reflexivity |].
  symmetry. apply existsb_exists. exists n. split; [assumption |].
  apply String.eqb_refl.
Qed.

Lemma column_missing (t : DataFrame) (n : string) :
  ~ In n (columns t) -> column t n = Err (KeyError n).
Proof.
  intros H. unfold column.
  destruct (existsb (String.eqb n) (columns t)) eqn:E; [| reflexivity].
  exfalso. apply H. apply existsb_exists in E. destruct E as (x & Hx & Ex).
  apply String.eqb_eq in Ex. now subst.
Qed.

(** C4, the claim as written: a file whose header has only two of the
    eight expected columns is loaded without any failure. *)
Lemma loader_accepts_other_headers :
  leer archivos "dos_columnas.csv" ";" = Ok archivo_dos_columnas
  /\ columns archivo_dos_columnas <> expected_columns
  /\ fst (cargar_datos (leer archivos) "dos_columnas.csv" empty_state) = Ok 0%nat.
Proof.
  split; [reflexivity |]. split; [discriminate | reflexivity].
Qed.

(** C4, amended: the loader raises what [read_csv] raises
    ([FileNotFoundError] for a path that does not exist) and raises
    [KeyError] when the frame read has no column [periodo] or no column
    [causa_mortalidad], as for a file that is not separated by [;]; with
    these two columns the file is loaded, whatever its other headers.
    Nothing catches the exception: the run of all figures ends with it and
    no figure is saved. *)
Theorem loader_failures (read_csv : string -> string -> result DataFrame)
  (path : string) (st : state) :
  (forall e, read_csv path ";" = Err e ->
     cargar_datos read_csv path st = (Err e, st))
  /\ (forall t, read_csv path ";" = Ok t ->
        let st1 := {| heap := heap st ++ [ODataFrame t]; saved := saved st |} in
        (~ In "periodo" (columns t) ->
           cargar_datos read_csv path st = (Err (KeyError "periodo"), st1))
        /\ (In "periodo" (columns t) -> ~ In "causa_mortalidad" (columns t) ->
              cargar_datos read_csv path st
              = (Err (KeyError "causa_mortalidad"), st1))
        /\ (In "periodo" (columns t) -> In "causa_mortalidad" (columns t) ->
              cargar_datos read_csv path st = (Ok (List.length (heap st)), st1)))
  /\ (forall polyfit linregress pearsonr e,
        fst (cargar_datos read_csv path st) = Err e ->
        let run := generar_todas_las_figuras read_csv polyfit linregress
                     pearsonr path st in
        fst run = Err e /\ saved (snd run) = saved st).
Proof.
  split; [| split].
  - intros e He. now rewrite cargar_datos_run, He.
  - intros t Ht st1. rewrite cargar_datos_run, Ht. cbn zeta. fold st1.
    split; [| split].
    + intros Hp. now rewrite (column_missing t _ Hp).
    + intros Hp Hc. now rewrite (column_ok t _ Hp), (column_missing t _ Hc).
    + intros Hp Hc. now rewrite (column_ok t _ Hp), (column_ok t _ Hc).
  - intros polyfit linregress pearsonr e He run.
    unfold run, generar_todas_las_figuras, bind.
    rewrite cargar_datos_run in *.
    destruct (read_csv path ";") as [t | e']; cbn zeta in *.
    + destruct (column t "periodo") as [[] | e1];
        [destruct (column t "causa_mortalidad") as [[] | e2] |];
        cbn [fst] in He; try discriminate; injection He as <-; split; reflexivity.
    + cbn [fst] in He. injection He as <-. split; reflexivity.
Qed.

Lemma loader_failures_witness :
  leer archivos "no_existe.csv" ";" = Err (FileNotFoundError "no_existe.csv")
  /\ cargar_datos (leer archivos) "no_existe.csv" empty_state
     = (Err (FileNotFoundError "no_existe.csv"), empty_state)
  /\ leer archivos "comas.csv" ";" = Ok archivo_con_comas
  /\ ~ In "periodo" (columns archivo_con_comas)
  /\ fst (cargar_datos (leer archivos) "comas.csv" empty_state)
     = Err (KeyError "periodo")
  /\ fst (generar_todas_las_figuras (leer archivos) sin_polyfit sin_linregress
            sin_pearsonr "comas.csv" empty_state)
     = Err (KeyError "periodo").
Proof.
  assert (H1 : leer archivos "no_existe.csv" ";"
               = Err (FileNotFoundError "no_existe.csv")) by reflexivity.
  assert (H2 : leer archivos "comas.csv" ";" = Ok archivo_con_comas) by reflexivity.
  assert (H3 : ~ In "periodo" (columns archivo_con_comas)).
  { simpl. intros [E | []]. discriminate E. }
  pose proof (proj1 (loader_failures (leer archivos) "no_existe.csv" empty_state)
                _ H1) as L1.
  pose proof (proj1 (proj1 (proj2 (loader_failures (leer archivos) "comas.csv"
                                     empty_state)) _ H2) H3) as L2.
  assert (L3 : fst (cargar_datos (leer archivos) "comas.csv" empty_state)
               = Err (KeyError "periodo")) by (rewrite L2; reflexivity).
  pose proof (proj1 (proj2 (proj2 (loader_failures (leer archivos) "comas.csv"
                                     empty_state))
                      sin_polyfit sin_linregress sin_pearsonr _ L3)) as L4.
  repeat (split; [assumption |]). exact L4.
Defined.

(** * Further properties of the figures *)

(** ** Selections *)

Lemma values0_ok {A} (site : string) (l : list A) :
  l <> [] -> exists x, values0 site l = Ok x /\ hd_error l = Some x.
Proof. destruct l as [| x r]; [congruence |]. intros _. now exists x. Qed.

Lemma values0_err {A} (site : string) (l : list A) :
  l = [] -> values0 site l = Err (IndexError site).
Proof. now intros ->. Qed.

Lemma map_nil_iff {A B} (f : A -> B) (l : list A) : map f l = [] <-> l = [].
Proof. destruct l; simpl; split; congruence. Qed.

(** Rows selected after a sort by year are there exactly when they are
    there before it. *)
Lemma sorted_selection_nil (df : DataFrame) (f : Obs -> bool) :
  rows (where_ (sort_by_periodo df) f) = [] <-> filter f (rows df) = [].
Proof.
  unfold where_. cbn [rows]. rewrite !filter_nil.
  split; intros H o Ho; apply H.
  - now apply sort_by_periodo_In.
  - now apply (proj1 (sort_by_periodo_In df o)).
Qed.

Lemma tasa_of_nil (df : DataFrame) (f : Obs -> bool) :
  tasa_of (sort_by_periodo df) f = [] <-> filter f (rows df) = [].
Proof. unfold tasa_of. rewrite map_nil_iff. apply sorted_selection_nil. Qed.

Lemma filter3 {A} (f g h : A -> bool) (l : list A) :
  filter h (filter g (filter f l)) = filter (fun x => f x && g x && h x) l.
Proof.
  rewrite !filter_filter. apply filter_ext. intros x. apply andb_assoc.
Qed.

(** ** Figure 1 *)

Lemma fig1_selection (t : list Obs) (y : Z) :
  map tasa_mortalidad
      (rows (where_ (sort_by_periodo
                       (where_ (where_ (frame_of t)
                                  (fun o => is_ ubicacion CV o
                                            && is_ causa_mortalidad "General" o))
                               (is_ sexo "Ambos sexos")))
                    (in_year y))) = []
  <-> filter (fun o => cv_rows "General" "Ambos sexos" o && in_year y o) t = [].
Proof.
  rewrite map_nil_iff, sorted_selection_nil.
  unfold where_. cbn [rows frame_of]. rewrite filter3. reflexivity.
Qed.

(** Element 0 of a selection made after the sort by year is the rate of a
    selected row, and it is missing exactly when no row is selected. *)
Lemma values0_sorted (site : string) (df : DataFrame) (f : Obs -> bool) :
  match values0 site (tasa_of (sort_by_periodo df) f) with
  | Ok x => In x (map tasa_mortalidad (filter f (rows df)))
  | Err e => e = IndexError site /\ filter f (rows df) = []
  end.
Proof.
  destruct (tasa_of (sort_by_periodo df) f) as [| x r] eqn:E; cbn [values0].
  - split; [reflexivity |]. now apply tasa_of_nil.
  - assert (Hx : In x (tasa_of (sort_by_periodo df) f)) by (rewrite E; now left).
    unfold tasa_of, where_ in Hx. cbn [rows] in Hx.
    apply in_map_iff in Hx. destruct Hx as (o & <- & Ho).
    apply filter_In in Ho. destruct Ho as [Ho Hf].
    apply in_map, filter_In. split; [| assumption].
    now apply (proj1 (sort_by_periodo_In df o)).
Qed.

(** X1: Figure 1 is drawn exactly when the table has a row of the Comunitat
    Valenciana, cause General, both sexes, for 2023 and one for 2021; the
    two values annotated are rates of such rows; with the row of 2023 and
    without that of 2021 the figure stops at [mort_2021]. *)
Theorem fig1_drawn_iff (t : list Obs) :
  let sel y := filter (fun o => cv_rows "General" "Ambos sexos" o && in_year y o) t in
  ((exists p, fig1_plot (frame_of t) = Ok p) <-> sel 2023%Z <> [] /\ sel 2021%Z <> [])
  /\ (forall p, fig1_plot (frame_of t) = Ok p ->
        In (p1_mort_2023 p) (map tasa_mortalidad (sel 2023%Z))
        /\ In (p1_mort_2021 p) (map tasa_mortalidad (sel 2021%Z)))
  /\ (sel 2023%Z <> [] -> sel 2021%Z = [] ->
      fig1_plot (frame_of t) = Err (IndexError "mort_2021")).
Proof.
  intros sel. unfold fig1_plot.
  rewrite need_frame_of by reflexivity. cbn [rbind].
  set (cv_general := where_ (frame_of t) _).
  assert (Hn : need cv_general ["sexo"; "periodo"; "tasa_mortalidad"] = Ok tt)
    by reflexivity.
  cbn [mapM]. rewrite Hn. cbn [rbind].
  set (amb := where_ cv_general (is_ sexo "Ambos sexos")).
  assert (Hsel : forall y, filter (in_year y) (rows amb) = sel y).
  { intros y. unfold amb, cv_general, where_. cbn [rows frame_of].
    rewrite filter3. reflexivity. }
  pose proof (values0_sorted "mort_2023" amb (in_year 2023)) as H23.
  pose proof (values0_sorted "mort_2021" amb (in_year 2021)) as H21.
  rewrite Hsel in H23, H21. unfold tasa_of in H23, H21.
  destruct (values0 "mort_2023" _) as [a | e]; cbn [rbind].
  - destruct (values0 "mort_2021" _) as [b | e]; cbn [rbind].
    + split; [| split].
      * split; [| intros _; eexists; reflexivity].
        intros _. split; intros E; [rewrite E in H23 | rewrite E in H21];
          contradiction.
      * intros p Hp. injection Hp as <-. cbn [p1_mort_2023 p1_mort_2021]. auto.
      * intros _ E. rewrite E in H21. contradiction.
    + destruct H21 as [-> E21]. split; [| split].
      * split; [intros [p Hp]; discriminate Hp | intros [_ H]; contradiction].
      * discriminate.
      * reflexivity.
  - destruct H23 as [-> E23]. split; [| split].
    + split; [intros [p Hp]; discriminate Hp | intros [H _]; contradiction].
    + discriminate.
    + intros H. contradiction.
Qed.

Lemma fig1_drawn_iff_witness :
  filter (fun o => cv_rows "General" "Ambos sexos" o && in_year 2023 o)
         (tabla_dashboard 22) <> []
  /\ filter (fun o => cv_rows "General" "Ambos sexos" o && in_year 2021 o)
            (tabla_dashboard 22) <> []
  /\ exists p, fig1_plot (frame_of (tabla_dashboard 22)) = Ok p
               /\ p1_mort_2023 p == 90 /\ p1_mort_2021 p == 110.
Proof.
  assert (H23 : filter (fun o => cv_rows "General" "Ambos sexos" o && in_year 2023 o)
                       (tabla_dashboard 22) <> []) by (vm_compute; discriminate).
  assert (H21 : filter (fun o => cv_rows "General" "Ambos sexos" o && in_year 2021 o)
                       (tabla_dashboard 22) <> []) by (vm_compute; discriminate).
  destruct (fig1_drawn_iff (tabla_dashboard 22)) as (Hiff & Hval & _).
  destruct (proj2 Hiff (conj H23 H21)) as [p Hp].
  destruct (Hval p Hp) as [V23 V21].
  split; [exact H23 |]. split; [exact H21 |].
  exists p. split; [exact Hp |].
  assert (E23 : map tasa_mortalidad
                  (filter (fun o => cv_rows "General" "Ambos sexos" o
                                    && in_year 2023 o) (tabla_dashboard 22)) = [90])
    by (vm_compute; reflexivity).
  assert (E21 : map tasa_mortalidad
                  (filter (fun o => cv_rows "General" "Ambos sexos" o
                                    && in_year 2021 o) (tabla_dashboard 22)) = [110])
    by (vm_compute; reflexivity).
  rewrite E23 in V23. rewrite E21 in V21.
  destruct V23 as [<- | []]. destruct V21 as [<- | []]. split; reflexivity.
Defined.

(** ** Figure 6 *)

(** X8: Figure 6 is drawn exactly when the table has a men's and a women's row
    of the Comunitat Valenciana, cause General, for 2023; the gap written
    on it is the life expectancy of the first such women's row minus that
    of the first such men's row; with the men's row only it stops at
    [ev_m_2023]. *)
Theorem fig6_gap (t : list Obs) :
  let ev s :=
    map esperanza_vida
        (filter (fun o => cv_rows "General" s o && in_year 2023 o) t) in
  (forall h m, hd_error (ev "Hombres") = Some h -> hd_error (ev "Mujeres") = Some m ->
     exists p, fig6_plot (frame_of t) = Ok p
               /\ p6_ev_h_2023 p = h /\ p6_ev_m_2023 p = m /\ p6_brecha p = m - h)
  /\ ((exists p, fig6_plot (frame_of t) = Ok p) ->
      ev "Hombres" <> [] /\ ev "Mujeres" <> [])
  /\ (ev "Hombres" <> [] -> ev "Mujeres" = [] ->
      fig6_plot (frame_of t) = Err (IndexError "ev_m_2023")).
Proof.
  intros ev. unfold fig6_plot.
  cbn [mapM]. rewrite !need_frame_of by reflexivity. cbn [rbind].
  change (map esperanza_vida
            (rows (where_ (frame_of t)
                     (fun o => cv_rows "General" "Hombres" o && in_year 2023 o))))
    with (ev "Hombres").
  change (map esperanza_vida
            (rows (where_ (frame_of t)
                     (fun o => cv_rows "General" "Mujeres" o && in_year 2023 o))))
    with (ev "Mujeres").
  destruct (ev "Hombres") as [| h rh]; destruct (ev "Mujeres") as [| m rm];
    cbn [values0 rbind hd_error].
  - split; [discriminate |]. split; [intros [p Hp]; discriminate Hp | congruence].
  - split; [discriminate |]. split; [intros [p Hp]; discriminate Hp | congruence].
  - split; [discriminate |]. split; [intros [p Hp]; discriminate Hp | reflexivity].
  - split; [| split].
    + intros h' m' Eh Em. injection Eh as <-. injection Em as <-.
      eexists. split; [reflexivity |]. cbn. auto.
    + intros _. split; discriminate.
    + discriminate.
Qed.

Lemma fig6_gap_witness :
  exists p,
    hd_error (map esperanza_vida
                (filter (fun o => cv_rows "General" "Hombres" o && in_year 2023 o)
                        [obs_cv 2023 "General" "Hombres" 120 18;
                         obs_cv 2023 "General" "Mujeres" 80 22])) = Some 18
    /\ hd_error (map esperanza_vida
                   (filter (fun o => cv_rows "General" "Mujeres" o && in_year 2023 o)
                           [obs_cv 2023 "General" "Hombres" 120 18;
                            obs_cv 2023 "General" "Mujeres" 80 22])) = Some 22
    /\ fig6_plot (frame_of [obs_cv 2023 "General" "Hombres" 120 18;
                            obs_cv 2023 "General" "Mujeres" 80 22]) = Ok p
    /\ p6_brecha p = 22 - 18.
Proof.
  destruct (proj1 (fig6_gap [obs_cv 2023 "General" "Hombres" 120 18;
                             obs_cv 2023 "General" "Mujeres" 80 22])
              18 22 eq_refl eq_refl) as (p & Hp & _ & _ & Hb).
  exists p. split; [reflexivity |]. split; [reflexivity |].
  split; [exact Hp | exact Hb].
Defined.

(** ** Loops: [mapM] *)

Lemma mapM_ok {A B} (f : A -> result B) (l : list A) (ys : list B) :
  mapM f l = Ok ys -> Forall2 (fun x y => f x = Ok y) l ys.
Proof.
  revert ys. induction l as [| x r IH]; intros ys H; cbn [mapM] in H.
  - injection H as <-. constructor.
  - destruct (f x) as [y |] eqn:E; [| discriminate]. cbn [rbind] in H.
    destruct (mapM f r) as [ys' |]; [| discriminate]. cbn [rbind] in H.
    injection H as <-. constructor; auto.
Qed.

Lemma mapM_all_ok {A B} (f : A -> result B) (l : list A) :
  (exists ys, mapM f l = Ok ys) <-> Forall (fun x => exists y, f x = Ok y) l.
Proof.
  induction l as [| x r IH]; cbn [mapM].
  - split; [constructor | intros _; now eexists].
  - split.
    + intros [ys H]. destruct (f x) as [y |] eqn:E; [| discriminate].
      cbn [rbind] in H. destruct (mapM f r) as [ys' |]; [| discriminate].
      constructor; [now exists y |]. apply IH. now eexists.
    + intros H. inversion H as [| ? ? [y Hy] Hr]; subst.
      apply IH in Hr. destruct Hr as [ys Hys]. rewrite Hy, Hys.
      now eexists.
Qed.

(** The loop stops at the first element that raises. *)
Lemma mapM_first_error {A B} (f : A -> result B) (l1 l2 : list A) (x : A)
  (e : error) :
  Forall (fun a => exists y, f a = Ok y) l1 -> f x = Err e ->
  mapM f (l1 ++ x :: l2) = Err e.
Proof.
  intros H He. induction H as [| a r [y Hy] Hr IH]; cbn [mapM app].
  - now rewrite He.
  - rewrite Hy. cbn [rbind]. now rewrite IH.
Qed.

(** ** Figure 3 *)

Lemma fig3_panel_spec (t : list Obs) (causa : string) :
  let sel y :=
    map tasa_mortalidad
        (filter (fun o => cv_rows causa "Ambos sexos" o && in_year y o) t) in
  match fig3_panel (frame_of t) causa with
  | Ok p =>
      p3_causa p = causa
      /\ exists inicio fin,
           In inicio (sel 2010%Z) /\ In fin (sel 2023%Z)
           /\ p3_cambio p = pc (Fin inicio) (Fin fin)
           /\ p3_baja p = Num.ltb (pc (Fin inicio) (Fin fin)) (Fin 0)
  | Err e =>
      (e = IndexError "inicio" /\ sel 2010%Z = [])
      \/ (e = IndexError "fin" /\ sel 2010%Z <> [] /\ sel 2023%Z = [])
  end.
Proof.
  intros sel. unfold fig3_panel.
  rewrite need_frame_of by reflexivity. cbn [rbind].
  set (amb := where_ (frame_of t) (cv_rows causa "Ambos sexos")).
  assert (Hsel : forall y, map tasa_mortalidad (filter (in_year y) (rows amb)) = sel y).
  { intros y. unfold amb, where_, sel. cbn [rows frame_of].
    rewrite filter_filter. reflexivity. }
  pose proof (values0_sorted "inicio" amb (in_year 2010)) as H10.
  pose proof (values0_sorted "fin" amb (in_year 2023)) as H23.
  rewrite Hsel in H10, H23. unfold tasa_of in H10, H23.
  destruct (values0 "inicio" _) as [a | e]; cbn [rbind].
  - destruct (values0 "fin" _) as [b | e]; cbn [rbind].
    + cbn [p3_causa p3_cambio p3_baja]. split; [reflexivity |].
      exists a, b. auto.
    + destruct H23 as [-> E]. right. split; [reflexivity |]. split.
      * intros E'. rewrite E' in H10. contradiction.
      * rewrite <- (Hsel 2023%Z), E. reflexivity.
  - destruct H10 as [-> E]. left. split; [reflexivity |].
    rewrite <- (Hsel 2010%Z), E. reflexivity.
Qed.

Lemma pc_negative_iff (a b : Q) :
  0 < a -> (Num.ltb (pc (Fin a) (Fin b)) (Fin 0) = true <-> b < a).
Proof.
  intros Ha.
  assert (Hnz : ~ a == 0) by (intros E; rewrite E in Ha; discriminate Ha).
  rewrite pc_fin by assumption. rewrite ltb_fin.
  assert (E : (b + - a) / a * 100 == (b - a) * (100 / a)) by (field; assumption).
  rewrite E.
  assert (Hk : 0 < 100 / a).
  { apply Qlt_shift_div_l; [assumption |]. reflexivity. }
  split; intros H.
  - destruct (Qlt_le_dec b a) as [Hlt | Hle]; [assumption |].
    exfalso. assert (0 <= (b - a) * (100 / a)).
    { apply Qmult_le_0_compat; [lra | now apply Qlt_le_weak]. }
    lra.
  - assert (0 < (a - b) * (100 / a)).
    { apply Qmult_lt_0_compat; [lra | assumption]. }
    assert (E2 : (b - a) * (100 / a) == - ((a - b) * (100 / a))) by ring.
    rewrite E2. lra.
Qed.

(** X5: Figure 3 is drawn exactly when each of the four causes has a row (both
    sexes) for 2010 and for 2023; it then has one panel per cause, in the
    order of [causas], and a panel with a positive rate in 2010 shows the
    falling arrow exactly when the rate of 2023 is below it: an unchanged
    rate shows the rising arrow. *)
Theorem fig3_panels (t : list Obs) :
  let sel c y :=
    map tasa_mortalidad
        (filter (fun o => cv_rows c "Ambos sexos" o && in_year y o) t) in
  let causas := ["Cancer"; "Cardio"; "Cerebro"; "Suicidio"] in
  ((exists ps, fig3_plot (frame_of t) = Ok ps)
   <-> forall c, In c causas -> sel c 2010%Z <> [] /\ sel c 2023%Z <> [])
  /\ (forall ps, fig3_plot (frame_of t) = Ok ps ->
        map p3_causa ps = causas
        /\ forall p, In p ps ->
             exists inicio fin,
               In inicio (sel (p3_causa p) 2010%Z)
               /\ In fin (sel (p3_causa p) 2023%Z)
               /\ p3_cambio p = pc (Fin inicio) (Fin fin)
               /\ (0 < inicio -> (p3_baja p = true <-> fin < inicio))).
Proof.
  intros sel causas. unfold fig3_plot. fold causas. split.
  - rewrite mapM_all_ok, Forall_forall.
    split; intros H c Hc; specialize (H c Hc);
      pose proof (fig3_panel_spec t c) as S; cbv zeta in S; fold (sel c) in S.
    + destruct H as [p Hp]. rewrite Hp in S.
      destruct S as (_ & a & b & Ha & Hb & _).
      split; intros E; [rewrite E in Ha | rewrite E in Hb]; contradiction.
    + destruct (fig3_panel (frame_of t) c) as [p | e]; [now exists p |].
      destruct H as [H10 H23].
      destruct S as [[_ E] | (_ & _ & E)]; contradiction.
  - intros ps H. apply mapM_ok in H.
    assert (Hp : forall c p, fig3_panel (frame_of t) c = Ok p ->
                   p3_causa p = c
                   /\ exists inicio fin,
                        In inicio (sel c 2010%Z) /\ In fin (sel c 2023%Z)
                        /\ p3_cambio p = pc (Fin inicio) (Fin fin)
                        /\ (0 < inicio -> (p3_baja p = true <-> fin < inicio))).
    { intros c p E. pose proof (fig3_panel_spec t c) as S. cbv zeta in S.
      fold (sel c) in S. rewrite E in S.
      destruct S as (Hc & a & b & Ha & Hb & Hcam & Hbaja).
      split; [exact Hc |]. exists a, b. repeat (split; [assumption |]).
      intros Hpos. rewrite Hbaja. now apply pc_negative_iff. }
    clearbody causas. split.
    + clear Hp. induction H as [| c p cs ps' Hc Hr IH]; [reflexivity |].
      cbn [map]. f_equal; [| exact IH].
      pose proof (fig3_panel_spec t c) as S. cbv zeta in S. rewrite Hc in S.
      apply S.
    + intros p Hin.
      induction H as [| c p' cs ps' Hc Hr IH]; [contradiction |].
      destruct Hin as [<- | Hin]; [| auto].
      destruct (Hp c p' Hc) as [E Hrest]. now rewrite E.
Qed.

Lemma fig3_panels_witness :
  (forall c, In c ["Cancer"; "Cardio"; "Cerebro"; "Suicidio"] ->
     map tasa_mortalidad
         (filter (fun o => cv_rows c "Ambos sexos" o && in_year 2010 o) tabla_causas)
     <> []
     /\ map tasa_mortalidad
            (filter (fun o => cv_rows c "Ambos sexos" o && in_year 2023 o) tabla_causas)
        <> [])
  /\ exists ps,
       fig3_plot (frame_of tabla_causas) = Ok ps
       /\ map p3_causa ps = ["Cancer"; "Cardio"; "Cerebro"; "Suicidio"]
       /\ map p3_baja ps = [false; true; true; false].
Proof.
  assert (H : forall c, In c ["Cancer"; "Cardio"; "Cerebro"; "Suicidio"] ->
     map tasa_mortalidad
         (filter (fun o => cv_rows c "Ambos sexos" o && in_year 2010 o) tabla_causas)
     <> []
     /\ map tasa_mortalidad
            (filter (fun o => cv_rows c "Ambos sexos" o && in_year 2023 o) tabla_causas)
        <> []).
  { intros c Hc. repeat (destruct Hc as [<- | Hc]; [split; vm_compute; discriminate |]).
    destruct Hc. }
  destruct (fig3_panels tabla_causas) as [Hiff Hps].
  destruct (proj2 Hiff H) as [ps Hp].
  split; [exact H |]. exists ps. split; [exact Hp |].
  split; [exact (proj1 (Hps ps Hp)) |].
  vm_compute in Hp. injection Hp as <-. reflexivity.
Defined.

(** ** Sorted frames *)

(** The rows taken in the order of [nargsort] on a key stand in ascending,
    or descending, order of the key. *)
Lemma take_nargsort_sorted {A} (asc : bool) (key : A -> num) (l : list A) :
  StronglySorted
    (fun a b => if asc then Num.ltb (key b) (key a) = false
                else Num.ltb (key a) (key b) = false)
    (take l (nargsort asc (map key l))).
Proof.
  assert (Hp : Permutation (nargsort asc (map key l)) (seq 0 (List.length l))).
  { rewrite <- (length_map key l). apply nargsort_perm. }
  destruct l as [| d l0] eqn:El; [destruct asc; constructor |].
  rewrite <- El in *. clear El l0.
  rewrite (take_map l _ d (perm_seq_bound _ _ Hp)).
  rewrite nargsort_map, map_map.
  eapply StronglySorted_map; [| apply (nargsort_items_sorted asc)].
  intros a b Ha Hb H.
  apply nargsort_items_in, enumerate_nth in Ha, Hb.
  rewrite nth_error_map in Ha, Hb.
  destruct (nth_error l (fst a)) as [ra |] eqn:Ea; [| discriminate].
  destruct (nth_error l (fst b)) as [rb |] eqn:Eb; [| discriminate].
  rewrite (nth_error_nth _ _ _ Ea), (nth_error_nth _ _ _ Eb).
  simpl in Ha, Hb. injection Ha as Ha. injection Hb as Hb.
  rewrite Ha, Hb. destruct asc; apply H.
Qed.

Lemma take_nargsort_perm {A} (asc : bool) (key : A -> num) (l : list A) :
  Permutation (take l (nargsort asc (map key l))) l.
Proof.
  apply take_perm. rewrite <- (length_map key l). apply nargsort_perm.
Qed.

(** ** Groups *)

Section GroupFacts.
Context {K : Type} (cmp : K -> K -> comparison) (lt : K -> K -> Prop).
Hypothesis lt_strict : StrictOrder lt.
Hypothesis cmp_spec : forall x y, CompSpec eq lt x y (cmp x y).

Lemma groupby_mean_keys (key : Obs -> K) (val : Obs -> Q) (t : list Obs) :
  map fst (groupby_mean cmp key val t) = group_keys cmp (map key t).
Proof.
  unfold groupby_mean. rewrite map_map. cbn [fst]. apply map_id.
Qed.

(** A group has the mean of its rows, which is a number: no group is
    empty. *)
Lemma groupby_mean_In (key : Obs -> K) (val : Obs -> Q) (t : list Obs)
  (k : K) (v : num) :
  In (k, v) (groupby_mean cmp key val t)
  <-> In k (map key t) /\ v = mean (map val (filter (key_is cmp key k) t)).
Proof.
  unfold groupby_mean. rewrite in_map_iff. split.
  - intros (k' & E & Hk). injection E as -> <-.
    split; [| reflexivity]. now apply (proj1 (group_keys_In cmp lt cmp_spec _ _)).
  - intros [Hk ->]. exists k. split; [reflexivity |].
    now apply (proj2 (group_keys_In cmp lt cmp_spec _ _)).
Qed.

Lemma group_not_empty (key : Obs -> K) (t : list Obs) (k : K) :
  In k (map key t) -> filter (key_is cmp key k) t <> [].
Proof.
  intros Hk E. apply in_map_iff in Hk. destruct Hk as (o & <- & Ho).
  rewrite filter_nil in E. specialize (E o Ho). unfold key_is in E.
  rewrite (proj2 (cmp_eq cmp lt lt_strict cmp_spec (key o) (key o)) eq_refl) in E.
  discriminate E.
Qed.

Lemma groupby_mean_finite (key : Obs -> K) (val : Obs -> Q) (t : list Obs) :
  Forall (fun kv => is_finite (snd kv) = true) (groupby_mean cmp key val t).
Proof.
  apply Forall_forall. intros [k v] H. apply groupby_mean_In in H.
  destruct H as [Hk ->]. cbn [snd].
  pose proof (group_not_empty key t k Hk) as Hne.
  destruct (filter (key_is cmp key k) t); [congruence | reflexivity].
Qed.
End GroupFacts.

Lemma key_is_str (key : Obs -> string) (k : string) (o : Obs) :
  key_is str_cmp key k o = is_ key k o.
Proof.
  unfold key_is, is_.
  destruct (str_cmp_spec (key o) k) as [E | E | E].
  - subst. now rewrite String.eqb_refl.
  - destruct (String.eqb_spec (key o) k) as [E' | _]; [| reflexivity].
    exfalso. rewrite E' in E. eapply StrictOrder_Irreflexive. exact E.
  - destruct (String.eqb_spec (key o) k) as [E' | _]; [| reflexivity].
    exfalso. rewrite E' in E. eapply StrictOrder_Irreflexive. exact E.
Qed.

(** ** [max] *)

Lemma py_max_In (site : string) (l : list num) (m : num) :
  py_max site l = Ok m -> In m l.
Proof.
  destruct l as [| x r]; [discriminate |]. cbn [py_max]. intros H.
  injection H as <-. revert x.
  induction r as [| y r IH]; intros x; cbn [fold_left]; [now left |].
  destruct (gtb y x).
  - destruct (IH y) as [<- | H]; [right; now left | right; now right].
  - destruct (IH x) as [<- | H]; [now left | right; now right].
Qed.

Lemma py_max_empty (site : string) (l : list num) :
  l = [] <-> py_max site l = Err (ValueError site).
Proof. destruct l; cbn [py_max]; split; congruence. Qed.

(** ** Figure 2 *)

Lemma in_by_eqb (c : string) (l : list string) :
  existsb (String.eqb c) l = true -> In c l.
Proof.
  intros H. apply existsb_exists in H. destruct H as (x & Hx & E).
  apply String.eqb_eq in E. now subst.
Qed.

Lemma existsb_label {A} (label : string) (s : list (string * A)) :
  existsb (fun p => String.eqb (fst p) label) s = true <-> In label (map fst s).
Proof.
  rewrite existsb_exists, in_map_iff. split.
  - intros (p & Hp & E). apply String.eqb_eq in E. now exists p.
  - intros (p & E & Hp). exists p. split; [assumption |]. now apply String.eqb_eq.
Qed.

Lemma drop_label_spec {A} (label : string) (s : list (string * A)) :
  (In label (map fst s) ->
   drop_label label s = Ok (filter (fun p => negb (String.eqb (fst p) label)) s))
  /\ (~ In label (map fst s) -> drop_label label s = Err (KeyError label)).
Proof.
  unfold drop_label.
  destruct (existsb (fun p => String.eqb (fst p) label) s) eqn:E.
  - split; [reflexivity |]. intros H. exfalso. apply H. now apply existsb_label.
  - split; [| reflexivity]. intros H. apply existsb_label in H. congruence.
Qed.

Lemma fig2_sorted_In (t : list Obs) (c : string) (v : num) :
  let sel := filter (fun o => is_ ubicacion CV o && is_ sexo "Ambos sexos" o) t in
  In (c, v) (fig2_sorted t)
  <-> In c (map causa_mortalidad sel)
      /\ v = mean (map tasa_mortalidad (filter (is_ causa_mortalidad c) sel)).
Proof.
  intros sel. unfold fig2_sorted.
  assert (Hp := take_nargsort_perm true snd (causas_mean (frame_of t))).
  transitivity (In (c, v) (causas_mean (frame_of t))).
  - split; apply Permutation_in; [exact Hp | now symmetry].
  - unfold causas_mean, where_. cbn [rows frame_of]. fold sel.
    rewrite (groupby_mean_In str_cmp String_as_OT.lt str_cmp_spec).
    rewrite (filter_ext _ _ (key_is_str causa_mortalidad c)). reflexivity.
Qed.

Lemma fig2_sorted_keys (t : list Obs) (c : string) :
  In c (map fst (fig2_sorted t))
  <-> In c (map causa_mortalidad
              (filter (fun o => is_ ubicacion CV o && is_ sexo "Ambos sexos" o) t)).
Proof.
  rewrite in_map_iff. split.
  - intros ([c' v] & E & H). cbn [fst] in E. subst c'.
    now apply fig2_sorted_In in H.
  - intros H. eexists (c, _). split; [reflexivity |].
    apply fig2_sorted_In. split; [exact H | reflexivity].
Qed.

Lemma fig2_sorted_finite (t : list Obs) :
  Forall (fun kv => is_finite (snd kv) = true) (fig2_sorted t).
Proof.
  unfold fig2_sorted.
  eapply Permutation_Forall;
    [symmetry; apply (take_nargsort_perm true snd) |].
  apply (groupby_mean_finite str_cmp String_as_OT.lt String_as_OT.lt_strorder
           str_cmp_spec).
Qed.

Lemma fig2_plot_run (t : list Obs) :
  fig2_plot (frame_of t)
  = (bars <- drop_label "General" (fig2_sorted t) ;;
     m <- py_max "xlim" (map snd bars) ;;
     set_lim "xlim" (m * Fin (115 # 100))%num ;;;
     Ok {| p2_causas_data := fig2_sorted t;
           p2_bars := bars;
           p2_xlim := (m * Fin (115 # 100))%num |}).
Proof. unfold fig2_plot. now rewrite need_frame_of by reflexivity. Qed.

(** X3: Figure 2 raises [KeyError] when no row of the Comunitat Valenciana,
    both sexes, has the cause General, and [ValueError] (the maximum of
    nothing) when General is their only cause; with General and one other
    cause it is drawn. *)
Theorem fig2_outcomes (t : list Obs) :
  let causes :=
    map causa_mortalidad
        (filter (fun o => is_ ubicacion CV o && is_ sexo "Ambos sexos" o) t) in
  (~ In "General" causes -> fig2_plot (frame_of t) = Err (KeyError "General"))
  /\ (In "General" causes -> (forall c, In c causes -> c = "General") ->
      fig2_plot (frame_of t) = Err (ValueError "xlim"))
  /\ (In "General" causes -> (exists c, In c causes /\ c <> "General") ->
      exists p, fig2_plot (frame_of t) = Ok p).
Proof.
  intros causes. rewrite fig2_plot_run.
  destruct (drop_label_spec "General" (fig2_sorted t)) as [Hin Hout].
  split; [| split].
  - intros H. rewrite Hout; [reflexivity |]. now rewrite fig2_sorted_keys.
  - intros HG Hall. rewrite Hin by now rewrite fig2_sorted_keys.
    cbn [rbind].
    assert (E : filter (fun p : string * num => negb (String.eqb (fst p) "General"))
                       (fig2_sorted t) = []).
    { apply filter_nil. intros [c v] H. cbn [fst].
      assert (Hc : In c (map fst (fig2_sorted t)))
        by (apply in_map_iff; now exists (c, v)).
      apply fig2_sorted_keys, Hall in Hc. subst c. reflexivity. }
    rewrite E. reflexivity.
  - intros HG (c & Hc & Hne). rewrite Hin by now rewrite fig2_sorted_keys.
    cbn [rbind].
    set (bars := filter _ (fig2_sorted t)).
    assert (Hb : exists v, In (c, v) bars).
    { apply fig2_sorted_keys, in_map_iff in Hc. destruct Hc as ([c' v] & E & H).
      cbn [fst] in E. subst c'. exists v. apply filter_In. split; [assumption |].
      cbn [fst]. apply negb_true_iff. now apply String.eqb_neq. }
    destruct Hb as [v Hv].
    destruct (py_max "xlim" (map snd bars)) as [m | e] eqn:Em.
    + cbn [rbind]. apply py_max_In, in_map_iff in Em.
      destruct Em as ([c' m'] & E & Hm). cbn [snd] in E. subst m'.
      apply filter_In in Hm. destruct Hm as [Hm _].
      pose proof (fig2_sorted_finite t) as Hf. rewrite Forall_forall in Hf.
      specialize (Hf _ Hm). cbn [snd] in Hf.
      destruct m; try discriminate Hf. cbn. now eexists.
    + exfalso. destruct (map snd bars) eqn:E; [| discriminate Em].
      apply map_nil_iff in E. rewrite E in Hv. contradiction.
Qed.

Lemma fig2_outcomes_witness :
  ~ In "General"
       (map causa_mortalidad
          (filter (fun o => is_ ubicacion CV o && is_ sexo "Ambos sexos" o)
                  tabla_causas))
  /\ fig2_plot (frame_of tabla_causas) = Err (KeyError "General")
  /\ exists p, fig2_plot (frame_of (tabla_dashboard 22)) = Ok p.
Proof.
  assert (H1 : ~ In "General"
                  (map causa_mortalidad
                     (filter (fun o => is_ ubicacion CV o && is_ sexo "Ambos sexos" o)
                             tabla_causas))).
  { vm_compute. intros H. repeat (destruct H as [H | H]; [discriminate H |]).
    exact H. }
  assert (H2 : In "General"
                  (map causa_mortalidad
                     (filter (fun o => is_ ubicacion CV o && is_ sexo "Ambos sexos" o)
                             (tabla_dashboard 22))))
    by (apply in_by_eqb; vm_compute; reflexivity).
  assert (H3 : exists c,
             In c (map causa_mortalidad
                     (filter (fun o => is_ ubicacion CV o && is_ sexo "Ambos sexos" o)
                             (tabla_dashboard 22))) /\ c <> "General").
  { exists "Suicidio".
    split; [apply in_by_eqb; vm_compute; reflexivity | discriminate]. }
  split; [exact H1 |]. split.
  - exact (proj1 (fig2_outcomes tabla_causas) H1).
  - exact (proj2 (proj2 (fig2_outcomes (tabla_dashboard 22))) H2 H3).
Defined.

(** X4: The bars of figure 2: one for each cause other than General among the
    rows of the Comunitat Valenciana, both sexes, with the mean rate of
    the rows of that cause, in ascending order of the means. *)
Theorem fig2_bars (t : list Obs) (p : plot2) :
  fig2_plot (frame_of t) = Ok p ->
  let sel := filter (fun o => is_ ubicacion CV o && is_ sexo "Ambos sexos" o) t in
  (forall c v,
     In (c, v) (p2_bars p)
     <-> c <> "General" /\ In c (map causa_mortalidad sel)
         /\ v = mean (map tasa_mortalidad (filter (is_ causa_mortalidad c) sel)))
  /\ NoDup (map fst (p2_bars p))
  /\ StronglySorted (fun a b => Num.ltb (snd b) (snd a) = false) (p2_bars p).
Proof.
  intros H sel. rewrite fig2_plot_run in H.
  destruct (drop_label_spec "General" (fig2_sorted t)) as [Hin Hout].
  destruct (drop_label "General" (fig2_sorted t)) as [bars | e] eqn:Ed;
    [| discriminate].
  assert (Eb : bars = filter (fun p : string * num => negb (String.eqb (fst p) "General"))
                             (fig2_sorted t)).
  { destruct (in_dec string_dec "General" (map fst (fig2_sorted t))) as [Hi | Hn].
    - specialize (Hin Hi). congruence.
    - specialize (Hout Hn). congruence. }
  cbn [rbind] in H.
  destruct (py_max _ _) as [m | e]; [| discriminate]. cbn [rbind] in H.
  destruct (set_lim _ _) as [[] | e]; [| discriminate]. cbn [rbind] in H.
  injection H as <-. cbn [p2_bars]. rewrite Eb. split; [| split].
  - intros c v. rewrite filter_In. cbn [fst].
    rewrite (fig2_sorted_In t c v). fold sel.
    rewrite negb_true_iff, String.eqb_neq. tauto.
  - assert (Hnd : NoDup (map fst (fig2_sorted t))).
    { unfold fig2_sorted.
      eapply Permutation_NoDup;
        [symmetry; apply Permutation_map, (take_nargsort_perm true snd) |].
      unfold causas_mean. rewrite groupby_mean_keys.
      apply (sorted_NoDup String_as_OT.lt String_as_OT.lt_strorder),
        (group_keys_sorted str_cmp String_as_OT.lt String_as_OT.lt_strorder
           str_cmp_spec). }
    clear -Hnd. induction (fig2_sorted t) as [| [c v] r IH]; [constructor |].
    cbn [map fst] in Hnd. inversion Hnd as [| ? ? Hc Hr]; subst.
    cbn [filter fst]. destruct (negb (String.eqb c "General")); cbn [map fst]; auto.
    constructor; auto. intros Hi. apply Hc.
    apply in_map_iff in Hi. destruct Hi as (x & <- & Hx).
    apply filter_In in Hx. apply in_map. tauto.
  - apply StronglySorted_filter. unfold fig2_sorted.
    apply (take_nargsort_sorted true snd).
Qed.

Lemma fig2_bars_witness :
  exists p,
    fig2_plot (frame_of (tabla_dashboard 22)) = Ok p
    /\ In ("Suicidio", Fin ((8 + (9 + 0)) / 2)) (p2_bars p)
    /\ NoDup (map fst (p2_bars p)).
Proof.
  destruct (fig2_plot (frame_of (tabla_dashboard 22))) as [p |] eqn:E;
    [| vm_compute in E; discriminate].
  destruct (fig2_bars (tabla_dashboard 22) p E) as (Hin & Hnd & _).
  exists p. split; [reflexivity |]. split; [| exact Hnd].
  apply Hin. split; [discriminate |].
  split; [apply in_by_eqb; vm_compute; reflexivity | reflexivity].
Defined.

(** ** Figure 4: ratios that are not numbers *)

Lemma fold_max_nan (r : list num) :
  fold_left (fun acc y => if gtb y acc then y else acc) r NaN = NaN.
Proof.
  induction r as [| y r IH]; cbn [fold_left]; [reflexivity |].
  assert (E : gtb y NaN = false) by (unfold gtb; now destruct y).
  now rewrite E.
Qed.

Lemma fold_max_pinf (r : list num) (acc : num) :
  is_nan acc = false ->
  Forall (fun y => is_nan y = false) r ->
  acc = PInf \/ In PInf r ->
  fold_left (fun acc y => if gtb y acc then y else acc) r acc = PInf.
Proof.
  revert acc. induction r as [| y r IH]; intros acc Ha Hr H; cbn [fold_left].
  - destruct H as [H | []]. exact H.
  - inversion Hr as [| ? ? Hy Hr']; subst.
    destruct (gtb y acc) eqn:E.
    + apply IH; [assumption | assumption |].
      destruct H as [Hacc | [Hy' | H]].
      * subst acc. unfold gtb in E. destruct y; discriminate E.
      * now left.
      * now right.
    + apply IH; [assumption | assumption |].
      destruct H as [Hacc | [Hy' | H]].
      * now left.
      * subst y. left. unfold gtb in E.
        destruct acc; try discriminate; reflexivity.
      * now right.
Qed.

(** [max] of a list that starts with NaN is NaN, and of a list without
    NaN that holds an infinity is the infinity. *)
Lemma py_max_not_finite (site : string) (l : list num) :
  (exists r, l = NaN :: r)
  \/ (Forall (fun y => is_nan y = false) l /\ In PInf l) ->
  exists m, py_max site l = Ok m /\ (m = NaN \/ m = PInf).
Proof.
  intros [[r ->] | [Hn Hi]].
  - exists NaN. cbn [py_max]. rewrite fold_max_nan. auto.
  - destruct l as [| x r]; [contradiction |]. exists PInf. cbn [py_max].
    inversion Hn as [| ? ? Hx Hr]; subst. split; [| now right]. f_equal.
    apply fold_max_pinf; [assumption | assumption |].
    destruct Hi as [-> | Hi]; auto.
Qed.

(** The values in the order [rev (argsort v)]: NaN first when there is
    one. *)
Lemma rev_argsort_values (v : list num) :
  let ord := map (fun i => nth i v NaN) (rev (argsort v)) in
  Permutation ord v
  /\ (In NaN v -> exists r, ord = NaN :: r).
Proof.
  intros ord. split.
  - unfold ord. destruct (rev_argsort v) as (Hp & _ & _).
    rewrite <- (take_map v _ NaN (perm_seq_bound _ _ Hp)).
    now apply take_perm.
  - intros Hin. unfold ord, argsort.
    set (nn := map fst (stable_sort by_value
                          (filter (fun p => negb (is_nan (snd p))) (enumerate v)))).
    set (nans := filter (fun p : nat * num => is_nan (snd p)) (enumerate v)).
    assert (Hne : nans <> []).
    { apply In_nth_error in Hin. destruct Hin as [i Hi].
      assert (Hx : In (i, NaN) (enumerate v)).
      { unfold enumerate. apply nth_error_In with (n := i).
        rewrite nth_error_combine, Hi, nth_error_seq.
        assert (i < List.length v)%nat by (apply nth_error_Some; congruence).
        destruct (Nat.ltb_spec i (List.length v)); [reflexivity | lia]. }
      intros E. assert (Hf : In (i, NaN) nans) by (apply filter_In; auto).
      rewrite E in Hf. contradiction. }
    rewrite rev_app_distr, map_app.
    destruct (rev nans) as [| a ra] eqn:Er.
    { exfalso. apply Hne. apply (f_equal (@rev _)) in Er.
      now rewrite rev_involutive in Er. }
    rewrite <- map_rev, Er. cbn [map app]. eexists. f_equal.
    assert (Ha : In a nans) by (apply in_rev; rewrite Er; now left).
    apply filter_In in Ha. destruct Ha as [Ha Hnan].
    apply enumerate_nth in Ha. rewrite (nth_error_nth _ _ _ Ha).
    destruct (snd a); try discriminate; reflexivity.
Qed.

Lemma fig4_plot_run (t : list Obs) :
  fig4_plot (frame_of t)
  = (let ratios := fig4_ratios (frame_of t) in
     let orden := rev (argsort ratios) in
     let ratios_ord := map (fun i => nth i ratios NaN) orden in
     m <- py_max "xlim" ratios_ord ;;
     set_lim "xlim" (m * Fin (12 # 10))%num ;;;
     Ok {| p4_ratios := ratios;
           p4_orden := orden;
           p4_causas_ord := map (fun i => nth i fig4_causas "") orden;
           p4_ratios_ord := ratios_ord;
           p4_xlim := (m * Fin (12 # 10))%num |}).
Proof. unfold fig4_plot. now rewrite need_frame_of by reflexivity. Qed.

Lemma fig4_nonfinite_ratio (t : list Obs) :
  In NaN (fig4_ratios (frame_of t)) \/ In PInf (fig4_ratios (frame_of t)) ->
  fig4_plot (frame_of t) = Err (ValueError "xlim").
Proof.
  intros H. rewrite fig4_plot_run. cbv zeta.
  destruct (rev_argsort_values (fig4_ratios (frame_of t))) as [Hp Hnan].
  cbv zeta in Hp, Hnan.
  set (ord := map _ (rev (argsort (fig4_ratios (frame_of t))))) in *.
  assert (Hm : exists m, py_max "xlim" ord = Ok m /\ (m = NaN \/ m = PInf)).
  { apply py_max_not_finite.
    destruct (existsb is_nan (fig4_ratios (frame_of t))) eqn:E.
    - left. apply Hnan. apply existsb_exists in E. destruct E as (x & Hx & Ex).
      destruct x; try discriminate. exact Hx.
    - right. assert (Hall : forall x, In x (fig4_ratios (frame_of t)) ->
                                      is_nan x = false).
      { intros x Hx. destruct (is_nan x) eqn:Ex; [| reflexivity].
        assert (existsb is_nan (fig4_ratios (frame_of t)) = true)
          by (apply existsb_exists; now exists x).
        congruence. }
      split.
      + apply Forall_forall. intros x Hx. apply Hall.
        now apply (Permutation_in _ Hp).
      + destruct H as [H | H]; [apply Hall in H; discriminate H |].
        now apply (Permutation_in _ (Permutation_sym Hp)). }
  destruct Hm as (m & -> & [-> | ->]); reflexivity.
Qed.

(** X6: With rates that are not negative, figure 4 is not drawn when, for one
    of its causes, the women's mean is zero or one of the two sexes has no
    row: the ratio is then an infinity or NaN and [set_xlim] raises
    [ValueError]. *)
Theorem fig4_fails_on_zero_or_missing_mean (t : list Obs) (c : string) :
  (forall o, In o t -> 0 <= tasa_mortalidad o) ->
  In c fig4_causas ->
  let hs := map tasa_mortalidad (filter (cv_rows c "Hombres") t) in
  let ms := map tasa_mortalidad (filter (cv_rows c "Mujeres") t) in
  hs = [] \/ ms = [] \/ mean ms =n= Fin 0 ->
  fig4_plot (frame_of t) = Err (ValueError "xlim").
Proof.
  intros Hpos Hc hs ms H. apply fig4_nonfinite_ratio.
  assert (Hr : In (ratio_hm (frame_of t) c) (fig4_ratios (frame_of t)))
    by (unfold fig4_ratios; now apply in_map).
  change (ratio_hm (frame_of t) c) with (mean hs / mean ms)%num in Hr.
  assert (Hh : mean hs = NaN \/ exists h, mean hs = Fin h /\ 0 <= h).
  { destruct hs as [| x r] eqn:E; [now left |]. right.
    eexists. split; [reflexivity |].
    assert (Hs : forall l : list Q, Forall (fun q => 0 <= q) l -> 0 <= Qsum l).
    { induction 1 as [| q l Hq Hl IH]; cbn; [apply Qle_refl |].
      change (0 <= q + Qsum l). lra. }
    apply Qle_shift_div_l.
    - change 0 with (inject_Z 0). rewrite <- Zlt_Qlt. cbn [List.length]. lia.
    - rewrite Qmult_0_l. apply Hs. rewrite <- E. unfold hs.
      apply Forall_forall. intros q Hq. apply in_map_iff in Hq.
      destruct Hq as (o & <- & Ho). apply filter_In in Ho. now apply Hpos. }
  destruct H as [E | [E | E]].
  - rewrite E in Hr. cbn [mean] in Hr. left.
    now replace (NaN / mean ms)%num with NaN in Hr by (now destruct (mean ms)).
  - rewrite E in Hr. cbn [mean] in Hr. left.
    now replace (mean hs / NaN)%num with NaN in Hr by (now destruct (mean hs)).
  - apply mean_fin_inv in E. destruct E as (m' & Em & Ez).
    rewrite Em in Hr. destruct Hh as [Eh | (h & Eh & Hh)].
    + rewrite Eh in Hr. now left.
    + rewrite Eh in Hr. cbn [Num.div] in Hr. unfold sign at 1 in Hr.
      apply Qeq_alt in Ez. rewrite Ez in Hr. unfold inf_times, sign in Hr.
      destruct (h ?= 0) eqn:Ec.
      * now left.
      * apply Qlt_alt in Ec. lra.
      * now right.
Qed.

Lemma fig4_fails_on_zero_or_missing_mean_witness :
  (forall o, In o [obs_cv 2010 "General" "Hombres" 20 18;
                   obs_cv 2010 "General" "Mujeres" 0 22] ->
             0 <= tasa_mortalidad o)
  /\ In "General" fig4_causas
  /\ mean (map tasa_mortalidad
             (filter (cv_rows "General" "Mujeres")
                     [obs_cv 2010 "General" "Hombres" 20 18;
                      obs_cv 2010 "General" "Mujeres" 0 22])) =n= Fin 0
  /\ fig4_plot (frame_of [obs_cv 2010 "General" "Hombres" 20 18;
                          obs_cv 2010 "General" "Mujeres" 0 22])
     = Err (ValueError "xlim").
Proof.
  assert (H1 : forall o, In o [obs_cv 2010 "General" "Hombres" 20 18;
                               obs_cv 2010 "General" "Mujeres" 0 22] ->
                         0 <= tasa_mortalidad o).
  { intros o [<- | [<- | []]]; cbn; discriminate. }
  assert (H2 : In "General" fig4_causas) by (now left).
  assert (H3 : mean (map tasa_mortalidad
                       (filter (cv_rows "General" "Mujeres")
                               [obs_cv 2010 "General" "Hombres" 20 18;
                                obs_cv 2010 "General" "Mujeres" 0 22])) =n= Fin 0)
    by (vm_compute; reflexivity).
  split; [exact H1 |]. split; [exact H2 |]. split; [exact H3 |].
  exact (fig4_fails_on_zero_or_missing_mean _ "General" H1 H2
           (or_intror (or_intror H3))).
Defined.

(** ** Figure 12 *)

Lemma general_ambos_nil (t : list Obs) (f : Obs -> bool) :
  tasa_of (general_ambos (frame_of t)) f = []
  <-> filter (fun o => cv_rows "General" "Ambos sexos" o && f o) t = [].
Proof.
  unfold general_ambos. rewrite tasa_of_nil. unfold where_. cbn [rows frame_of].
  now rewrite filter_filter.
Qed.

(** X15: Figure 12 stops at [covid_2020], then at [covid_2021], when the row of
    that year is missing; with both rows and no row of 2018 or 2019 the
    baseline is NaN and [set_ylim] raises [ValueError]. *)
Theorem fig12_failures (t : list Obs) :
  let sel f := filter (fun o => cv_rows "General" "Ambos sexos" o && f o) t in
  (sel (in_year 2020) = [] ->
   fig12_plot (frame_of t) = Err (IndexError "covid_2020"))
  /\ (sel (in_year 2020) <> [] -> sel (in_year 2021) = [] ->
      fig12_plot (frame_of t) = Err (IndexError "covid_2021"))
  /\ (sel (in_year 2020) <> [] -> sel (in_year 2021) <> [] ->
      sel (isin [2018; 2019]%Z) = [] ->
      fig12_plot (frame_of t) = Err (ValueError "ylim")).
Proof.
  intros sel. unfold fig12_plot.
  rewrite need_frame_of by reflexivity. cbn [rbind].
  pose proof (general_ambos_nil t (in_year 2020)) as H20.
  pose proof (general_ambos_nil t (in_year 2021)) as H21.
  pose proof (general_ambos_nil t (isin [2018; 2019]%Z)) as H18.
  fold (sel (in_year 2020)) in H20. fold (sel (in_year 2021)) in H21.
  fold (sel (isin [2018; 2019]%Z)) in H18.
  destruct (tasa_of (general_ambos (frame_of t)) (in_year 2020)) as [| a ra].
  { split; [reflexivity |]. split; intros H; exfalso; apply H; now apply H20. }
  destruct (tasa_of (general_ambos (frame_of t)) (in_year 2021)) as [| b rb].
  { split; [| split].
    - intros E. apply H20 in E. discriminate E.
    - reflexivity.
    - intros _ H. exfalso. apply H. now apply H21. }
  split; [| split].
  - intros E. apply H20 in E. discriminate E.
  - intros _ E. apply H21 in E. discriminate E.
  - intros _ _ E. apply H18 in E. unfold fig12_pre_covid. rewrite E.
    cbn [values0 rbind mean py_max]. rewrite fold_max_nan. reflexivity.
Qed.

Lemma fig12_failures_witness :
  filter (fun o => cv_rows "General" "Ambos sexos" o && in_year 2020 o)
         [obs_cv 2020 "General" "Ambos sexos" 105 20;
          obs_cv 2021 "General" "Ambos sexos" 110 20] <> []
  /\ filter (fun o => cv_rows "General" "Ambos sexos" o && in_year 2021 o)
            [obs_cv 2020 "General" "Ambos sexos" 105 20;
             obs_cv 2021 "General" "Ambos sexos" 110 20] <> []
  /\ filter (fun o => cv_rows "General" "Ambos sexos" o && isin [2018; 2019]%Z o)
            [obs_cv 2020 "General" "Ambos sexos" 105 20;
             obs_cv 2021 "General" "Ambos sexos" 110 20] = []
  /\ fig12_plot (frame_of [obs_cv 2020 "General" "Ambos sexos" 105 20;
                           obs_cv 2021 "General" "Ambos sexos" 110 20])
     = Err (ValueError "ylim")
  /\ fig12_plot (frame_of []) = Err (IndexError "covid_2020").
Proof.
  assert (H20 : filter (fun o => cv_rows "General" "Ambos sexos" o && in_year 2020 o)
                       [obs_cv 2020 "General" "Ambos sexos" 105 20;
                        obs_cv 2021 "General" "Ambos sexos" 110 20] <> [])
    by (vm_compute; discriminate).
  assert (H21 : filter (fun o => cv_rows "General" "Ambos sexos" o && in_year 2021 o)
                       [obs_cv 2020 "General" "Ambos sexos" 105 20;
                        obs_cv 2021 "General" "Ambos sexos" 110 20] <> [])
    by (vm_compute; discriminate).
  assert (H18 : filter (fun o => cv_rows "General" "Ambos sexos" o
                                 && isin [2018; 2019]%Z o)
                       [obs_cv 2020 "General" "Ambos sexos" 105 20;
                        obs_cv 2021 "General" "Ambos sexos" 110 20] = [])
    by reflexivity.
  split; [exact H20 |]. split; [exact H21 |]. split; [exact H18 |]. split.
  - exact (proj2 (proj2 (fig12_failures _)) H20 H21 H18).
  - exact (proj1 (fig12_failures []) eq_refl).
Defined.

(** ** The dashboard and the figures it summarises *)

Lemma general_ambos_rows (t : list Obs) :
  general_ambos (frame_of t)
  = sort_by_periodo
      (where_ (where_ (frame_of t)
                 (fun o => is_ ubicacion CV o && is_ causa_mortalidad "General" o))
              (is_ sexo "Ambos sexos")).
Proof.
  unfold general_ambos, where_. cbn [rows columns frame_of].
  now rewrite filter_filter.
Qed.

Lemma fig13_plot_inv (df : DataFrame) (p : plot13) :
  fig13_plot df = Ok p ->
  values0 "mort_2023" (tasa_of (general_ambos df) (in_year 2023))
  = Ok (p13_mort_2023 p)
  /\ (exists c20 c21,
        values0 "covid_2020" (tasa_of (general_ambos df) (in_year 2020)) = Ok c20
        /\ values0 "covid_2021" (tasa_of (general_ambos df) (in_year 2021)) = Ok c21
        /\ p13_valores_covid p
           = [mean (tasa_of (general_ambos df) (isin [2018; 2019]%Z)); Fin c20;
              Fin c21; mean (tasa_of (general_ambos df) (isin [2022; 2023]%Z))])
  /\ p13_causas_ord p
     = map (fun i => nth i fig13_causas_ratio "")
           (rev (argsort (map (ratio_hm df) fig13_causas_ratio)))
  /\ p13_ratios_ord p
     = map (fun i => nth i (map (ratio_hm df) fig13_causas_ratio) NaN)
           (rev (argsort (map (ratio_hm df) fig13_causas_ratio))).
Proof.
  intros H. unfold fig13_plot in H. ok_inv H. injection H as <-.
  cbn [p13_mort_2023 p13_valores_covid p13_causas_ord p13_ratios_ord].
  split; [reflexivity |]. split; [| split; reflexivity].
  eexists _, _. split; [reflexivity |]. split; reflexivity.
Qed.

Lemma ordered_pairs_perm (causas : list string) (f : string -> num) :
  let v := map f causas in
  let orden := rev (argsort v) in
  Permutation (combine (map (fun i => nth i causas "") orden)
                       (map (fun i => nth i v NaN) orden))
              (map (fun c => (c, f c)) causas).
Proof.
  intros v orden.
  assert (Hp : Permutation orden (seq 0 (List.length causas))).
  { destruct (rev_argsort v) as (Hp & _ & _). unfold v in Hp at 2.
    now rewrite length_map in Hp. }
  assert (E : combine (map (fun i => nth i causas "") orden)
                      (map (fun i => nth i v NaN) orden)
              = take (map (fun c => (c, f c)) causas) orden).
  { pose proof (perm_seq_bound _ _ Hp) as Hb.
    rewrite (take_map _ _ ("", NaN))
      by (rewrite length_map; exact Hb).
    clear Hp. induction Hb as [| i r Hi Hr IH]; [reflexivity |].
    cbn [map combine]. rewrite IH. f_equal.
    destruct (nth_error causas i) as [c |] eqn:Ec.
    - rewrite (nth_error_nth _ _ _ Ec).
      assert (Ev : nth_error v i = Some (f c))
        by (unfold v; rewrite nth_error_map, Ec; reflexivity).
      rewrite (nth_error_nth _ _ _ Ev).
      assert (Em : nth_error (map (fun c => (c, f c)) causas) i = Some (c, f c))
        by (rewrite nth_error_map, Ec; reflexivity).
      now rewrite (nth_error_nth _ _ _ Em).
    - apply nth_error_None in Ec. lia. }
  rewrite E. apply take_perm. now rewrite length_map.
Qed.

(** X16: When the dashboard and the figure it summarises are both drawn on a
    table, they show the same numbers: the rate of 2023 of figure 1, the
    four bars of figure 12, and the bars of figure 4, cause by cause (the
    order of causes with equal ratios may differ). *)
Theorem dashboard_agrees_with_figures (t : list Obs) (p13 : plot13) :
  fig13_plot (frame_of t) = Ok p13 ->
  (forall p1, fig1_plot (frame_of t) = Ok p1 ->
     p13_mort_2023 p13 = p1_mort_2023 p1)
  /\ (forall p12, fig12_plot (frame_of t) = Ok p12 ->
        p13_valores_covid p13 = p12_valores p12)
  /\ (forall p4, fig4_plot (frame_of t) = Ok p4 ->
        Permutation (combine (p13_causas_ord p13) (p13_ratios_ord p13))
                    (combine (p4_causas_ord p4) (p4_ratios_ord p4))).
Proof.
  intros H. apply fig13_plot_inv in H.
  destruct H as (Hm & (c20 & c21 & H20 & H21 & Hv) & Hco & Hro).
  split; [| split].
  - intros p1 H1. unfold fig1_plot in H1.
    rewrite need_frame_of in H1 by reflexivity. cbn [rbind mapM] in H1.
    match type of H1 with
    | context [need ?d ?n] =>
        change (need d n) with (Ok tt : result unit) in H1
    end.
    cbn [rbind] in H1.
    rewrite general_ambos_rows in Hm. unfold tasa_of in Hm. rewrite Hm in H1.
    cbn [rbind] in H1.
    destruct (values0 "mort_2021" _) as [b | e]; [| discriminate].
    injection H1 as <-. reflexivity.
  - intros p12 H12. unfold fig12_plot in H12.
    rewrite need_frame_of in H12 by reflexivity. cbn [rbind] in H12.
    rewrite H20, H21 in H12. cbn [rbind] in H12.
    ok_inv H12. injection H12 as <-. exact Hv.
  - intros p4 H4. apply fig4_plot_inv in H4.
    destruct H4 as (Hrs & Hord & Hco4 & Hro4).
    rewrite Hco, Hro, Hco4, Hro4, Hord, Hrs. unfold fig4_ratios.
    rewrite (ordered_pairs_perm fig13_causas_ratio (ratio_hm (frame_of t))).
    rewrite (ordered_pairs_perm fig4_causas (ratio_hm (frame_of t))).
    apply Permutation_map. unfold fig13_causas_ratio, fig4_causas.
    apply NoDup_Permutation.
    + repeat (constructor; [cbn; intuition discriminate |]). constructor.
    + repeat (constructor; [cbn; intuition discriminate |]). constructor.
    + intros c. cbn. tauto.
Qed.

Lemma dashboard_agrees_with_figures_witness :
  exists p13 p1 p12 p4,
    fig13_plot (frame_of (tabla_dashboard 22)) = Ok p13
    /\ fig1_plot (frame_of (tabla_dashboard 22)) = Ok p1
    /\ fig12_plot (frame_of (tabla_dashboard 22)) = Ok p12
    /\ fig4_plot (frame_of (tabla_dashboard 22)) = Ok p4
    /\ p13_mort_2023 p13 = p1_mort_2023 p1
    /\ p13_valores_covid p13 = p12_valores p12
    /\ Permutation (combine (p13_causas_ord p13) (p13_ratios_ord p13))
                   (combine (p4_causas_ord p4) (p4_ratios_ord p4)).
Proof.
  destruct (fig13_plot (frame_of (tabla_dashboard 22))) as [p13 |] eqn:E13;
    [| vm_compute in E13; discriminate].
  destruct (fig1_plot (frame_of (tabla_dashboard 22))) as [p1 |] eqn:E1;
    [| vm_compute in E1; discriminate].
  destruct (fig12_plot (frame_of (tabla_dashboard 22))) as [p12 |] eqn:E12;
    [| vm_compute in E12; discriminate].
  destruct (fig4_plot (frame_of (tabla_dashboard 22))) as [p4 |] eqn:E4;
    [| vm_compute in E4; discriminate].
  destruct (dashboard_agrees_with_figures _ p13 E13) as (H1 & H12 & H4).
  exists p13, p1, p12, p4.
  repeat (split; [reflexivity |]).
  split; [exact (H1 p1 E1) |]. split; [exact (H12 p12 E12) | exact (H4 p4 E4)].
Defined.

(** ** Lines over the years *)

Lemma StronglySorted_any {A} (l : list A) : StronglySorted (fun _ _ => True) l.
Proof.
  induction l as [| x r IH]; constructor; [assumption |].
  now apply Forall_forall.
Qed.

Lemma sort_by_periodo_chronological (df : DataFrame) :
  StronglySorted (fun a b => (periodo a <= periodo b)%Z) (rows (sort_by_periodo df)).
Proof.
  unfold sort_by_periodo. cbn [rows].
  apply (StronglySorted_weaken
           (placed (fun a b => Z.ltb (periodo a) (periodo b)) (fun _ _ => True))).
  - intros a b _ _ [H _]. apply Z.ltb_ge in H. exact H.
  - apply (stable_sort_placed _ (fun _ => True) (fun _ _ => True)).
    + intros a b _ _ H. apply Z.ltb_lt in H. apply Z.ltb_ge. lia.
    + intros a b c _ _ _ H1 H2. apply Z.ltb_ge in H1, H2. apply Z.ltb_ge. lia.
    + now apply Forall_forall.
    + apply StronglySorted_any.
Qed.

(** The points of a line drawn from a selection sorted by year: the
    selected rows, each once, the years never going back. *)
Lemma serie_chronological (f : Obs -> Q) (df : DataFrame) :
  Permutation (serie f (sort_by_periodo df)) (map (fun o => (periodo o, f o)) (rows df))
  /\ StronglySorted (fun a b => (fst a <= fst b)%Z) (serie f (sort_by_periodo df)).
Proof.
  unfold serie. split.
  - apply Permutation_map. unfold sort_by_periodo. cbn [rows].
    apply stable_sort_perm.
  - apply (StronglySorted_map (fun a b => (periodo a <= periodo b)%Z)).
    + intros a b _ _ H. exact H.
    + apply sort_by_periodo_chronological.
Qed.

Lemma Forall2_In_r {A B} (R : A -> B -> Prop) (l : list A) (l' : list B) (y : B) :
  Forall2 R l l' -> In y l' -> exists x, In x l /\ R x y.
Proof.
  induction 1 as [| a b l l' Hab _ IH]; intros Hy; [destruct Hy |].
  destruct Hy as [<- | Hy].
  - exists a. split; [now left | assumption].
  - destruct (IH Hy) as (x & Hx & Hr). exists x. split; [now right | assumption].
Qed.

(** X2: Every line of figures 1 and 6 (one per sex, in the order of the loop)
    has the selected rows of its sex, each once, in chronological order,
    whatever the order of the rows in the table. *)
Theorem lines_are_chronological (t : list Obs) :
  (forall p, fig1_plot (frame_of t) = Ok p ->
     map fst (p1_lines p) = ["Ambos sexos"; "Hombres"; "Mujeres"]
     /\ forall s pts, In (s, pts) (p1_lines p) ->
          Permutation pts (map (fun o => (periodo o, tasa_mortalidad o))
                               (filter (cv_rows "General" s) t))
          /\ StronglySorted (fun a b => (fst a <= fst b)%Z) pts)
  /\ (forall p, fig6_plot (frame_of t) = Ok p ->
        map fst (p6_lines p) = ["Hombres"; "Mujeres"; "Ambos sexos"]
        /\ forall s pts, In (s, pts) (p6_lines p) ->
             Permutation pts (map (fun o => (periodo o, esperanza_vida o))
                                  (filter (cv_rows "General" s) t))
             /\ StronglySorted (fun a b => (fst a <= fst b)%Z) pts).
Proof.
  split.
  - intros p H. unfold fig1_plot in H.
    rewrite need_frame_of in H by reflexivity. cbn [rbind] in H.
    match type of H with
    | rbind (mapM ?f ?l) _ = _ => destruct (mapM f l) as [lines |] eqn:El;
                                   [| discriminate H]
    end.
    cbn [rbind] in H. ok_inv H. injection H as <-. cbn [p1_lines].
    apply mapM_ok in El. split.
    + clear - El.
      repeat match goal with
             | H : Forall2 _ _ _ |- _ => inversion H; subst; clear H
             end.
      repeat match goal with
             | H : rbind _ _ = Ok _ |- _ =>
                 apply need_ok_inv in H; destruct H as [_ H]; injection H as <-
             end.
      reflexivity.
    + intros s pts Hin. destruct (Forall2_In_r _ _ _ _ El Hin) as (s' & _ & Hs).
      apply need_ok_inv in Hs. destruct Hs as [_ Hs]. injection Hs as <- <-.
      match goal with
      | |- context [serie _ (sort_by_periodo ?d)] =>
          destruct (serie_chronological tasa_mortalidad d) as [Hp Hs]
      end.
      split; [| exact Hs]. etransitivity; [exact Hp |].
      unfold where_. cbn [rows frame_of]. rewrite filter_filter.
      unfold cv_rows. reflexivity.
  - intros p H. unfold fig6_plot in H.
    match type of H with
    | rbind (mapM ?f ?l) _ = _ => destruct (mapM f l) as [lines |] eqn:El;
                                   [| discriminate H]
    end.
    cbn [rbind] in H. ok_inv H. injection H as <-. cbn [p6_lines].
    apply mapM_ok in El. split.
    + clear - El.
      repeat match goal with
             | H : Forall2 _ _ _ |- _ => inversion H; subst; clear H
             end.
      repeat match goal with
             | H : rbind _ _ = Ok _ |- _ =>
                 apply need_ok_inv in H; destruct H as [_ H]; injection H as <-
             end.
      reflexivity.
    + intros s pts Hin. destruct (Forall2_In_r _ _ _ _ El Hin) as (s' & _ & Hs).
      apply need_ok_inv in Hs. destruct Hs as [_ Hs]. injection Hs as <- <-.
      match goal with
      | |- context [serie _ (sort_by_periodo ?d)] =>
          destruct (serie_chronological esperanza_vida d) as [Hp Hs]
      end.
      split; [| exact Hs]. exact Hp.
Qed.

Lemma lines_are_chronological_witness :
  exists p1 p6,
    fig1_plot (frame_of (tabla_dashboard 22)) = Ok p1
    /\ fig6_plot (frame_of [obs_cv 2023 "General" "Hombres" 120 18;
                            obs_cv 2010 "General" "Hombres" 130 17;
                            obs_cv 2023 "General" "Mujeres" 80 22]) = Ok p6
    /\ map fst (p1_lines p1) = ["Ambos sexos"; "Hombres"; "Mujeres"]
    /\ map fst (p6_lines p6) = ["Hombres"; "Mujeres"; "Ambos sexos"]
    /\ forall s pts, In (s, pts) (p6_lines p6) ->
         StronglySorted (fun a b => (fst a <= fst b)%Z) pts.
Proof.
  destruct (fig1_plot (frame_of (tabla_dashboard 22))) as [p1 |] eqn:E1;
    [| vm_compute in E1; discriminate].
  destruct (fig6_plot (frame_of [obs_cv 2023 "General" "Hombres" 120 18;
                                 obs_cv 2010 "General" "Hombres" 130 17;
                                 obs_cv 2023 "General" "Mujeres" 80 22]))
    as [p6 |] eqn:E6; [| vm_compute in E6; discriminate].
  exists p1, p6. split; [reflexivity |]. split; [reflexivity |].
  destruct (proj1 (lines_are_chronological _) p1 E1) as [H1 _].
  destruct (proj2 (lines_are_chronological _) p6 E6) as [H6 H6'].
  split; [exact H1 |]. split; [exact H6 |].
  intros s pts Hin. exact (proj2 (H6' s pts Hin)).
Defined.

(** ** Figures 4 and 5 *)

(** X7: Figure 5 draws the two bars whose quotient is the bar of figure 4: for
    each of the four causes of figure 5, the men's bar over the women's bar
    is the ratio figure 4 shows for that cause. *)
Theorem fig4_ratios_from_fig5_bars (t : list Obs) (p4 : plot4) (p5 : plot5) :
  fig4_plot (frame_of t) = Ok p4 ->
  fig5_plot (frame_of t) = Ok p5 ->
  forall i c,
    nth_error ["Cancer"; "Cardio"; "Cerebro"; "Suicidio"] i = Some c ->
    exists h m,
      nth_error (p5_tasas_h p5) i = Some h
      /\ nth_error (p5_tasas_m p5) i = Some m
      /\ In (c, (h / m)%num) (combine (p4_causas_ord p4) (p4_ratios_ord p4)).
Proof.
  intros H4 H5 i c Hc.
  apply fig4_plot_inv in H4. destruct H4 as (Hrs & Hord & Hco & Hro).
  unfold fig5_plot in H5. apply need_ok_inv in H5. destruct H5 as [_ H5].
  injection H5 as <-. cbn [p5_tasas_h p5_tasas_m].
  rewrite Hco, Hro, Hord, Hrs. unfold fig4_ratios.
  pose proof (ordered_pairs_perm fig4_causas (ratio_hm (frame_of t))) as Hp.
  cbv zeta in Hp.
  assert (Hin : In c fig4_causas).
  { apply nth_error_In in Hc. unfold fig4_causas. cbn in Hc |- *. tauto. }
  assert (Hr : In (c, ratio_hm (frame_of t) c)
                  (combine (map (fun i => nth i fig4_causas "")
                                (rev (argsort (map (ratio_hm (frame_of t)) fig4_causas))))
                           (map (fun i => nth i (map (ratio_hm (frame_of t)) fig4_causas) NaN)
                                (rev (argsort (map (ratio_hm (frame_of t)) fig4_causas)))))).
  { apply (Permutation_in _ (Permutation_sym Hp)).
    apply in_map_iff. exists c. split; [reflexivity | exact Hin]. }
  destruct i as [| [| [| [| i]]]]; cbn [nth_error] in Hc;
    try (injection Hc as <-; eexists _, _;
         split; [reflexivity |]; split; [reflexivity |]; exact Hr).
  destruct i; discriminate Hc.
Qed.

Lemma fig4_ratios_from_fig5_bars_witness :
  exists p4 p5,
    fig4_plot (frame_of (tabla_dashboard 22)) = Ok p4
    /\ fig5_plot (frame_of (tabla_dashboard 22)) = Ok p5
    /\ exists h m,
         nth_error (p5_tasas_h p5) 3 = Some h
         /\ nth_error (p5_tasas_m p5) 3 = Some m
         /\ In ("Suicidio", (h / m)%num)
               (combine (p4_causas_ord p4) (p4_ratios_ord p4)).
Proof.
  destruct (fig4_plot (frame_of (tabla_dashboard 22))) as [p4 |] eqn:E4;
    [| vm_compute in E4; discriminate].
  destruct (fig5_plot (frame_of (tabla_dashboard 22))) as [p5 |] eqn:E5;
    [| vm_compute in E5; discriminate].
  exists p4, p5. split; [reflexivity |]. split; [reflexivity |].
  exact (fig4_ratios_from_fig5_bars _ p4 p5 E4 E5 3%nat "Suicidio" eq_refl).
Defined.

(** ** Figure 11 *)

Lemma stable_sort_nil {A} (before : A -> A -> bool) (l : list A) :
  stable_sort before l = [] <-> l = [].
Proof.
  split; [| now intros ->]. intros E.
  pose proof (stable_sort_perm before l) as Hp. rewrite E in Hp.
  now apply Permutation_nil.
Qed.

Lemma fig11_lines_of (t : list Obs) (ps : list string) :
  let line p :=
    (p, serie tasa_mortalidad
          (sort_by_periodo
             (where_ (frame_of t)
                (fun o => is_ provincia p o && is_ nivel_geografico "PROVINCIA" o
                          && is_ causa_mortalidad "General" o
                          && is_ sexo "Ambos sexos" o)))) in
  mapM (fun p =>
          need (frame_of t) ["provincia"; "nivel_geografico"; "causa_mortalidad";
                             "sexo"; "periodo"] ;;;
          let data :=
            sort_by_periodo
              (where_ (frame_of t)
                 (fun o => is_ provincia p o && is_ nivel_geografico "PROVINCIA" o
                           && is_ causa_mortalidad "General" o
                           && is_ sexo "Ambos sexos" o)) in
          match rows data with
          | [] => Ok []
          | _ => need data ["tasa_mortalidad"] ;;; Ok [(p, serie tasa_mortalidad data)]
          end) ps
  = Ok (map (fun p => if has_rows t p then [line p] else []) ps).
Proof.
  intros line.
  match goal with |- mapM ?f _ = _ => set (body := f) end.
  induction ps as [| p r IH]; [reflexivity |].
  cbn [mapM map]. rewrite IH. clear IH. unfold body.
  rewrite need_frame_of by reflexivity. cbn [rbind].
  set (d := where_ (frame_of t) _).
  assert (Hc : need (sort_by_periodo d) ["tasa_mortalidad"] = Ok tt) by reflexivity.
  assert (Hn : rows (sort_by_periodo d) = [] <-> rows d = [])
    by apply stable_sort_nil.
  change (has_rows t p) with (match rows d with [] => false | _ => true end).
  change (line p) with (p, serie tasa_mortalidad (sort_by_periodo d)).
  rewrite Hc. cbn [rbind].
  destruct (rows (sort_by_periodo d)) as [| o l];
    destruct (rows d) as [| o' l']; try reflexivity.
  - destruct Hn as [Hn _]. discriminate (Hn eq_refl).
  - destruct Hn as [_ Hn]. discriminate (Hn eq_refl).
Qed.

Lemma concat_optional {A B} (f : A -> bool) (g : A -> B) (l : list A) :
  List.concat (map (fun a => if f a then [(a, g a)] else []) l)
  = map (fun a => (a, g a)) (filter f l).
Proof.
  induction l as [| a r IH]; [reflexivity |].
  cbn [map List.concat filter]. rewrite IH. now destruct (f a).
Qed.

(** X14: Figure 11 raises nothing on a table with the expected columns, even an
    empty one: a province without rows is skipped.  Its lines are those of
    the provinces that have rows, in the order Alicante, Valencia,
    Castellón, each with the rows selected for the province in
    chronological order; the reference line has the rows of the Comunitat
    Valenciana, drawn even when there is none. *)
Theorem fig11_lines (t : list Obs) :
  exists p,
    fig11_plot (frame_of t) = Ok p
    /\ map fst (p11_lines p) = filter (has_rows t) fig11_provincias
    /\ (forall pr pts, In (pr, pts) (p11_lines p) ->
          pts <> []
          /\ Permutation pts (map (fun o => (periodo o, tasa_mortalidad o))
                                  (fig11_sel t pr))
          /\ StronglySorted (fun a b => (fst a <= fst b)%Z) pts)
    /\ Permutation (p11_cv p)
                   (map (fun o => (periodo o, tasa_mortalidad o))
                        (filter (cv_rows "General" "Ambos sexos") t))
    /\ StronglySorted (fun a b => (fst a <= fst b)%Z) (p11_cv p).
Proof.
  unfold fig11_plot. rewrite fig11_lines_of. cbn [rbind].
  rewrite need_frame_of by reflexivity. cbn [rbind].
  eexists. split; [reflexivity |]. cbn [p11_lines p11_cv].
  rewrite (concat_optional (has_rows t)).
  split; [| split; [| split]].
  - rewrite map_map. cbn [fst]. apply map_id.
  - intros pr pts Hin. apply in_map_iff in Hin.
    destruct Hin as (pr' & E & Hpr). injection E as <- <-.
    apply filter_In in Hpr. destruct Hpr as [_ Hpr].
    match goal with
    | |- context [serie _ (sort_by_periodo ?d)] =>
        destruct (serie_chronological tasa_mortalidad d) as [Hp Hs]
    end.
    split; [| split; [exact Hp | exact Hs]].
    intros E. rewrite E in Hp. apply Permutation_nil in Hp.
    apply map_nil_iff in Hp. unfold has_rows, fig11_sel in Hpr.
    unfold where_ in Hp. cbn [rows frame_of] in Hp. rewrite Hp in Hpr.
    discriminate Hpr.
  - unfold general_ambos.
    match goal with
    | |- context [serie _ (sort_by_periodo ?d)] =>
        destruct (serie_chronological tasa_mortalidad d) as [Hp _]
    end.
    exact Hp.
  - unfold general_ambos.
    match goal with
    | |- context [serie _ (sort_by_periodo ?d)] =>
        destruct (serie_chronological tasa_mortalidad d) as [_ Hs]
    end.
    exact Hs.
Qed.

Lemma fig11_lines_witness :
  exists p,
    fig11_plot (frame_of [mkObs 2011 "General" "Ambos sexos" "Valencia" "Valencia"
                                "PROVINCIA" 900 20;
                          mkObs 2010 "General" "Ambos sexos" "Valencia" "Valencia"
                                "PROVINCIA" 950 20]) = Ok p
    /\ map fst (p11_lines p) = ["Valencia"]
    /\ forall pr pts, In (pr, pts) (p11_lines p) ->
         StronglySorted (fun a b => (fst a <= fst b)%Z) pts.
Proof.
  destruct (fig11_lines [mkObs 2011 "General" "Ambos sexos" "Valencia" "Valencia"
                               "PROVINCIA" 900 20;
                         mkObs 2010 "General" "Ambos sexos" "Valencia" "Valencia"
                               "PROVINCIA" 950 20])
    as (p & E & Hn & Hl & _).
  exists p. split; [exact E |]. split; [exact Hn |].
  intros pr pts Hin. exact (proj2 (proj2 (Hl pr pts Hin))).
Defined.

(** ** Figure 7 *)






(** ** The run of the thirteen figures *)

Lemma draw_saves_as {P} (plot : DataFrame -> result P) (wrap : P -> figure)
  (name : string) :
  saves_as name (draw plot wrap name).
Proof.
  intros df dir [h s]. unfold draw, bind, read_frame, lift, savefig, ret.
  cbn [heap saved].
  destruct (nth_error h df) as [[t | p] |]; try reflexivity.
  destruct (plot t) as [p | e]; [| reflexivity].
  split; [reflexivity |]. eexists. reflexivity.
Qed.

Lemma fig8_saves_as :
  saves_as "fig8_heatmap_departamentos.png" fig8_heatmap_departamentos.
Proof.
  intros df dir st.
  destruct (nth_error (heap st) df) as [[t | p] |] eqn:Ha.
  - destruct (need t fig8_columns) as [[] | e] eqn:En.
    + rewrite (fig8_run st df dir t Ha En).
      destruct (heatmap _) as [[] | e]; [| reflexivity].
      split; [reflexivity |]. eexists. reflexivity.
    + unfold fig8_heatmap_departamentos.
      unfold bind at 1. unfold read_frame at 1. rewrite Ha.
      unfold bind at 1. unfold lift at 1. rewrite En. reflexivity.
  - unfold fig8_heatmap_departamentos.
    unfold bind at 1. unfold read_frame at 1. rewrite Ha. reflexivity.
  - unfold fig8_heatmap_departamentos.
    unfold bind at 1. unfold read_frame at 1. rewrite Ha. reflexivity.
Qed.

Lemma overwrite_new {A} (p : string) (s : list (string * A)) :
  ~ In p (map fst s) ->
  map fst (filter (fun pf => negb (String.eqb (fst pf) p)) s) = map fst s.
Proof.
  induction s as [| [q a] r IH]; intros Hn; [reflexivity |].
  cbn [map fst] in Hn. cbn [filter fst].
  destruct (String.eqb_spec q p) as [E | E].
  - exfalso. apply Hn. now left.
  - cbn [negb map fst]. rewrite IH; [reflexivity |]. intros H. apply Hn. now right.
Qed.

Lemma generar_saves (dir := OUTPUT_DIR) (names : list string)
  (figs : list (nat -> string -> M string)) :
  Forall2 saves_as names figs ->
  forall df st done,
    NoDup (done ++ map (path_join dir) names) ->
    map fst (saved st) = rev done ->
    match generar figs df st with
    | (Ok ps, st') =>
        ps = map (path_join dir) names /\ map fst (saved st') = rev (done ++ ps)
    | (Err _, st') =>
        exists k, (k < List.length names)%nat
                  /\ map fst (saved st')
                     = rev (done ++ firstn k (map (path_join dir) names))
    end.
Proof.
  induction 1 as [| n f ns fs Hf _ IH]; intros df st done Hnd Hs.
  - cbn [generar ret map]. split; [reflexivity |]. now rewrite app_nil_r.
  - cbn [generar]. unfold bind at 1.
    specialize (Hf df dir st). fold dir.
    destruct (f df dir st) as [[p | e] st1].
    + destruct Hf as [-> (fg & Hsv)].
      assert (Hs1 : map fst (saved st1) = rev (done ++ [path_join dir n])).
      { rewrite Hsv. cbn [map fst]. rewrite overwrite_new.
        - rewrite Hs, rev_app_distr. reflexivity.
        - rewrite Hs. intros Hin. apply in_rev in Hin.
          cbn [map] in Hnd. apply NoDup_remove_2 in Hnd. apply Hnd.
          apply in_or_app. now left. }
      assert (Hnd1 : NoDup ((done ++ [path_join dir n]) ++ map (path_join dir) ns))
        by (rewrite <- app_assoc; exact Hnd).
      specialize (IH df st1 _ Hnd1 Hs1). unfold bind at 1.
      destruct (generar fs df st1) as [[ps | e] st2].
      * destruct IH as [-> Hs2]. unfold ret. split; [reflexivity |].
        rewrite Hs2, <- app_assoc. reflexivity.
      * destruct IH as (k & Hk & Hs2). exists (S k). split; [cbn; lia |].
        rewrite Hs2, <- app_assoc. reflexivity.
    + exists 0%nat. split; [cbn; lia |].
      rewrite Hf, Hs. cbn [firstn]. now rewrite app_nil_r.
Qed.

Lemma rutas_NoDup : NoDup (rutas OUTPUT_DIR).
Proof.
  unfold rutas, nombres_de_figuras. cbn [map].
  repeat (constructor; [cbn [In]; intuition discriminate |]). constructor.
Qed.

Section Run.
Variable read_csv : string -> string -> result DataFrame.
Variable polyfit : list Z -> list Q -> nat -> result (list num).
Variable linregress : list Q -> list Q -> result (num * num).
Variable pearsonr : list Q -> list Q -> result num.

Lemma figuras_save_as :
  Forall2 saves_as nombres_de_figuras
          (figuras_del_proyecto polyfit linregress pearsonr).
Proof.
  unfold nombres_de_figuras, figuras_del_proyecto.
  unfold fig1_evolucion_mortalidad_general, fig2_jerarquia_causas,
    fig3_evolucion_causas_especificas, fig4_disparidad_genero_ratio,
    fig5_comparativa_sexo_causa, fig6_esperanza_vida_genero,
    fig7_ranking_departamentos, fig9_tendencia_suicidio,
    fig10_scatter_correlacion, fig11_comparativa_provincias,
    fig12_impacto_covid, fig13_dashboard_resumen.
  repeat (constructor; [first [apply draw_saves_as | apply fig8_saves_as] |]).
  constructor.
Qed.

(** X17: A run started with no file saved returns the thirteen paths, in the
    order of the calls, with the thirteen files saved; or it raises, and
    the files saved are those of the figures before the first one that
    fails (none when the loader fails), whatever the library routines
    return. *)
Theorem run_saves_the_figures_before_the_failure (path : string) :
  let r := generar_todas_las_figuras read_csv polyfit linregress pearsonr path
             empty_state in
  match fst r with
  | Ok ps => ps = rutas OUTPUT_DIR
             /\ map fst (saved (snd r)) = rev (rutas OUTPUT_DIR)
  | Err _ => exists k, (k < 13)%nat
                       /\ map fst (saved (snd r)) = rev (firstn k (rutas OUTPUT_DIR))
  end.
Proof.
  cbv zeta. unfold generar_todas_las_figuras. unfold bind.
  rewrite cargar_datos_run. cbn [heap saved empty_state app List.length].
  destruct (read_csv path ";") as [t | e];
    [| cbn [fst snd saved]; exists 0%nat; split; [lia | reflexivity]].
  cbv zeta.
  destruct (column t "periodo") as [[] | e];
    [| cbn [fst snd saved]; exists 0%nat; split; [lia | reflexivity]].
  destruct (column t "causa_mortalidad") as [[] | e];
    [| cbn [fst snd saved]; exists 0%nat; split; [lia | reflexivity]].
  pose proof (generar_saves _ _ figuras_save_as 0%nat
                {| heap := [ODataFrame t]; saved := [] |} []
                rutas_NoDup eq_refl) as H.
  destruct (generar _ 0%nat _) as [[ps | e] st']; cbn [fst snd].
  - destruct H as [-> H]. split; [reflexivity | exact H].
  - destruct H as (k & Hk & H). exists k. split; [exact Hk | exact H].
Qed.
End Run.

(** ** Figure 8 *)




Lemma covid_from_cons (s : nat) (c : label) (cols : list label) :
  covid_from s (c :: cols)
  = if label_eqb c (LInt 2020) || label_eqb c (LInt 2021)
    then s :: covid_from (S s) cols else covid_from (S s) cols.
Proof.
  unfold covid_from. cbn [List.length seq combine filter snd].
  now destruct (label_eqb c (LInt 2020) || label_eqb c (LInt 2021)).
Qed.

Lemma covid_from_In (s : nat) (cols : list label) (i : nat) :
  In i (covid_from s cols)
  <-> (s <= i)%nat
      /\ (nth_error cols (i - s) = Some (LInt 2020)
          \/ nth_error cols (i - s) = Some (LInt 2021)).
Proof.
  revert s. induction cols as [| c r IH]; intros s.
  - cbn. split; [tauto |]. intros [_ [H | H]]; destruct (i - s)%nat; discriminate.
  - rewrite covid_from_cons.
    assert (Hc : label_eqb c (LInt 2020) || label_eqb c (LInt 2021) = true
                 <-> c = LInt 2020 \/ c = LInt 2021).
    { rewrite orb_true_iff. destruct c as [z | x]; cbn [label_eqb].
      - rewrite !Z.eqb_eq. split; intros [H | H]; try (left; congruence);
          right; congruence.
      - split; intros [H | H]; discriminate. }
    assert (Hs : forall j, (S s <= j)%nat ->
                   nth_error (c :: r) (j - s) = nth_error r (j - S s)).
    { intros j Hj. replace (j - s)%nat with (S (j - S s)) by lia. reflexivity. }
    destruct (label_eqb c (LInt 2020) || label_eqb c (LInt 2021)) eqn:E.
    + cbn [In]. rewrite IH. split.
      * intros [<- | [Hi H]].
        -- split; [lia |]. rewrite Nat.sub_diag. cbn [nth_error].
           destruct (proj1 Hc eq_refl) as [-> | ->]; auto.
        -- split; [lia |]. now rewrite Hs.
      * intros [Hi H]. destruct (Nat.eq_dec s i) as [-> | Hne]; [now left |].
        right. split; [lia |]. rewrite <- Hs by lia. exact H.
    + rewrite IH. split.
      * intros [Hi H]. split; [lia |]. now rewrite Hs.
      * intros [Hi H]. destruct (Nat.eq_dec s i) as [-> | Hne].
        -- rewrite Nat.sub_diag in H. cbn [nth_error] in H.
           assert (c = LInt 2020 \/ c = LInt 2021)
             by (destruct H as [H | H]; injection H; auto).
           apply Hc in H0. discriminate H0.
        -- split; [lia |]. rewrite <- Hs by lia. exact H.
Qed.

Lemma covid_from_none (s : nat) (ys : list Z) :
  ~ In 2020%Z ys -> ~ In 2021%Z ys -> covid_from s (map LInt ys) = [].
Proof.
  revert s. induction ys as [| y r IH]; intros s H0 H1; [reflexivity |].
  cbn [map]. rewrite covid_from_cons. cbn [label_eqb].
  destruct (Z.eqb_spec y 2020) as [-> | _]; [exfalso; apply H0; now left |].
  destruct (Z.eqb_spec y 2021) as [-> | _]; [exfalso; apply H1; now left |].
  cbn [orb]. apply IH; intros H; [apply H0 | apply H1]; now right.
Qed.

(** In columns that are distinct years in ascending order, 2020 and 2021
    stand side by side. *)
Lemma covid_from_adjacent (s : nat) (ys : list Z) :
  StronglySorted Z.lt ys -> In 2020%Z ys -> In 2021%Z ys ->
  exists i, covid_from s (map LInt ys) = [i; S i].
Proof.
  intros Hs. revert s. induction Hs as [| y r Hr IH Hy]; intros s H0 H1;
    [destruct H0 |].
  rewrite Forall_forall in Hy.
  cbn [map]. rewrite covid_from_cons. cbn [label_eqb].
  destruct (Z.eqb_spec y 2020) as [-> | Hn0].
  - cbn [orb]. exists s. f_equal.
    destruct H1 as [H1 | H1]; [discriminate H1 |].
    destruct r as [| z r']; [destruct H1 |].
    inversion Hr as [| ? ? Hr' Hz]; subst. rewrite Forall_forall in Hz.
    assert (Ez : z = 2021%Z).
    { destruct H1 as [-> | H1]; [reflexivity |].
      pose proof (Hz _ H1). pose proof (Hy z (or_introl eq_refl)). lia. }
    subst z. cbn [map]. rewrite covid_from_cons. cbn [label_eqb].
    change (Z.eqb 2021 2020) with false. change (Z.eqb 2021 2021) with true.
    cbn [orb]. f_equal.
    apply covid_from_none; intros H; apply Hz in H; lia.
  - destruct (Z.eqb_spec y 2021) as [-> | Hn1].
    + exfalso. destruct H0 as [H0 | H0]; [discriminate H0 |].
      apply Hy in H0. lia.
    + cbn [orb]. apply IH.
      * destruct H0 as [H0 | H0]; [congruence | exact H0].
      * destruct H1 as [H1 | H1]; [congruence | exact H1].
Qed.

(** X11: The columns figure 8 frames in red are those labelled 2020 or 2021.
    When the departments have rows of both years they are two columns
    side by side; when they have rows of neither, nothing is framed. *)
Theorem fig8_covid_frames (t : list Obs) (st : state) (a : nat) (dir : string) :
  nth_error (heap st) a = Some (ODataFrame (frame_of t)) ->
  filter departamentos t <> [] ->
  let years := map periodo (filter departamentos t) in
  exists p rest,
    saved (snd (fig8_heatmap_departamentos a dir st))
    = (path_join dir "fig8_heatmap_departamentos.png", Fig8 p) :: rest
    /\ (forall i,
          In i (p8_covid_columns p)
          <-> nth_error (pcolumns (p8_heatmap p)) i = Some (LInt 2020)
              \/ nth_error (pcolumns (p8_heatmap p)) i = Some (LInt 2021))
    /\ (In 2020%Z years -> In 2021%Z years ->
        exists i, p8_covid_columns p = [i; S i])
    /\ (~ In 2020%Z years -> ~ In 2021%Z years -> p8_covid_columns p = []).
Proof.
  intros Ha Hne years.
  rewrite (fig8_run st a dir (frame_of t) Ha eq_refl).
  unfold where_. cbn [rows frame_of].
  rewrite (heatmap_ok _ Hne). cbn [snd saved].
  eexists _, _. split; [reflexivity |].
  cbn [p8_covid_columns p8_heatmap reordered pcolumns pivot_table].
  fold years.
  change (covid_columns (map LInt (group_keys Z.compare years)))
    with (covid_from 0 (map LInt (group_keys Z.compare years))).
  assert (Hin : forall y, In y (group_keys Z.compare years) <-> In y years)
    by (intros y; apply (group_keys_In Z.compare Z.lt Z_cmp_spec)).
  split; [| split].
  - intros i. rewrite covid_from_In, Nat.sub_0_r.
    split; [tauto | intros H; split; [lia | exact H]].
  - intros H0 H1. apply covid_from_adjacent.
    + apply (group_keys_sorted Z.compare Z.lt Z.lt_strorder Z_cmp_spec).
    + now apply Hin.
    + now apply Hin.
  - intros H0 H1. apply covid_from_none; rewrite Hin; assumption.
Qed.

Lemma fig8_covid_frames_witness :
  exists p rest,
    saved (snd (fig8_heatmap_departamentos 0 "figuras"
                  (store_of [obs_dep 2021 "A" "Alicante" 900;
                             obs_dep 2019 "A" "Alicante" 800;
                             obs_dep 2020 "B" "Valencia" 950])))
    = ("figuras/fig8_heatmap_departamentos.png", Fig8 p) :: rest
    /\ exists i, p8_covid_columns p = [i; S i].
Proof.
  destruct (fig8_covid_frames [obs_dep 2021 "A" "Alicante" 900;
                               obs_dep 2019 "A" "Alicante" 800;
                               obs_dep 2020 "B" "Valencia" 950]
              (store_of [obs_dep 2021 "A" "Alicante" 900;
                         obs_dep 2019 "A" "Alicante" 800;
                         obs_dep 2020 "B" "Valencia" 950])
              0 "figuras" eq_refl)
    as (p & rest & Hs & _ & Hadj & _).
  - vm_compute. discriminate.
  - exists p, rest. split; [exact Hs |].
    apply Hadj; vm_compute; tauto.
Defined.

(** ** Figures 9 and 10: what is drawn from the library results *)

Lemma filter_no_nan (x : list Q) :
  filter (fun v => negb (is_nan v)) (map Fin x) = map Fin x.
Proof. induction x as [| a r IH]; [reflexivity |]. cbn. now rewrite IH. Qed.

Lemma fold_min_fin (r : list Q) (a : Q) :
  exists m,
    fold_left (fun acc y => if Num.ltb y acc then y else acc) (map Fin r) (Fin a)
    = Fin m
    /\ In m (a :: r) /\ forall v, In v (a :: r) -> m <= v.
Proof.
  revert a. induction r as [| b r IH]; intros a.
  - exists a. split; [reflexivity |]. split; [now left |].
    intros v [<- | []]. apply Qle_refl.
  - cbn [map fold_left].
    destruct (Num.ltb (Fin b) (Fin a)) eqn:E.
    + apply ltb_fin in E. destruct (IH b) as (m & Hm & Hin & Hle).
      exists m. split; [exact Hm |]. split.
      * destruct Hin as [<- | Hin]; [right; now left | right; now right].
      * intros v [<- | [<- | Hv]].
        -- pose proof (Hle b (or_introl eq_refl)). lra.
        -- apply Hle. now left.
        -- apply Hle. now right.
    + assert (Hab : a <= b).
      { destruct (Qlt_le_dec b a) as [H | H]; [| exact H].
        apply ltb_fin in H. congruence. }
      destruct (IH a) as (m & Hm & Hin & Hle).
      exists m. split; [exact Hm |]. split.
      * destruct Hin as [<- | Hin]; [now left | right; now right].
      * intros v [<- | [<- | Hv]].
        -- apply Hle. now left.
        -- pose proof (Hle a (or_introl eq_refl)). lra.
        -- apply Hle. now right.
Qed.

Lemma fold_max_fin (r : list Q) (a : Q) :
  exists m,
    fold_left (fun acc y => if Num.ltb acc y then y else acc) (map Fin r) (Fin a)
    = Fin m
    /\ In m (a :: r) /\ forall v, In v (a :: r) -> v <= m.
Proof.
  revert a. induction r as [| b r IH]; intros a.
  - exists a. split; [reflexivity |]. split; [now left |].
    intros v [<- | []]. apply Qle_refl.
  - cbn [map fold_left].
    destruct (Num.ltb (Fin a) (Fin b)) eqn:E.
    + apply ltb_fin in E. destruct (IH b) as (m & Hm & Hin & Hle).
      exists m. split; [exact Hm |]. split.
      * destruct Hin as [<- | Hin]; [right; now left | right; now right].
      * intros v [<- | [<- | Hv]].
        -- pose proof (Hle b (or_introl eq_refl)). lra.
        -- apply Hle. now left.
        -- apply Hle. now right.
    + assert (Hab : b <= a).
      { destruct (Qlt_le_dec a b) as [H | H]; [| exact H].
        apply ltb_fin in H. congruence. }
      destruct (IH a) as (m & Hm & Hin & Hle).
      exists m. split; [exact Hm |]. split.
      * destruct Hin as [<- | Hin]; [now left | right; now right].
      * intros v [<- | [<- | Hv]].
        -- apply Hle. now left.
        -- pose proof (Hle a (or_introl eq_refl)). lra.
        -- apply Hle. now right.
Qed.

(** The smallest and the largest of a series of numbers. *)
Lemma nmin_fin (x : list Q) :
  x <> [] ->
  exists m, nmin (map Fin x) = Fin m /\ In m x /\ forall v, In v x -> m <= v.
Proof.
  intros Hx. unfold nmin. rewrite filter_no_nan.
  destruct x as [| a r]; [congruence |]. cbn [map]. apply fold_min_fin.
Qed.

Lemma nmax_fin (x : list Q) :
  x <> [] ->
  exists m, nmax (map Fin x) = Fin m /\ In m x /\ forall v, In v x -> v <= m.
Proof.
  intros Hx. unfold nmax. rewrite filter_no_nan.
  destruct x as [| a r]; [congruence |]. cbn [map]. apply fold_max_fin.
Qed.

Lemma linspace_length (a b : num) (n : nat) : List.length (linspace a b n) = n.
Proof. unfold linspace. now rewrite length_map, length_seq. Qed.

(** A hundred points between two numbers: the first is the start, the
    last the end, and none is outside. *)
Lemma linspace_100 (a b : Q) :
  a <= b ->
  (exists q, nth_error (linspace (Fin a) (Fin b) 100) 0 = Some (Fin q) /\ q == a)
  /\ (exists q, nth_error (linspace (Fin a) (Fin b) 100) 99 = Some (Fin q) /\ q == b)
  /\ Forall (fun v => exists q, v = Fin q /\ a <= q <= b)
            (linspace (Fin a) (Fin b) 100).
Proof.
  intros Hab. unfold linspace.
  assert (Hs : ((Fin b - Fin a) / of_Z (Z.of_nat (100 - 1)))%num
               = Fin ((b + - a) / inject_Z 99)).
  { unfold Num.sub. cbn [Num.neg Num.add]. unfold of_Z.
    change (Z.of_nat (100 - 1)) with 99%Z. apply div_fin. discriminate. }
  rewrite Hs. split; [| split].
  - eexists. split; [reflexivity |]. cbn. field.
  - eexists. split.
    + rewrite nth_error_map.
      change (nth_error (seq 0 100) 99) with (Some 99%nat). reflexivity.
    + change (inject_Z (Z.of_nat 99)) with (inject_Z 99). field.
  - apply Forall_forall. intros v Hv. apply in_map_iff in Hv.
    destruct Hv as (i & <- & Hi). apply in_seq in Hi.
    eexists. split; [reflexivity |].
    assert (H0 : 0 <= inject_Z (Z.of_nat i)).
    { change 0 with (inject_Z 0). rewrite <- Zle_Qle. lia. }
    assert (H99 : inject_Z (Z.of_nat i) <= 99).
    { change 99 with (inject_Z 99). rewrite <- Zle_Qle. lia. }
    set (r := inject_Z (Z.of_nat i)) in *.
    assert (E : r * ((b + - a) / inject_Z 99) == (r / 99) * (b - a))
      by (change (inject_Z 99) with 99; field).
    rewrite E.
    assert (Hr0 : 0 <= r / 99) by (apply Qle_shift_div_l; lra).
    assert (Hr1 : r / 99 <= 1) by (apply Qle_shift_div_r; lra).
    split; nra.
Qed.

(** The polynomial of a slope and an intercept is the line. *)
Lemma poly1d_line (m b : num) (q : Q) :
  poly1d [m; b] (Fin q) =n= (m * Fin q + b)%num.
Proof.
  unfold poly1d. cbn [fold_left].
  destruct m as [a | | |], b as [c | | |];
    cbn [Num.mul Num.add]; unfold inf_times;
    try (destruct (sign q)); cbn [Num.add Num.same];
    first [exact I | ring].
Qed.

Section LibraryResults.
Variable polyfit : list Z -> list Q -> nat -> result (list num).
Variable linregress : list Q -> list Q -> result (num * num).
Variable pearsonr : list Q -> list Q -> result num.

(** X13: Figure 10 scatters the men's and the women's rows of the departments,
    but fits the line and the correlation to every selected row, those of
    both sexes included.  The line has a hundred points, each at the
    height slope * x + intercept; with at least one row selected they run
    from the smallest to the largest rate. *)
Theorem fig10_regression_line (t : list Obs) (p : plot10) :
  fig10_plot linregress pearsonr (frame_of t) = Ok p ->
  let sel := filter (fun o => is_ causa_mortalidad "General" o
                              && is_ nivel_geografico "HOSPITAL/ZONA SALUD" o) t in
  let x := map tasa_mortalidad sel in
  let y := map esperanza_vida sel in
  map fst (p10_points p) = ["Hombres"; "Mujeres"]
  /\ (forall s pts, In (s, pts) (p10_points p) ->
        pts = map (fun o => (tasa_mortalidad o, esperanza_vida o))
                  (filter (is_ sexo s) sel))
  /\ pearsonr x y = Ok (p10_corr p)
  /\ List.length (p10_line p) = 100%nat
  /\ exists slope intercept,
       linregress x y = Ok (slope, intercept)
       /\ Forall (fun pt => snd pt = (slope * fst pt + intercept)%num) (p10_line p)
       /\ (sel <> [] ->
           exists lo hi,
             In lo x /\ In hi x /\ (forall v, In v x -> lo <= v <= hi)
             /\ (exists q, nth_error (map fst (p10_line p)) 0 = Some (Fin q)
                           /\ q == lo)
             /\ (exists q, nth_error (map fst (p10_line p)) 99 = Some (Fin q)
                           /\ q == hi)).
Proof.
  intros H sel x y. unfold fig10_plot in H.
  rewrite need_frame_of in H by reflexivity. cbn [rbind mapM] in H.
  match type of H with
  | context [need ?d ?n] => change (need d n) with (Ok tt : result unit) in H
  end.
  cbn [rbind] in H.
  unfold where_ in H. cbn [rows frame_of columns] in H.
  fold sel in H. fold x in H. fold y in H.
  remember (linspace (nmin (map Fin x)) (nmax (map Fin x)) 100) as x_line eqn:Exl.
  destruct (linregress x y) as [[slope intercept] |] eqn:El; [| discriminate].
  cbn [rbind fst snd] in H.
  destruct (pearsonr x y) as [corr |] eqn:Ep; [| discriminate].
  cbn [rbind] in H. injection H as <-.
  cbn [p10_points p10_line p10_corr map fst].
  split; [reflexivity |]. split.
  { intros s pts [E | [E | []]]; injection E as <- <-; reflexivity. }
  split; [reflexivity |].
  assert (Hlen : List.length x_line = 100%nat)
    by (rewrite Exl; apply linspace_length).
  assert (Hfst : map fst (combine x_line
                            (map (fun v => (slope * v + intercept)%num) x_line))
                 = x_line).
  { clear. induction x_line as [| v r IH]; [reflexivity |].
    cbn [map combine fst]. now rewrite IH. }
  split.
  { rewrite length_combine, length_map, Hlen. reflexivity. }
  exists slope, intercept. split; [reflexivity |]. split.
  - clear. induction x_line as [| v r IH]; [constructor |].
    cbn [map combine]. constructor; [reflexivity | exact IH].
  - intros Hsel. rewrite Hfst.
    assert (Hx : x <> []) by (unfold x; now rewrite map_nil_iff).
    destruct (nmin_fin x Hx) as (lo & Elo & Hlo & Hmin).
    destruct (nmax_fin x Hx) as (hi & Ehi & Hhi & Hmax).
    exists lo, hi. split; [exact Hlo |]. split; [exact Hhi |].
    split; [intros v Hv; split; [now apply Hmin | now apply Hmax] |].
    rewrite Exl, Elo, Ehi.
    destruct (linspace_100 lo hi (Hmin hi Hhi)) as (H0 & H99 & _).
    split; assumption.
Qed.

(** X12: Figure 9 fits the trend to the points of the both-sexes line and draws
    it at the years of that line; when [polyfit] returns a slope and an
    intercept, each point of the trend is at slope * year + intercept. *)
Theorem fig9_trend_line (t : list Obs) (p : plot9) :
  fig9_plot polyfit (frame_of t) = Ok p ->
  map fst (p9_lines p) = ["Ambos sexos"; "Hombres"; "Mujeres"]
  /\ exists pts z,
       In ("Ambos sexos", pts) (p9_lines p)
       /\ polyfit (map fst pts) (map snd pts) 1 = Ok z
       /\ map fst (p9_trend p) = map fst pts
       /\ StronglySorted (fun a b => (fst a <= fst b)%Z) (p9_trend p)
       /\ forall m b, z = [m; b] ->
            Forall (fun pt => snd pt =n= (m * of_Z (fst pt) + b)%num) (p9_trend p).
Proof.
  intros H. unfold fig9_plot in H. cbn [mapM] in H.
  rewrite need_frame_of in H by reflexivity. cbn [rbind] in H.
  remember (sort_by_periodo (where_ (frame_of t) (cv_rows "Suicidio" "Ambos sexos")))
    as data eqn:Ed.
  destruct (polyfit (map periodo (rows data)) (map tasa_mortalidad (rows data)) 1)
    as [z |] eqn:Ez; [| discriminate].
  cbn [rbind] in H. ok_inv H. injection H as <-.
  cbn [p9_lines p9_trend map fst].
  split; [reflexivity |].
  exists (serie tasa_mortalidad data), z.
  split; [now left |].
  unfold serie. rewrite !map_map. cbn [fst snd].
  split; [exact Ez |]. split; [reflexivity |]. split.
  - apply (StronglySorted_map (fun a b => (periodo a <= periodo b)%Z)).
    + intros o1 o2 _ _ Hab. exact Hab.
    + rewrite Ed. apply sort_by_periodo_chronological.
  - intros m b ->. apply Forall_forall. intros pt Hpt.
    apply in_map_iff in Hpt. destruct Hpt as (o & <- & _). cbn [fst snd].
    apply poly1d_line.
Qed.
End LibraryResults.

Lemma fig10_regression_line_witness :
  exists p,
    fig10_plot (fun _ _ => Ok (Fin (-1 # 10), Fin 100)) (fun _ _ => Ok (Fin (-1)))
               (frame_of tabla_departamentos) = Ok p
    /\ map fst (p10_points p) = ["Hombres"; "Mujeres"]
    /\ List.length (p10_line p) = 100%nat.
Proof.
  destruct (fig10_plot (fun _ _ => Ok (Fin (-1 # 10), Fin 100))
                       (fun _ _ => Ok (Fin (-1)))
                       (frame_of tabla_departamentos)) as [p |] eqn:E;
    [| vm_compute in E; discriminate].
  destruct (fig10_regression_line _ _ _ p E) as (Hp & _ & _ & Hl & _).
  exists p. split; [reflexivity |]. split; [exact Hp | exact Hl].
Defined.

Lemma fig9_trend_line_witness :
  exists p,
    fig9_plot (fun _ _ _ => Ok [Fin (1 # 13); Fin 0]) (frame_of (tabla_dashboard 22))
    = Ok p
    /\ map fst (p9_lines p) = ["Ambos sexos"; "Hombres"; "Mujeres"]
    /\ Forall (fun pt => snd pt =n= (Fin (1 # 13) * of_Z (fst pt) + Fin 0)%num)
              (p9_trend p).
Proof.
  destruct (fig9_plot (fun _ _ _ => Ok [Fin (1 # 13); Fin 0])
                      (frame_of (tabla_dashboard 22))) as [p |] eqn:E;
    [| vm_compute in E; discriminate].
  destruct (fig9_trend_line _ _ p E) as (Hl & pts & z & _ & Ez & _ & _ & Hz).
  exists p. split; [reflexivity |]. split; [exact Hl |].
  apply Hz. now injection Ez as <-.
Defined.

(** ** Figure 12 on a table with positive rates *)

Lemma Qsum_pos (l : list Q) :
  l <> [] -> (forall x, In x l -> 0 < x) -> 0 < Qsum l.
Proof.
  induction l as [| a r IH]; [congruence |]. intros _ H.
  cbn [Qsum fold_right]. fold (Qsum r).
  pose proof (H a (or_introl eq_refl)) as Ha.
  destruct r as [| b r'].
  - cbn [Qsum fold_right]. lra.
  - assert (0 < Qsum (b :: r'))
      by (apply IH; [discriminate | intros x Hx; apply H; now right]).
    lra.
Qed.

Lemma mean_pos (l : list Q) :
  l <> [] -> (forall x, In x l -> 0 < x) -> exists q, mean l = Fin q /\ 0 < q.
Proof.
  intros Hl H. rewrite (mean_cons_fin l Hl). eexists. split; [reflexivity |].
  apply Qlt_shift_div_l.
  - change 0 with (inject_Z 0). rewrite <- Zlt_Qlt.
    destruct l; [congruence | cbn [List.length]; lia].
  - rewrite Qmult_0_l. now apply Qsum_pos.
Qed.

Lemma py_max_fin (site : string) (a : Q) (r : list Q) :
  exists m, py_max site (map Fin (a :: r)) = Ok (Fin m).
Proof.
  cbn [map py_max]. destruct (fold_max_fin r a) as (m & E & _).
  exists m. f_equal. exact E.
Qed.

Lemma general_ambos_In (t : list Obs) (f : Obs -> bool) (x : Q) :
  In x (tasa_of (general_ambos (frame_of t)) f)
  <-> In x (map tasa_mortalidad
              (filter (fun o => cv_rows "General" "Ambos sexos" o && f o) t)).
Proof.
  unfold tasa_of, general_ambos, where_. cbn [rows frame_of].
  rewrite <- filter_filter.
  split; apply Permutation_in, Permutation_map, filter_perm;
    [| symmetry]; apply stable_sort_perm.
Qed.

(** X18: On a table whose rates are positive and that has the rows of 2018 or
    2019, of 2020, of 2021 and of 2022 or 2023, figure 12 is drawn: the
    four bars are the baseline, a rate of 2020, a rate of 2021 and the
    mean of 2022-2023, and the bars of the second panel are 0 and the
    three changes relative to the baseline, in per cent. *)
Theorem fig12_drawn (t : list Obs) :
  let sel f := map tasa_mortalidad
                 (filter (fun o => cv_rows "General" "Ambos sexos" o && f o) t) in
  (forall o, In o t -> 0 < tasa_mortalidad o) ->
  sel (isin [2018; 2019]%Z) <> [] -> sel (in_year 2020) <> [] ->
  sel (in_year 2021) <> [] -> sel (isin [2022; 2023]%Z) <> [] ->
  exists p base c20 c21 post,
    fig12_plot (frame_of t) = Ok p
    /\ p12_valores p = [Fin base; Fin c20; Fin c21; Fin post]
    /\ Fin base =n= mean (sel (isin [2018; 2019]%Z))
    /\ In c20 (sel (in_year 2020)) /\ In c21 (sel (in_year 2021))
    /\ Fin post =n= mean (sel (isin [2022; 2023]%Z))
    /\ 0 < base
    /\ p12_variaciones p
       = [Fin 0; Fin ((c20 + - base) / base * 100);
          Fin ((c21 + - base) / base * 100); Fin ((post + - base) / base * 100)].
Proof.
  intros sel Hpos H18 H20 H21 H22.
  set (G := general_ambos (frame_of t)).
  assert (Hne : forall f, sel f <> [] -> tasa_of G f <> []).
  { intros f Hf E. apply Hf. unfold sel. apply map_nil_iff.
    now apply (proj1 (general_ambos_nil t f)). }
  assert (Hp : forall f x, In x (tasa_of G f) -> 0 < x).
  { intros f x Hx. apply general_ambos_In in Hx. apply in_map_iff in Hx.
    destruct Hx as (o & <- & Ho). apply filter_In in Ho. now apply Hpos. }
  destruct (mean_pos _ (Hne _ H18) (Hp _)) as (base & Eb & Hb).
  destruct (mean_pos _ (Hne _ H22) (Hp _)) as (post & Ep & _).
  destruct (values0_ok "covid_2020" _ (Hne _ H20)) as (c20 & E20 & Hc20).
  destruct (values0_ok "covid_2021" _ (Hne _ H21)) as (c21 & E21 & Hc21).
  assert (Hb0 : ~ base == 0) by lra.
  destruct (py_max_fin "ylim" base [c20; c21; post]) as (m1 & E1).
  destruct (py_max_fin "ylim" 0 [(c20 + - base) / base * 100;
                                 (c21 + - base) / base * 100;
                                 (post + - base) / base * 100]) as (m2 & E2).
  cbn [map] in E1, E2.
  eexists _, base, c20, c21, post. split.
  { unfold fig12_plot. rewrite need_frame_of by reflexivity. cbn [rbind].
    unfold fig12_pre_covid. fold G. rewrite Eb, Ep, E20, E21. cbn [rbind].
    rewrite E1. cbn [rbind Num.mul set_lim is_finite].
    rewrite !(pc_fin base) by exact Hb0.
    rewrite E2.
    cbn [rbind Num.mul set_lim is_finite]. reflexivity. }
  cbn [p12_valores p12_variaciones].
  split; [reflexivity |].
  split.
  { rewrite <- Eb. unfold G, sel. rewrite (general_ambos_tasa (frame_of t)).
    cbn [rows frame_of]. rewrite filter_filter. reflexivity. }
  split.
  { apply (proj1 (general_ambos_In t _ c20)). fold G.
    destruct (tasa_of G (in_year 2020)); [discriminate Hc20 |].
    injection Hc20 as ->. now left. }
  split.
  { apply (proj1 (general_ambos_In t _ c21)). fold G.
    destruct (tasa_of G (in_year 2021)); [discriminate Hc21 |].
    injection Hc21 as ->. now left. }
  split.
  { rewrite <- Ep. unfold G, sel. rewrite (general_ambos_tasa (frame_of t)).
    cbn [rows frame_of]. rewrite filter_filter. reflexivity. }
  split; [exact Hb | reflexivity].
Qed.

Lemma fig12_drawn_witness :
  exists p,
    fig12_plot (frame_of (tabla_dashboard 22)) = Ok p
    /\ exists base c20 c21 post,
         p12_valores p = [Fin base; Fin c20; Fin c21; Fin post] /\ 0 < base.
Proof.
  destruct (fig12_drawn (tabla_dashboard 22)) as (p & base & c20 & c21 & post & H).
  - intros o Ho. cbn in Ho.
    repeat (destruct Ho as [<- | Ho]; [reflexivity |]). destruct Ho.
  - vm_compute. discriminate.
  - vm_compute. discriminate.
  - vm_compute. discriminate.
  - vm_compute. discriminate.
  - destruct H as (E & Hv & _ & _ & _ & _ & Hb & _).
    exists p. split; [exact E |]. exists base, c20, c21, post.
    split; [exact Hv | exact Hb].
Defined.

(** ** The departments of the dashboard *)

Lemma fig13_plot_depts (t : list Obs) (p : plot13) :
  fig13_plot (frame_of t) = Ok p ->
  p13_depts p = map fst (nsmallest 3 (fig13_ranking t)) ++ ["..."]
                ++ rev (map fst (nlargest 3 (fig13_ranking t)))
  /\ p13_vals p = map snd (nsmallest 3 (fig13_ranking t)) ++ [Fin 0]
                  ++ rev (map snd (nlargest 3 (fig13_ranking t)))
  /\ p13_disparidad p = pc (nmin (map snd (fig13_ranking t)))
                           (nmax (map snd (fig13_ranking t))).
Proof.
  intros H. unfold fig13_plot in H. ok_inv H. injection H as <-.
  cbn [p13_depts p13_vals p13_disparidad]. repeat split; reflexivity.
Qed.

Lemma fig13_ranking_In (t : list Obs) (u : string) (v : num) :
  In (u, v) (fig13_ranking t)
  <-> In u (map ubicacion (filter departamentos t))
      /\ v = mean (map tasa_mortalidad
                     (filter (is_ ubicacion u) (filter departamentos t))).
Proof.
  unfold fig13_ranking.
  rewrite (groupby_mean_In str_cmp String_as_OT.lt str_cmp_spec).
  rewrite (filter_ext _ _ (key_is_str ubicacion u)). reflexivity.
Qed.

Lemma finite_not_nan {A} (s : list (A * num)) :
  Forall (fun kv => is_finite (snd kv) = true) s ->
  filter (fun p => negb (is_nan (snd p))) s = s.
Proof.
  induction 1 as [| [k v] r Hv _ IH]; [reflexivity |].
  cbn [filter snd] in *. destruct v; try discriminate Hv. cbn. now rewrite IH.
Qed.

Lemma finite_values {A} (s : list (A * num)) :
  Forall (fun kv => is_finite (snd kv) = true) s ->
  exists qs, map snd s = map Fin qs.
Proof.
  induction 1 as [| [k v] r Hv _ (qs & IH)]; [now exists [] |].
  cbn [snd] in Hv. destruct v as [q | | |]; try discriminate Hv.
  exists (q :: qs). cbn [map snd]. now rewrite IH.
Qed.

(** The first row of a series of numbers sorted by value holds the least
    of them in an ascending order, the greatest in a descending one. *)
Lemma sorted_head {A} (asc : bool) (s : list (A * num)) :
  s <> [] ->
  Forall (fun kv => is_finite (snd kv) = true) s ->
  exists k q r,
    take s (nargsort asc (map snd s)) = (k, Fin q) :: r
    /\ In (Fin q) (map snd s)
    /\ forall v, In (Fin v) (map snd s) -> if asc then q <= v else v <= q.
Proof.
  intros Hs Hf.
  pose proof (take_nargsort_perm asc snd s) as Hp.
  pose proof (take_nargsort_sorted asc snd s) as Hso.
  destruct (take s (nargsort asc (map snd s))) as [| [k x] r] eqn:E.
  - apply Permutation_nil in Hp. contradiction.
  - assert (Hin : In (k, x) s) by (apply (Permutation_in _ Hp); now left).
    rewrite Forall_forall in Hf. pose proof (Hf _ Hin) as Hx. cbn [snd] in Hx.
    destruct x as [q | | |]; try discriminate Hx.
    exists k, q, r. split; [reflexivity |]. split.
    + apply in_map_iff. exists (k, Fin q). split; [reflexivity | exact Hin].
    + intros v Hv. apply in_map_iff in Hv. destruct Hv as ([k' x'] & Ex & Hk).
      cbn [snd] in Ex. subst x'.
      apply (Permutation_in _ (Permutation_sym Hp)) in Hk.
      inversion Hso as [| ? ? _ Hall]; subst. rewrite Forall_forall in Hall.
      destruct Hk as [Hk | Hk].
      * injection Hk as _ ->. destruct asc; apply Qle_refl.
      * specialize (Hall _ Hk). cbn [snd] in Hall.
        destruct asc.
        -- destruct (Qlt_le_dec v q) as [Hlt | Hle]; [| exact Hle].
           apply ltb_fin in Hlt. congruence.
        -- destruct (Qlt_le_dec q v) as [Hlt | Hle]; [| exact Hle].
           apply ltb_fin in Hlt. congruence.
Qed.

(** X19: When the dashboard is drawn on a table with at least one department
    row, its panel of departments has at most seven bars with the bar
    [...] among them; the first bar has the smallest of the department
    means and the last bar the largest, and the disparity shown is the
    percent change from the smallest mean to the largest. *)
Theorem dashboard_department_extremes (t : list Obs) (p : plot13) :
  fig13_plot (frame_of t) = Ok p ->
  filter departamentos t <> [] ->
  exists lo hi,
    In (Fin lo) (map snd (fig13_ranking t))
    /\ In (Fin hi) (map snd (fig13_ranking t))
    /\ (forall v, In (Fin v) (map snd (fig13_ranking t)) -> lo <= v <= hi)
    /\ p13_disparidad p = pc (Fin lo) (Fin hi)
    /\ (exists q, hd_error (p13_vals p) = Some (Fin q) /\ q == lo)
    /\ (exists q, last (p13_vals p) NaN = Fin q /\ q == hi)
    /\ (List.length (p13_depts p) <= 7)%nat
    /\ In "..." (p13_depts p).
Proof.
  intros H Hsel. apply fig13_plot_depts in H. destruct H as (Hd & Hv & Hdis).
  set (R := fig13_ranking t) in *.
  assert (Hf : Forall (fun kv => is_finite (snd kv) = true) R)
    by apply (groupby_mean_finite str_cmp String_as_OT.lt
                String_as_OT.lt_strorder str_cmp_spec).
  assert (HR : R <> []).
  { intros E. apply (f_equal (map fst)) in E. unfold R, fig13_ranking in E.
    rewrite groupby_mean_keys in E. cbn [map] in E.
    revert E. apply group_keys_nonempty. now rewrite map_nil_iff. }
  destruct (finite_values R Hf) as (qs & Eqs).
  assert (Hqs : qs <> []).
  { intros ->. cbn [map] in Eqs. apply map_eq_nil in Eqs. contradiction. }
  destruct (nmin_fin qs Hqs) as (lo & Elo & Hlo & Hmin).
  destruct (nmax_fin qs Hqs) as (hi & Ehi & Hhi & Hmax).
  assert (Hin : forall v, In (Fin v) (map snd R) <-> In v qs).
  { intros v. rewrite Eqs, in_map_iff. split.
    - intros (x & E & Hx). now injection E as <-.
    - intros Hx. now exists v. }
  destruct (sorted_head true R HR Hf) as (k0 & q0 & r0 & E0 & Hq0 & Hle0).
  destruct (sorted_head false R HR Hf) as (k1 & q1 & r1 & E1 & Hq1 & Hle1).
  exists lo, hi.
  split; [now apply Hin |]. split; [now apply Hin |].
  split.
  { intros v Hv'. apply Hin in Hv'. split; [now apply Hmin | now apply Hmax]. }
  split; [now rewrite Hdis, Eqs, Elo, Ehi |].
  unfold nsmallest, nlargest in Hd, Hv.
  rewrite (finite_not_nan R Hf) in Hd, Hv. rewrite E0, E1 in Hd, Hv.
  change (firstn 3 ((k0, Fin q0) :: r0)) with ((k0, Fin q0) :: firstn 2 r0)
    in Hd, Hv.
  change (firstn 3 ((k1, Fin q1) :: r1)) with ((k1, Fin q1) :: firstn 2 r1)
    in Hd, Hv.
  cbn [map fst snd rev] in Hd, Hv.
  split; [| split; [| split]].
  - exists q0. rewrite Hv. split; [reflexivity |].
    apply Qle_antisym.
    + apply Hle0. now apply Hin.
    + apply Hmin. now apply Hin.
  - exists q1. rewrite Hv. split.
    + rewrite !app_assoc. apply last_last.
    + apply Qle_antisym.
      * apply Hmax. now apply Hin.
      * apply Hle1. now apply Hin.
  - rewrite Hd. rewrite !length_app. cbn [List.length].
    rewrite length_rev, !length_map, !length_firstn. lia.
  - rewrite Hd. apply in_or_app. right. now left.
Qed.

Lemma dashboard_department_extremes_witness :
  exists p lo hi,
    fig13_plot (frame_of (tabla_dashboard 22)) = Ok p
    /\ p13_disparidad p = pc (Fin lo) (Fin hi)
    /\ lo <= hi
    /\ In "..." (p13_depts p).
Proof.
  destruct (fig13_plot (frame_of (tabla_dashboard 22))) as [p |] eqn:E;
    [| vm_compute in E; discriminate].
  destruct (dashboard_department_extremes _ p E) as (lo & hi & Hlo & _ & Hb & Hd & _ & _ & _ & Hi).
  - vm_compute. discriminate.
  - exists p, lo, hi. split; [reflexivity |]. split; [exact Hd |].
    split; [| exact Hi]. destruct (Hb lo Hlo) as [_ Hle]. exact Hle.
Defined.
